(** * Hybrid monthly run-rate prediction: a shallow embedding

    The development follows the prediction server of the repository
    (the file with [validateNotFutureSelection], [predictMonth],
    [loadPreviousMonthData], [calculateConfidenceHybrid] and
    [predictMonthHybrid]).

    - [JsDate] models the parts of the ECMAScript [Date] built-in the code
      calls: [Date.UTC], [getUTCFullYear], [getUTCMonth], [getUTCDate].
    - [JsNumber] is the interface of JavaScript number arithmetic used by the
      engine, with two instances: exact rationals and IEEE 754 binary64
      (the arithmetic the program really runs on).
    - The engine itself is written once, over any [JsNumber].
    - [JsOrder] holds the laws of [<=] and [===] that both arithmetics
      satisfy; facts about the order of scores are proved from them.
    - [TimeClip] marks the range of [Date]; facts about dates are stated
      inside it. *)

From Stdlib Require Import ZArith QArith Qabs Qround Bool List String Ascii Lia Lqa.
From Stdlib Require Import Permutation Sorted OrdersEx.
From Stdlib Require Import DecimalString SpecFloat FloatOps.
Import ListNotations.

Local Open Scope Z_scope.

(* ===================================================================== *)
(** * Part I: definitions                                                 *)
(* ===================================================================== *)

(** ** The ECMAScript date built-ins used by the server *)

Module JsDate.

Definition msPerDay : Z := 86400000.

(** [Day(t)] *)
Definition Day (t : Z) : Z := t / msPerDay.

(** [DaysInYear(y)], the Gregorian leap rule. *)
Definition DaysInYear (y : Z) : Z :=
  if negb (y mod 4 =? 0) then 365
  else if negb (y mod 100 =? 0) then 366
  else if negb (y mod 400 =? 0) then 365
  else 366.

(** [InLeapYear] as a number, 0 or 1. *)
Definition leap (y : Z) : Z := DaysInYear y - 365.

(** [DayFromYear(y)]: day number of the first day of year [y]. *)
Definition DayFromYear (y : Z) : Z :=
  365 * (y - 1970) + (y - 1969) / 4 - (y - 1901) / 100 + (y - 1601) / 400.

(** [YearFromTime], on day numbers: the largest [y] with
    [DayFromYear y <= d].  The mean year has 146097/400 days, which gives
    an estimate that is off by at most one. *)
Definition YearFromDay (d : Z) : Z :=
  let y0 := 1970 + (400 * d) / 146097 in
  if DayFromYear (y0 + 1) <=? d then y0 + 1
  else if DayFromYear y0 <=? d then y0
  else y0 - 1.

Definition DayWithinYear (d : Z) : Z := d - DayFromYear (YearFromDay d).

(** Day within the year on which month [mn] (0-based) starts; [L] is the
    leap-year flag.  The thresholds of [MonthFromTime]. *)
Definition monthStart (mn L : Z) : Z :=
  match mn with
  | 0 => 0
  | 1 => 31
  | 2 => 59 + L
  | 3 => 90 + L
  | 4 => 120 + L
  | 5 => 151 + L
  | 6 => 181 + L
  | 7 => 212 + L
  | 8 => 243 + L
  | 9 => 273 + L
  | 10 => 304 + L
  | 11 => 334 + L
  | _ => 365 + L
  end.

(** [MonthFromTime], on day numbers (0-based month). *)
Definition MonthFromDay (d : Z) : Z :=
  let L := leap (YearFromDay d) in
  let w := DayWithinYear d in
  if w <? monthStart 1 L then 0
  else if w <? monthStart 2 L then 1
  else if w <? monthStart 3 L then 2
  else if w <? monthStart 4 L then 3
  else if w <? monthStart 5 L then 4
  else if w <? monthStart 6 L then 5
  else if w <? monthStart 7 L then 6
  else if w <? monthStart 8 L then 7
  else if w <? monthStart 9 L then 8
  else if w <? monthStart 10 L then 9
  else if w <? monthStart 11 L then 10
  else 11.

(** [DateFromTime], on day numbers (1-based day of the month). *)
Definition DateFromDay (d : Z) : Z :=
  DayWithinYear d - monthStart (MonthFromDay d) (leap (YearFromDay d)) + 1.

(** [MakeDay(year, month, date)] for integral arguments. *)
Definition MakeDay (year month date : Z) : Z :=
  let ym := year + month / 12 in
  let mn := month mod 12 in
  DayFromYear ym + monthStart mn (leap ym) + date - 1.

(** [MakeFullYear(year)]: a two-digit year means 19xx. *)
Definition MakeFullYear (year : Z) : Z :=
  if (0 <=? year) && (year <=? 99) then 1900 + year else year.

(** [Date.UTC(year, month, date)] for integral arguments.  The result is a
    time value in milliseconds.  ECMAScript clips time values beyond
    8.64e15 ms (years outside -271821..275760) to NaN; the model covers the
    unclipped range. *)
Definition UTC (year month date : Z) : Z :=
  msPerDay * MakeDay (MakeFullYear year) month date.

Definition getUTCFullYear (t : Z) : Z := YearFromDay (Day t).
Definition getUTCMonth (t : Z) : Z := MonthFromDay (Day t).
Definition getUTCDate (t : Z) : Z := DateFromDay (Day t).

(** Length of the 1-based month [m] of year [y], as a table; used only to
    state what [getDaysInMonth] computes. *)
Definition monthLength (y m : Z) : Z :=
  match m with
  | 2 => 28 + leap y
  | 4 | 6 | 9 | 11 => 30
  | _ => 31
  end.

End JsDate.

(** [getDaysInMonth(year, month)]:
    [new Date(Date.UTC(year, month, 0)).getUTCDate()]. *)
Definition getDaysInMonth (year month : Z) : Z :=
  JsDate.getUTCDate (JsDate.UTC year month 0).

(** [utcMidnightMs(year, month, day)]: [Date.UTC(year, month - 1, day)]. *)
Definition utcMidnightMs (year month day : Z) : Z :=
  JsDate.UTC year (month - 1) day.

(** ** JavaScript numbers *)

(** The operations on JavaScript numbers the engine uses.  Counts and
    calendar numbers, which the code only ever holds as small integers, are
    kept in [Z] and enter number arithmetic through [ofZ]. *)
Class JsNumber (N : Type) : Type := {
  ofZ : Z -> N;
  add : N -> N -> N;
  sub : N -> N -> N;
  mul : N -> N -> N;
  div : N -> N -> N;
  (** [a < b], [a <= b], [a === b] *)
  ltb : N -> N -> bool;
  leb : N -> N -> bool;
  eqb : N -> N -> bool;
  (** [Math.min(a, b)] *)
  fmin : N -> N -> N;
  (** [parseFloat(x.toFixed(2))] *)
  toFixed2 : N -> N
}.

Declare Scope js_scope.
Delimit Scope js_scope with js.
Infix "+" := add : js_scope.
Infix "-" := sub : js_scope.
Infix "*" := mul : js_scope.
Infix "/" := div : js_scope.
Infix "<?" := ltb : js_scope.
Infix "<=?" := leb : js_scope.
Infix "=?" := eqb : js_scope.
Notation "a >=? b" := (leb b a) (at level 70) : js_scope.
Notation "a >? b" := (ltb b a) (at level 70) : js_scope.

(** *** Exact arithmetic: the rationals *)

Module ExactNumber.

(** [toFixed(2)] picks the integer [n] with [n / 100] closest to the
    magnitude of [x], the larger one on a tie, and keeps the sign. *)
Definition toFixed2Q (x : Q) : Q :=
  let n := Qfloor (Qabs x * 100 + (1 # 2))%Q in
  if Qle_bool 0 x then (n # 100) else ((- n) # 100).

Definition minQ (a b : Q) : Q := if Qle_bool a b then a else b.

(** Division by zero, which JavaScript answers with [Infinity] or [NaN],
    has no counterpart here: [Qdiv] returns 0. *)
#[export] Instance Q_number : JsNumber Q := {|
  ofZ := inject_Z;
  add := Qplus;
  sub := Qminus;
  mul := Qmult;
  div := Qdiv;
  ltb := fun a b => negb (Qle_bool b a);
  leb := Qle_bool;
  eqb := Qeq_bool;
  fmin := minQ;
  toFixed2 := toFixed2Q
|}.

End ExactNumber.

(** *** IEEE 754 binary64, the program's own arithmetic *)

Module Binary64.

Definition b64 : Type := spec_float.

Definition b64_ofZ (z : Z) : b64 := binary_normalize prec emax z 0 false.

Definition is_nan (x : b64) : bool :=
  match x with S754_nan => true | _ => false end.

(** [Math.min]: NaN if either argument is NaN; [-0] is below [+0]. *)
Definition b64_min (a b : b64) : b64 :=
  if is_nan a then a
  else if is_nan b then b
  else if SFltb a b then a
  else if SFltb b a then b
  else match a with S754_zero true => a | _ => b end.

(** [parseFloat(x.toFixed(2))].  A finite [x = m * 2^e] below 1e21 in
    magnitude is printed as [n / 100] for the integer [n] nearest to
    [100 * |x|] (the larger on a tie), with the sign of [x], and read back
    with correct rounding; from 1e21 on, and for infinities and NaN,
    [toFixed] prints the number itself and reading it back returns it.  A
    zero of either sign is printed without a sign and read back as [+0]. *)
Definition b64_toFixed2 (x : b64) : b64 :=
  match x with
  | S754_finite s m e =>
      let n :=
        if 0 <=? e then Z.pos m * 2 ^ e * 100
        else (2 * 100 * Z.pos m + 2 ^ (- e)) / 2 ^ (- e + 1) in
      if 10 ^ 23 <=? n then x
      else match n with
           | Z.pos p => SFdiv prec emax (S754_finite s p 0) (S754_finite false 100 0)
           | _ => S754_zero s
           end
  | S754_zero _ => S754_zero false
  | _ => x
  end.

#[export] Instance b64_number : JsNumber b64 := {|
  ofZ := b64_ofZ;
  add := SFadd prec emax;
  sub := SFsub prec emax;
  mul := SFmul prec emax;
  div := SFdiv prec emax;
  ltb := SFltb;
  leb := SFleb;
  eqb := SFeqb;
  fmin := b64_min;
  toFixed2 := b64_toFixed2
|}.

End Binary64.

(** ** Strings built by the template literals *)

Definition string_of_Z (z : Z) : string := NilZero.string_of_int (Z.to_int z).

(** [s.padStart(2, '0')] *)
Definition padStart2 (s : string) : string :=
  match String.length s with
  | O => "00"
  | S O => "0" ++ s
  | _ => s
  end%string.

(** [`${year}-${String(month).padStart(2, '0')}`] *)
Definition yearMonthLabel (year month : Z) : string :=
  (string_of_Z year ++ "-" ++ padStart2 (string_of_Z month))%string.

(** ** Constants of the server *)

Definition MIN_DAYS_REQUIRED : Z := 1.
Definition HYBRID_THRESHOLD : Z := 3.

(** ** Request parameters

    [year], [month] and [day] reach the server as [parseInt(...)] of a query
    parameter or [null]: [Some z] is the integer [z], [None] stands for
    [null] and [NaN], which [Number.isFinite] rejects and which are falsy. *)

Definition isFinite (p : option Z) : bool :=
  match p with Some _ => true | None => false end.

(** JavaScript truthiness of such a parameter: [null], [NaN] and [0] are
    falsy. *)
Definition truthy (p : option Z) : bool :=
  match p with Some z => negb (z =? 0) | None => false end.

(** ** Future-date validation *)

Inductive ErrorCode : Set := INVALID_DATE | FUTURE_DATE.

Inductive Validation : Set :=
| ValidationOk
| ValidationRejected (code : ErrorCode) (message : string).

(** [validateNotFutureSelection(year, month, day)]; [now] is the time value
    of [new Date()]. *)
Definition validateNotFutureSelection (now : Z) (year month day : option Z)
  : Validation :=
  let todayYear := JsDate.getUTCFullYear now in
  let todayMonth := JsDate.getUTCMonth now + 1 in
  let todayDay := JsDate.getUTCDate now in
  match year, month with
  | Some year, Some month =>
      if (month <? 1) || (month >? 12) then
        ValidationRejected INVALID_DATE "month out of range (1-12)"
      else if (year >? todayYear) || ((year =? todayYear) && (month >? todayMonth)) then
        ValidationRejected FUTURE_DATE "Future months/years are not allowed"
      else
        match day with
        | Some day =>
            let dim := getDaysInMonth year month in
            if (day <? 1) || (day >? dim) then
              ValidationRejected INVALID_DATE
                ("day out of range (1-" ++ string_of_Z dim ++ ")")
            else
              let selected := utcMidnightMs year month day in
              let today := utcMidnightMs todayYear todayMonth todayDay in
              if selected >? today then
                ValidationRejected FUTURE_DATE "Future dates are not allowed"
              else ValidationOk
        | None => ValidationOk
        end
  | _, _ =>
      if isFinite day then
        ValidationRejected INVALID_DATE "day requires year and month"
      else ValidationOk
  end.

(** [getPreviousMonth(year, month)] *)
Definition getPreviousMonth (year month : Z) : Z * Z :=
  if month =? 1 then (year - 1, 12) else (year, month - 1).

(** ** The prediction engine *)

(** A date string ['YYYY-MM-DD'], held as the three numbers that
    [date.split('-').map(Number)] yields. *)
Record IsoDate : Set := { dateYear : Z; dateMonth : Z; dateDay : Z }.

Inductive PredictionMode : Set := standard | hybrid | standard_fallback.

Inductive ValueSource : Set := actual | projection.

Inductive ConfidenceLevel : Set :=
| exact | very_high | high | medium
| medium_hybrid | low_hybrid | low | very_low.

Record Confidence : Set := {
  level : ConfidenceLevel;
  score : Z;
  description : string;
  enhancement : option string;
  warning : option string
}.

(** What a prediction function does: it answers
    [{ success: false, message }] or [{ success: true, ... }], or it throws
    (a [TypeError] on reading [.date] of [undefined]). *)
Inductive Outcome (R : Type) : Type :=
| Failure (message : string)
| Success (result : R)
| Throws.
Arguments Failure {R} message.
Arguments Success {R} result.
Arguments Throws {R}.

Section Engine.

Context {N : Type} `{JsNumber N}.
Local Open Scope string_scope.
Local Open Scope js_scope.

(** Number literals of the source. *)
Definition lit_0 : N := ofZ 0.
Definition lit_1 : N := ofZ 1.
Definition lit_25 : N := ofZ 25.
Definition lit_50 : N := ofZ 50.
Definition lit_80 : N := ofZ 80.
Definition lit_100 : N := ofZ 100.
(** [0.30] and [0.50]: the number nearest to the decimal, which is what a
    correctly rounded quotient of the two integers gives. *)
Definition lit_0_30 : N := ofZ 30 / ofZ 100.
Definition lit_0_50 : N := ofZ 50 / ofZ 100.

(** One element of [dailyData]: [{ date, energyKwh }]. *)
Record DailyTotal : Type := { date : IsoDate; energyKwh : N }.

(** [data.reduce((sum, d) => sum + d.energyKwh, 0)] *)
Definition sumEnergy (data : list DailyTotal) : N :=
  fold_left (fun sum d => sum + energyKwh d) data lit_0.

(** [data.length] *)
Definition len (data : list DailyTotal) : Z := Z.of_nat (List.length data).

(** *** Adaptive weight *)

(** The object literal [weights]. *)
Definition weights (key : Z) : option N :=
  match key with
  | 1 => Some lit_0_30
  | 2 => Some lit_0_50
  | _ => None
  end.

(** [calculateCurrentMonthWeight(daysAnalyzed)]:
    [weights[daysAnalyzed] || 0.30].  Both entries of the table are truthy,
    so the default is taken exactly when the key is missing. *)
Definition calculateCurrentMonthWeight (daysAnalyzed : Z) : N :=
  match weights daysAnalyzed with
  | Some w => w
  | None => lit_0_30
  end.

(** *** Loading the previous month *)

(** What [fetchReadingsInRange] followed by [calculateHourlyTotals] and
    [calculateDailyTotals] gives for a month and a meter: the query or the
    roll-up throws, or the query returns rows, here already rolled up into
    daily totals (no rows, no daily totals). *)
Inductive PriorFetch : Type :=
| FetchThrows
| FetchReturns (dailyData : list DailyTotal).

Definition PriorLoader : Type := Z -> Z -> string -> PriorFetch.

(** The percentage [loadPreviousMonthData] checks against 50. *)
Definition dataCompleteness (dailyData : list DailyTotal) (year month : Z) : N :=
  (ofZ (len dailyData) / ofZ (getDaysInMonth year month)) * lit_100.

(** [loadPreviousMonthData(year, month, meterId)]; [None] is [null]. *)
Definition loadPreviousMonthData (fetch : PriorLoader)
    (year month : Z) (meterId : string) : option (list DailyTotal) :=
  match fetch year month meterId with
  | FetchThrows => None
  | FetchReturns dailyData =>
      if (len dailyData =? 0)%Z then None
      else if dataCompleteness dailyData year month <? lit_50 then None
      else Some dailyData
  end.

(** *** Confidence *)

(** [calculateConfidenceHybrid(daysAnalyzed, totalDays, isHybridMode,
    hasPreviousData)] *)
Definition calculateConfidenceHybrid (daysAnalyzed totalDays : Z)
    (isHybridMode hasPreviousData : bool) : Confidence :=
  let percentComplete := (ofZ daysAnalyzed / ofZ totalDays) * lit_100 in
  if percentComplete =? lit_100 then
    {| level := exact; score := 100;
       description := "Complete month data - actual value";
       enhancement := None; warning := None |}
  else if percentComplete >=? lit_80 then
    {| level := very_high; score := 90;
       description := "Near-complete month data";
       enhancement := None; warning := None |}
  else if percentComplete >=? lit_50 then
    {| level := high; score := 80;
       description := "Majority of month data available";
       enhancement := None; warning := None |}
  else if percentComplete >=? lit_25 then
    {| level := medium; score := 65;
       description := "Moderate data available";
       enhancement := None; warning := None |}
  else if isHybridMode && hasPreviousData then
    if (daysAnalyzed =? 2)%Z then
      {| level := medium_hybrid; score := 55;
         description := "2 days + previous month hybrid - improved accuracy";
         enhancement := Some "Confidence boosted by previous month data";
         warning := None |}
    else
      {| level := low_hybrid; score := 45;
         description := "1 day + previous month hybrid - stabilized prediction";
         enhancement := Some "Confidence boosted by previous month data";
         warning := None |}
  else if (daysAnalyzed =? 2)%Z then
    {| level := low; score := 35;
       description := "Only 2 days - limited reliability";
       enhancement := None;
       warning := Some "Previous month data unavailable" |}
  else
    {| level := very_low; score := 25;
       description :=
         ("Only " ++ string_of_Z daysAnalyzed ++ " day(s) - minimal reliability")%string;
       enhancement := None;
       warning := Some "Previous month data unavailable" |}.

(** *** Steps shared by [predictMonth] and [predictMonthHybrid] *)

(** Year and month of [dailyData[dailyData.length - 1].date]. *)
Definition latestPeriod (dailyData : list DailyTotal) : option (Z * Z) :=
  option_map (fun d => (dateYear (date d), dateMonth (date d)))
             (nth_error dailyData (List.length dailyData - 1)).

(** Step 2: the requested period, or, when [!year || !month], the period of
    the latest entry.  [None] only if [dailyData] is empty, which the
    callers have excluded before. *)
Definition resolvePeriod (dailyData : list DailyTotal)
    (targetYear targetMonth : option Z) : option (Z * Z) :=
  if truthy targetYear && truthy targetMonth then
    match targetYear, targetMonth with
    | Some year, Some month => Some (year, month)
    | _, _ => latestPeriod dailyData
    end
  else latestPeriod dailyData.

(** Step 3: the callback of [dailyData.filter]. *)
Definition inPeriod (year month : Z) (targetDay : option Z) (d : DailyTotal) : bool :=
  if negb (dateYear (date d) =? year)%Z || negb (dateMonth (date d) =? month)%Z
  then false
  else match targetDay with
       | Some td => if (dateDay (date d) >? td)%Z then false else true
       | None => true
       end.

(** [Number.isFinite(targetDay) ? targetDay : daysPassedMonth] *)
Definition effectiveDayLimit (targetDay : option Z) (daysPassedMonth : Z) : Z :=
  match targetDay with Some td => td | None => daysPassedMonth end.

(** *** [predictMonthHybrid] *)

Record PreviousMonthInfo : Type := {
  prevYear : Z;
  prevMonth : Z;
  prevDaysUsed : Z;
  prevTotalDays : Z;
  prevTotalEnergy : N;
  prevAvgDaily : N
}.

Record CurrentMonthInfo : Type := {
  curDaysUsed : Z;
  curTotalEnergy : N;
  curAvgDaily : N
}.

(** The two shapes of [hybridMetadata]. *)
Inductive HybridMetadata : Type :=
| HybridBlend (previousMonth : PreviousMonthInfo)
              (currentMonth : CurrentMonthInfo)
              (weightCurrent weightPrevious : N)
              (hybridAvgDaily : N)
              (improvement : string)
| HybridFallback (reason : string) (warning' : string).

(** [hybridMetadata.mode] *)
Definition metadataMode (h : HybridMetadata) : PredictionMode :=
  match h with
  | HybridBlend _ _ _ _ _ _ => hybrid
  | HybridFallback _ _ => standard_fallback
  end.

(** [hybridMetadata?.previousMonth != null] *)
Definition hasPreviousMonth (h : option HybridMetadata) : bool :=
  match h with
  | Some (HybridBlend _ _ _ _ _ _) => true
  | _ => false
  end.

(** The object [predictMonthHybrid] returns on success.
    [percentMonthComplete] holds the number [percentComplete]; the source
    renders it with [toFixed(1)].  [hybridDetail] is the field [hybrid] of
    the source. *)
Record HybridResult : Type := {
  year : Z;
  month : Z;
  daysPassedMonth : Z;
  daysInCurrentMonth : Z;
  totalEnergyMonth : N;
  predictedMonthKwh : N;
  averageDailyRate : N;
  percentMonthComplete : N;
  isComplete : bool;
  valueSource : ValueSource;
  targetDay : option Z;
  predictionMode : PredictionMode;
  hybridDetail : option HybridMetadata;
  confidence : Confidence
}.

(** Steps 5.3 to 5.7, previous month data at hand: the prediction, the
    daily rate and the metadata. *)
Definition blendWithPrevious (year month : Z)
    (totalEnergyMonth : N) (daysPassedMonth daysInCurrentMonth : Z)
    (previousMonthData : list DailyTotal) : N * N * HybridMetadata :=
  let avgCurrentMonth := totalEnergyMonth / ofZ daysPassedMonth in
  let '(prevYear, prevMonth) := getPreviousMonth year month in
  let totalEnergyPrevious := sumEnergy previousMonthData in
  let daysInPreviousMonth := getDaysInMonth prevYear prevMonth in
  let avgPreviousMonth := totalEnergyPrevious / ofZ (len previousMonthData) in
  let weightCurrent := calculateCurrentMonthWeight daysPassedMonth in
  let weightPrevious := lit_1 - weightCurrent in
  let avgHybrid :=
    (avgCurrentMonth * weightCurrent) + (avgPreviousMonth * weightPrevious) in
  let predictedMonthKwh :=
    totalEnergyMonth
    + (avgHybrid * ofZ (Z.max (daysInCurrentMonth - daysPassedMonth) 0)) in
  (predictedMonthKwh, avgHybrid,
   HybridBlend
     {| prevYear := prevYear; prevMonth := prevMonth;
        prevDaysUsed := len previousMonthData;
        prevTotalDays := daysInPreviousMonth;
        prevTotalEnergy := toFixed2 totalEnergyPrevious;
        prevAvgDaily := toFixed2 avgPreviousMonth |}
     {| curDaysUsed := daysPassedMonth;
        curTotalEnergy := toFixed2 totalEnergyMonth;
        curAvgDaily := toFixed2 avgCurrentMonth |}
     weightCurrent weightPrevious
     (toFixed2 avgHybrid)
     ("Using previous month data (" ++ yearMonthLabel prevYear prevMonth
        ++ ") to stabilize prediction")).

Definition fallbackMetadata : HybridMetadata :=
  HybridFallback "Previous month data not available"
                 "Prediction based on limited current month data only".

(** [predictMonthHybrid(dailyData, targetYear, targetMonth, targetDay,
    meterId)]; [fetch] is the data source behind [loadPreviousMonthData]. *)
Definition predictMonthHybrid (fetch : PriorLoader)
    (dailyData : list DailyTotal) (targetYear targetMonth targetDay : option Z)
    (meterId : string) : Outcome HybridResult :=
  (* STEP 1: validate minimum data *)
  if (len dailyData <? MIN_DAYS_REQUIRED)%Z then
    Failure ("Need at least " ++ string_of_Z MIN_DAYS_REQUIRED
             ++ " days of data. Currently have " ++ string_of_Z (len dailyData)
             ++ " day(s).")
  else
  (* STEP 2: determine target period *)
  match resolvePeriod dailyData targetYear targetMonth with
  | None => Throws
  | Some (year, month) =>
  (* STEP 3: filter current month data *)
  let monthData := filter (inPeriod year month targetDay) dailyData in
  if (len monthData <? MIN_DAYS_REQUIRED)%Z then
    Failure ("Need at least " ++ string_of_Z MIN_DAYS_REQUIRED
             ++ " days of " ++ yearMonthLabel year month ++ ".")
  else
  (* STEP 4: current month metrics *)
  let totalEnergyMonth := sumEnergy monthData in
  let daysPassedMonth := len monthData in
  let daysInCurrentMonth := getDaysInMonth year month in
  let avgCurrentMonth := totalEnergyMonth / ofZ daysPassedMonth in
  let effectiveDayLimit := effectiveDayLimit targetDay daysPassedMonth in
  let percentComplete :=
    fmin ((ofZ effectiveDayLimit / ofZ daysInCurrentMonth) * lit_100) lit_100 in
  let isComplete := (effectiveDayLimit >=? daysInCurrentMonth)%Z in
  (* STEP 5: decide mode *)
  let useHybridMode :=
    (daysPassedMonth <? HYBRID_THRESHOLD)%Z && negb isComplete in
  let '(predictedMonthKwh, averageDailyRate, hybridMetadata) :=
    if negb useHybridMode then
      (if isComplete then totalEnergyMonth
       else avgCurrentMonth * ofZ daysInCurrentMonth,
       avgCurrentMonth,
       None)
    else
      let '(prevYear, prevMonth) := getPreviousMonth year month in
      match loadPreviousMonthData fetch prevYear prevMonth meterId with
      | Some previousMonthData =>
          if (len previousMonthData >? 0)%Z then
            let '(p, a, h) :=
              blendWithPrevious year month totalEnergyMonth daysPassedMonth
                                daysInCurrentMonth previousMonthData in
            (p, a, Some h)
          else
            (avgCurrentMonth * ofZ daysInCurrentMonth, avgCurrentMonth,
             Some fallbackMetadata)
      | None =>
          (avgCurrentMonth * ofZ daysInCurrentMonth, avgCurrentMonth,
           Some fallbackMetadata)
      end in
  (* STEP 6: confidence *)
  let confidence :=
    calculateConfidenceHybrid daysPassedMonth daysInCurrentMonth
                              useHybridMode (hasPreviousMonth hybridMetadata) in
  (* STEP 7: result *)
  Success
    {| year := year;
       month := month;
       daysPassedMonth := daysPassedMonth;
       daysInCurrentMonth := daysInCurrentMonth;
       totalEnergyMonth := toFixed2 totalEnergyMonth;
       predictedMonthKwh := toFixed2 predictedMonthKwh;
       averageDailyRate := toFixed2 averageDailyRate;
       percentMonthComplete := percentComplete;
       isComplete := isComplete;
       valueSource := if isComplete then actual else projection;
       targetDay := targetDay;
       predictionMode :=
         match hybridMetadata with
         | Some h => metadataMode h
         | None => standard
         end;
       hybridDetail := hybridMetadata;
       confidence := confidence |}
  end.

End Engine.

Arguments DailyTotal N : clear implicits.
Arguments PriorFetch N : clear implicits.
Arguments PriorLoader N : clear implicits.
Arguments HybridMetadata N : clear implicits.
Arguments HybridResult N : clear implicits.
Arguments PreviousMonthInfo N : clear implicits.
Arguments CurrentMonthInfo N : clear implicits.

(** ** [predictMonth], the run-rate projection without the hybrid step *)

Module RunRate.
Section RunRate.

Context {N : Type} `{JsNumber N}.
Local Open Scope string_scope.
Local Open Scope js_scope.

(** The object [predictMonth] returns on success; [percentMonthComplete]
    as in [HybridResult]. *)
Record MonthResult : Type := {
  year : Z;
  month : Z;
  daysPassedMonth : Z;
  daysInCurrentMonth : Z;
  totalEnergyMonth : N;
  predictedMonthKwh : N;
  averageDailyRate : N;
  percentMonthComplete : N;
  isComplete : bool;
  valueSource : ValueSource;
  targetDay : option Z
}.

(** [predictMonth(dailyData, targetYear, targetMonth, targetDay)] *)
Definition predictMonth (dailyData : list (DailyTotal N))
    (targetYear targetMonth targetDay : option Z) : Outcome MonthResult :=
  if (len dailyData <? MIN_DAYS_REQUIRED)%Z then
    Failure ("Need at least " ++ string_of_Z MIN_DAYS_REQUIRED
             ++ " days of data. Currently have " ++ string_of_Z (len dailyData)
             ++ " day(s).")
  else
  match resolvePeriod dailyData targetYear targetMonth with
  | None => Throws
  | Some (year, month) =>
  let monthData := filter (inPeriod year month targetDay) dailyData in
  if (len monthData <? MIN_DAYS_REQUIRED)%Z then
    Failure ("Need at least " ++ string_of_Z MIN_DAYS_REQUIRED
             ++ " days of " ++ yearMonthLabel year month
             ++ ". Currently have " ++ string_of_Z (len monthData)
             ++ " day(s).")
  else
  let totalEnergyMonth := sumEnergy monthData in
  let daysPassedMonth := len monthData in
  let daysInCurrentMonth := getDaysInMonth year month in
  let effectiveDayLimit := effectiveDayLimit targetDay daysPassedMonth in
  let percentComplete :=
    fmin ((ofZ effectiveDayLimit / ofZ daysInCurrentMonth) * lit_100) lit_100 in
  let isComplete := (effectiveDayLimit >=? daysInCurrentMonth)%Z in
  let predictedMonthKwh :=
    if isComplete then totalEnergyMonth
    else (totalEnergyMonth / ofZ daysPassedMonth) * ofZ daysInCurrentMonth in
  let averageDailyRate := totalEnergyMonth / ofZ daysPassedMonth in
  Success
    {| year := year;
       month := month;
       daysPassedMonth := daysPassedMonth;
       daysInCurrentMonth := daysInCurrentMonth;
       totalEnergyMonth := totalEnergyMonth;
       predictedMonthKwh := predictedMonthKwh;
       averageDailyRate := averageDailyRate;
       percentMonthComplete := percentComplete;
       isComplete := isComplete;
       valueSource := if isComplete then actual else projection;
       targetDay := targetDay |}
  end.

End RunRate.
Arguments MonthResult N : clear implicits.
End RunRate.


(** ** The confidence table as the specification words it

    Thresholds on [percentComplete], evaluated in order, first match wins;
    below all of them the level depends on the hybrid flags and on whether
    exactly two days were observed. *)

Section ConfidenceTable.

Context {N : Type} `{JsNumber N}.
Local Open Scope js_scope.

Definition percentOf (daysObserved daysInPeriod : Z) : N :=
  (ofZ daysObserved / ofZ daysInPeriod) * lit_100.

Definition thresholdRows (percentComplete : N)
  : list (bool * (ConfidenceLevel * Z)) :=
  [ (percentComplete =? lit_100, (exact, 100%Z));
    (percentComplete >=? lit_80, (very_high, 90%Z));
    (percentComplete >=? lit_50, (high, 80%Z));
    (percentComplete >=? lit_25, (medium, 65%Z)) ].

Definition lowDataRow (daysObserved : Z) (isHybrid hasPriorData : bool)
  : ConfidenceLevel * Z :=
  if isHybrid && hasPriorData then
    if (daysObserved =? 2)%Z then (medium_hybrid, 55%Z) else (low_hybrid, 45%Z)
  else
    if (daysObserved =? 2)%Z then (low, 35%Z) else (very_low, 25%Z).

Definition firstMatch {A : Type} (rows : list (bool * A)) (otherwise : A) : A :=
  match find fst rows with
  | Some row => snd row
  | None => otherwise
  end.

Definition scoreTable (daysObserved daysInPeriod : Z)
    (isHybrid hasPriorData : bool) : ConfidenceLevel * Z :=
  firstMatch (thresholdRows (percentOf daysObserved daysInPeriod))
             (lowDataRow daysObserved isHybrid hasPriorData).

End ConfidenceTable.

(** ** Availability of the previous month, as the specification words it

    The previous month is unavailable when the fetch failed, returned
    nothing, or returned a series that covers less than 50% of the month. *)

Section Availability.

Context {N : Type} `{JsNumber N}.

Definition priorUnavailable (f : PriorFetch N) (year month : Z) : Prop :=
  match f with
  | FetchThrows => True
  | FetchReturns dailyData =>
      dailyData = [] \/ ltb (dataCompleteness dailyData year month) lit_50 = true
  end.

Definition priorAvailable (f : PriorFetch N) (year month : Z)
    (previousMonthData : list (DailyTotal N)) : Prop :=
  f = FetchReturns previousMonthData /\ previousMonthData <> [] /\
  ltb (dataCompleteness previousMonthData year month) lit_50 = false.

End Availability.

(** A request meets a sparse period: the period resolves to [year]-[month],
    one or two days of it are observed, and the effective day limit is short
    of the length of the month.  These are the requests for which the engine
    turns to the previous month. *)
Definition sparsePeriod {N : Type} (dailyData : list (DailyTotal N))
    (targetYear targetMonth targetDay : option Z) (year month : Z) : Prop :=
  resolvePeriod dailyData targetYear targetMonth = Some (year, month) /\
  let n := len (filter (inPeriod year month targetDay) dailyData) in
  1 <= n < HYBRID_THRESHOLD /\
  effectiveDayLimit targetDay n < getDaysInMonth year month.


(** ** The calendar order the validation is about *)

(** The code of a rejection, if any. *)
Definition rejection (v : Validation) : option ErrorCode :=
  match v with
  | ValidationOk => None
  | ValidationRejected code _ => Some code
  end.

(** Year and month strictly after the current year and month. *)
Definition laterMonth (year month todayYear todayMonth : Z) : Prop :=
  todayYear < year \/ (year = todayYear /\ todayMonth < month).

(** A full date strictly after today. *)
Definition laterDate (year month day todayYear todayMonth todayDay : Z) : Prop :=
  laterMonth year month todayYear todayMonth \/
  (year = todayYear /\ month = todayMonth /\ todayDay < day).

(** ** Sample requests *)

Module Sample.
Section Sample.

Context {N : Type} `{JsNumber N}.

Definition day (y m d kwh : Z) : DailyTotal N :=
  {| date := {| dateYear := y; dateMonth := m; dateDay := d |};
     energyKwh := ofZ kwh |}.

(** One observed day, January 1, 85 kWh. *)
Definition januaryFirst : list (DailyTotal N) := [ day 2025 1 1 85 ].

(** Two observed days of January. *)
Definition januaryTwoDays : list (DailyTotal N) :=
  [ day 2025 1 1 85; day 2025 1 2 152 ].

(** Complete December 2024, 150 kWh each day. *)
Definition december : list (DailyTotal N) :=
  map (fun d => day 2024 12 (Z.of_nat d) 150) (seq 1 31).

(** A series that holds one day of February only. *)
Definition februaryFirst : list (DailyTotal N) := [ day 2025 2 1 10 ].

(** A data source that has December 2024 and nothing else. *)
Definition decemberOnly : PriorLoader N :=
  fun y m _ => if (y =? 2024) && (m =? 12) then FetchReturns december
               else FetchReturns [].

(** A data source whose queries fail. *)
Definition failing : PriorLoader N := fun _ _ _ => FetchThrows.

End Sample.

(** 3 November 2026, 10:00 UTC, as a time value. *)
Definition now : Z := utcMidnightMs 2026 11 3 + 36000000.

End Sample.

(** ** More of the server: dates as text *)

(** [formatUtcYmd(date)], on the time value of [date]. *)
Definition formatUtcYmd (t : Z) : string :=
  (string_of_Z (JsDate.getUTCFullYear t) ++ "-"
   ++ padStart2 (string_of_Z (JsDate.getUTCMonth t + 1)) ++ "-"
   ++ padStart2 (string_of_Z (JsDate.getUTCDate t)))%string.

(** [`${year}-${pad(month)}-${pad(day)}`], the way the server and the data
    source write a date. *)
Definition ymdLabel (year month day : Z) : string :=
  (string_of_Z year ++ "-" ++ padStart2 (string_of_Z month) ++ "-"
   ++ padStart2 (string_of_Z day))%string.

(** A date of the calendar: month 1..12, day within the month. *)
Definition validDate (year month day : Z) : Prop :=
  1 <= month <= 12 /\ 1 <= day <= getDaysInMonth year month.

(** Calendar order of two dates. *)
Definition earlierDate (y m d y' m' d' : Z) : Prop :=
  y < y' \/ (y = y' /\ m < m') \/ (y = y' /\ m = m' /\ d < d').


(** ** The data source: ranges of dates *)

(** [{ start, end }], two date strings; the range is half open. *)
Record DateRange : Set := { rangeStart : string; rangeEnd : string }.

(** [getMonthRange(year, month)] *)
Definition getMonthRange (year month : Z) : DateRange :=
  let nextMonth := if month =? 12 then 1 else month + 1 in
  let nextYear := if month =? 12 then year + 1 else year in
  {| rangeStart :=
       (string_of_Z year ++ "-" ++ padStart2 (string_of_Z month) ++ "-01")%string;
     rangeEnd :=
       (string_of_Z nextYear ++ "-" ++ padStart2 (string_of_Z nextMonth)
        ++ "-01")%string |}.

(** [getPreviousMonthRange(referenceDate)], on the time value of the
    reference date. *)
Definition getPreviousMonthRange (referenceDate : Z) : DateRange :=
  let year := JsDate.getUTCFullYear referenceDate in
  let month := JsDate.getUTCMonth referenceDate in
  let prevMonth := if month =? 0 then 12 else month in
  let targetYear := if month =? 0 then year - 1 else year in
  getMonthRange targetYear prevMonth.

(** What [loadMonthReadings(year, month, day)] asks of the data source: the
    readings of a range of dates, or, without year or month, those of the
    latest month on record. *)
Inductive ReadingsQuery : Set :=
| QueryRange (startDate endDate : string)
| QueryLatestMonth.

Definition loadMonthReadings (year month day : option Z) : ReadingsQuery :=
  if truthy year && truthy month then
    match year, month with
    | Some year, Some month =>
        let range := getMonthRange year month in
        match day with
        | Some day =>
            let daysInMonth := getDaysInMonth year month in
            let nextDay := Z.min (day + 1) (daysInMonth + 1) in
            if nextDay >? daysInMonth then
              let nextMonth := if month =? 12 then 1 else month + 1 in
              let nextYear := if month =? 12 then year + 1 else year in
              QueryRange (rangeStart range)
                (string_of_Z nextYear ++ "-" ++ padStart2 (string_of_Z nextMonth)
                 ++ "-01")
            else
              QueryRange (rangeStart range)
                (string_of_Z year ++ "-" ++ padStart2 (string_of_Z month) ++ "-"
                 ++ padStart2 (string_of_Z nextDay))
        | None => QueryRange (rangeStart range) (rangeEnd range)
        end
    | _, _ => QueryLatestMonth
    end
  else QueryLatestMonth.

(** What [fetchLatestMonthRange] computes from the latest date on record:
    [{ start, end, year, month }], the two bounds as time values. *)
Record LatestMonthRange : Set := {
  latestStart : Z;
  latestEnd : Z;
  latestYear : Z;
  latestMonth : Z
}.

Definition fetchLatestMonthRange (latest : Z) : LatestMonthRange :=
  let year := JsDate.getUTCFullYear latest in
  let month := JsDate.getUTCMonth latest in
  {| latestStart := JsDate.UTC year month 1;
     latestEnd := JsDate.UTC year (month + 1) 1;
     latestYear := year;
     latestMonth := month + 1 |}.

(** ** The data source: quoting an identifier *)

(** The double quote character. *)
Definition dquote : ascii := "034"%char.

(** The [replace] of [quoteIdent], global over the double quote: every
    double quote is written twice. *)
Fixpoint doubleQuotes (s : string) : string :=
  match s with
  | EmptyString => EmptyString
  | String c rest =>
      if Ascii.eqb c dquote then String dquote (String dquote (doubleQuotes rest))
      else String c (doubleQuotes rest)
  end.

(** [quoteIdent(name)], for a name that is a string. *)
Definition quoteIdent (name : string) : string :=
  String dquote (doubleQuotes name ++ String dquote EmptyString)%string.

(** Reading a quoted identifier back: drop the outer quotes, halve the
    doubled ones. *)
Fixpoint halveQuotes (s : string) : string :=
  match s with
  | EmptyString => EmptyString
  | String c rest =>
      match rest with
      | String c' rest' =>
          if Ascii.eqb c dquote && Ascii.eqb c' dquote
          then String dquote (halveQuotes rest')
          else String c (halveQuotes rest)
      | EmptyString => String c EmptyString
      end
  end.

Fixpoint dropLast (s : string) : string :=
  match s with
  | EmptyString => EmptyString
  | String c EmptyString => EmptyString
  | String c rest => String c (dropLast rest)
  end.

Definition unquoteIdent (s : string) : option string :=
  match s with
  | String c rest => Some (halveQuotes (dropLast rest))
  | EmptyString => None
  end.


(** ** Plain JavaScript objects used as maps

    [const grouped = {}] is an object with string keys.  Its own properties
    are kept in creation order.  Reading [obj[key]] also finds what
    [Object.prototype] provides, and enumerating ([Object.keys],
    [Object.values]) lists the array indices first, in ascending order, then
    the other keys in creation order. *)

Module JsObject.

(** The properties every plain object inherits; all of them hold a function
    or an object, so all read as truthy. *)
Definition objectPrototypeNames : list string :=
  [ "constructor"; "__defineGetter__"; "__defineSetter__"; "hasOwnProperty";
    "__lookupGetter__"; "__lookupSetter__"; "isPrototypeOf";
    "propertyIsEnumerable"; "toString"; "valueOf"; "__proto__";
    "toLocaleString" ]%string.

Definition inheritedName (key : string) : bool :=
  existsb (String.eqb key) objectPrototypeNames.

Definition digitValue (c : ascii) : option Z :=
  let n := Z.of_nat (nat_of_ascii c) in
  if (48 <=? n) && (n <=? 57) then Some (n - 48) else None.

Fixpoint parseDigits (s : string) (acc : Z) : option Z :=
  match s with
  | EmptyString => Some acc
  | String c rest =>
      match digitValue c with
      | Some v => parseDigits rest (10 * acc + v)
      | None => None
      end
  end.

(** An array index: the canonical decimal text of an integer below
    [2^32 - 1]. *)
Definition arrayIndex (key : string) : option Z :=
  match key with
  | EmptyString => None
  | _ =>
      match parseDigits key 0 with
      | Some n =>
          if String.eqb (string_of_Z n) key && (n <=? 4294967294) then Some n
          else None
      | None => None
      end
  end.

Section Properties.

Context {V : Type}.

(** Own properties, in creation order. *)
Definition t : Type := list (string * V).

Definition empty : t := [].

Fixpoint getOwn (key : string) (obj : t) : option V :=
  match obj with
  | [] => None
  | (k, v) :: rest => if String.eqb k key then Some v else getOwn key rest
  end.

(** Writing an own property: in place when it exists, else created last. *)
Fixpoint setOwn (key : string) (v : V) (obj : t) : t :=
  match obj with
  | [] => [(key, v)]
  | (k, v') :: rest =>
      if String.eqb k key then (k, v) :: rest else (k, v') :: setOwn key v rest
  end.

Fixpoint insertIndexed (i : Z) (p : string * V) (l : list (Z * (string * V)))
  : list (Z * (string * V)) :=
  match l with
  | [] => [(i, p)]
  | (j, q) :: rest =>
      if i <=? j then (i, p) :: (j, q) :: rest
      else (j, q) :: insertIndexed i p rest
  end.

(** The array-index properties, in ascending order of index. *)
Fixpoint indexedEntries (obj : t) : list (Z * (string * V)) :=
  match obj with
  | [] => []
  | p :: rest =>
      match arrayIndex (fst p) with
      | Some i => insertIndexed i p (indexedEntries rest)
      | None => indexedEntries rest
      end
  end.

Definition namedEntries (obj : t) : list (string * V) :=
  filter (fun p => match arrayIndex (fst p) with Some _ => false | None => true end)
         obj.

(** The order in which the own properties are enumerated. *)
Definition entries (obj : t) : list (string * V) :=
  map snd (indexedEntries obj) ++ namedEntries obj.

(** [Object.keys(obj)] and [Object.values(obj)] *)
Definition keys (obj : t) : list string := map fst (entries obj).
Definition values (obj : t) : list V := map snd (entries obj).

End Properties.

Arguments t V : clear implicits.

End JsObject.

(** [array.sort(compare)] for a consistent comparison function: the stable
    sort, which is what every insertion in order gives. *)
Fixpoint sortInsert {A : Type} (compare : A -> A -> Z) (x : A) (l : list A) : list A :=
  match l with
  | [] => [x]
  | y :: rest =>
      if compare x y <=? 0 then x :: y :: rest
      else y :: sortInsert compare x rest
  end.

Fixpoint arraySort {A : Type} (compare : A -> A -> Z) (l : list A) : list A :=
  match l with
  | [] => []
  | x :: rest => sortInsert compare x (arraySort compare rest)
  end.

(** What a function that may run into a [TypeError] does. *)
Inductive Completion (A : Type) : Type :=
| Returned (value : A)
| TypeError.
Arguments Returned {A} value.
Arguments TypeError {A}.

(** ** Rolling readings up: meters and days *)

Section Aggregation.

Context {N : Type} `{JsNumber N}.
Local Open Scope string_scope.

(** One reading as the data source returns it. *)
Record Reading : Type := {
  meter_id : string;
  timestamp : string;
  energy_consumed_kwh : N
}.

(** One step of the [forEach] of [groupByMeter].  A meter id that names an
    inherited property is found, is not an array, and [push] on it throws. *)
Definition groupStep (grouped : Completion (JsObject.t (list Reading)))
    (row : Reading) : Completion (JsObject.t (list Reading)) :=
  match grouped with
  | TypeError => TypeError
  | Returned grouped =>
      let meterId := meter_id row in
      match JsObject.getOwn meterId grouped with
      | Some rows => Returned (JsObject.setOwn meterId (rows ++ [row])%list grouped)
      | None =>
          if JsObject.inheritedName meterId then TypeError
          else Returned (JsObject.setOwn meterId [row] grouped)
      end
  end.

(** [groupByMeter(data)] *)
Definition groupByMeter (data : list Reading)
  : Completion (JsObject.t (list Reading)) :=
  fold_left groupStep data (Returned JsObject.empty).

(** One element of [hourlyData]. *)
Record HourlyTotal : Type := {
  hourTimestamp : string;
  hour : Z;
  hourDate : string;
  hourEnergyKwh : N;
  count : Z
}.

(** One element of what [calculateDailyTotals] returns. *)
Record DailySum : Type := {
  dayDate : string;
  dayEnergyKwh : N;
  hoursCount : Z
}.

(** One step of the [forEach] of [calculateDailyTotals].  For a date that
    names an inherited property no entry is created and the two updates land
    on the inherited object, outside [dailyData]. *)
Definition dailyStep (dailyData : JsObject.t DailySum) (h : HourlyTotal)
  : JsObject.t DailySum :=
  let date := hourDate h in
  match JsObject.getOwn date dailyData with
  | Some entry =>
      JsObject.setOwn date
        {| dayDate := dayDate entry;
           dayEnergyKwh := add (dayEnergyKwh entry) (hourEnergyKwh h);
           hoursCount := hoursCount entry + 1 |}
        dailyData
  | None =>
      if JsObject.inheritedName date then dailyData
      else
        JsObject.setOwn date
          {| dayDate := date;
             dayEnergyKwh := add lit_0 (hourEnergyKwh h);
             hoursCount := 0 + 1 |}
          dailyData
  end.

(** [calculateDailyTotals(hourlyData)]; [localeCompare] is the comparison of
    strings of the host. *)
Definition calculateDailyTotals (localeCompare : string -> string -> Z)
    (hourlyData : list HourlyTotal) : list DailySum :=
  arraySort (fun a b => localeCompare (dayDate a) (dayDate b))
            (JsObject.values (fold_left dailyStep hourlyData JsObject.empty)).

(** The hours of one date, in the order of the series. *)
Definition hoursOf (date : string) (hourlyData : list HourlyTotal) : list HourlyTotal :=
  filter (fun h => String.eqb (hourDate h) date) hourlyData.

(** The readings of one meter, in the order of the data. *)
Definition readingsOf (meterId : string) (data : list Reading) : list Reading :=
  filter (fun r => String.eqb (meter_id r) meterId) data.

End Aggregation.

Arguments Reading N : clear implicits.
Arguments HourlyTotal N : clear implicits.
Arguments DailySum N : clear implicits.


(** A list as the value of a property that exists only when there is
    something to hold. *)
Definition someIfAny {A : Type} (l : list A) : option (list A) :=
  match l with
  | [] => None
  | _ => Some l
  end.

(** A series of readings for trying the roll-up: two meters, one of them
    with a numeric id. *)
Module SampleReadings.
Import Binary64.

Definition reading (id ts : string) (kwh : Z) : Reading b64 :=
  {| meter_id := id; timestamp := ts; energy_consumed_kwh := ofZ kwh |}.

Definition twoMeters : list (Reading b64) :=
  [ reading "M2" "2025-01-01 00:15:00" 3;
    reading "10" "2025-01-01 00:15:00" 5;
    reading "M2" "2025-01-01 01:15:00" 4 ]%string.

Definition hourOf (date : string) (h kwh : Z) : HourlyTotal b64 :=
  {| hourTimestamp := date; hour := h; hourDate := date;
     hourEnergyKwh := ofZ kwh; count := 1 |}.

Definition threeHours : list (HourlyTotal b64) :=
  [ hourOf "2025-01-02" 0 7; hourOf "2025-01-01" 23 5; hourOf "2025-01-02" 1 9 ]%string.

End SampleReadings.

(** ** What the daily roll-up holds for one date *)

(** [hours.reduce((sum, h) => sum + h.energyKwh, 0)] *)
Definition sumHours {N : Type} `{JsNumber N} (hours : list (HourlyTotal N)) : N :=
  fold_left (fun sum h => add sum (hourEnergyKwh h)) hours lit_0.

(** The entry of [dailyData] that the hours of one date build up, one
    addition and one increment per hour. *)
Definition dailyEntryOf {N : Type} `{JsNumber N}
    (date : string) (hours : list (HourlyTotal N)) : DailySum N :=
  {| dayDate := date;
     dayEnergyKwh := sumHours hours;
     hoursCount := Z.of_nat (List.length hours) |}.

(** The own property of [dailyData] under one date after a series of hours. *)
Definition dailyOwn {N : Type} `{JsNumber N}
    (date : string) (hourlyData : list (HourlyTotal N)) : option (DailySum N) :=
  if JsObject.inheritedName date then None
  else
    match hoursOf date hourlyData with
    | [] => None
    | hours => Some (dailyEntryOf date hours)
    end.

(** The comparison of strings by code units, which is how [localeCompare]
    orders dates written with digits and hyphens. *)
Definition codeUnitCompare (a b : string) : Z :=
  match String.compare a b with
  | Lt => -1
  | Eq => 0
  | Gt => 1
  end.

(** ** Prediction for the day *)

Definition ROLLING_WINDOW_HOURS : Z := 6.
Definition MIN_HOURS_REQUIRED : Z := 3.

(** [array.slice(start)]: a negative [start] counts from the end. *)
Definition sliceFrom {A : Type} (start : Z) (l : list A) : list A :=
  let n := Z.of_nat (List.length l) in
  let k := if start <? 0 then Z.max (n + start) 0 else Z.min start n in
  skipn (Z.to_nat k) l.

Section Today.

Context {N : Type} `{JsNumber N}.
Local Open Scope string_scope.

(** The object [predictToday] returns on success; [todayDate] is its
    [date]. *)
Record TodayResult : Type := {
  todayDate : string;
  hoursPassedToday : Z;
  totalEnergyToday : N;
  basicPrediction : N;
  rollingPrediction : N;
  rollingWindowUsed : Z;
  averageHourlyRate : N;
  recentHourlyRate : N
}.

(** [predictToday(hourlyData)].  [Throws] stands for reading [date] off a
    missing last element. *)
Definition predictToday (hourlyData : list (HourlyTotal N)) : Outcome TodayResult :=
  if (Z.of_nat (List.length hourlyData) <? MIN_HOURS_REQUIRED)%Z then
    Failure ("Need at least " ++ string_of_Z MIN_HOURS_REQUIRED
             ++ " hours of data. Currently have "
             ++ string_of_Z (Z.of_nat (List.length hourlyData)) ++ " hour(s).")
  else
  match nth_error hourlyData (List.length hourlyData - 1) with
  | None => Throws
  | Some latest =>
  let todayDate := hourDate latest in
  let todayHours := filter (fun h => String.eqb (hourDate h) todayDate) hourlyData in
  if (Z.of_nat (List.length todayHours) <? MIN_HOURS_REQUIRED)%Z then
    Failure ("Need at least " ++ string_of_Z MIN_HOURS_REQUIRED
             ++ " hours of today's data. Currently have "
             ++ string_of_Z (Z.of_nat (List.length todayHours)) ++ " hour(s).")
  else
  let totalEnergyToday := sumHours todayHours in
  let hoursPassedToday := Z.of_nat (List.length todayHours) in
  let basicPrediction := mul (div totalEnergyToday (ofZ hoursPassedToday)) (ofZ 24) in
  let rollingWindowSize :=
    Z.min ROLLING_WINDOW_HOURS (Z.of_nat (List.length todayHours)) in
  let recentHours := sliceFrom (- rollingWindowSize) todayHours in
  let recentAverage :=
    div (sumHours recentHours) (ofZ (Z.of_nat (List.length recentHours))) in
  let rollingPrediction := mul recentAverage (ofZ 24) in
  Success
    {| todayDate := todayDate;
       hoursPassedToday := hoursPassedToday;
       totalEnergyToday := totalEnergyToday;
       basicPrediction := basicPrediction;
       rollingPrediction := rollingPrediction;
       rollingWindowUsed := rollingWindowSize;
       averageHourlyRate := div totalEnergyToday (ofZ hoursPassedToday);
       recentHourlyRate := recentAverage |}
  end.

End Today.

Arguments TodayResult N : clear implicits.

(** Hourly totals for trying the prediction for the day: one hour of the day
    before and four of the day itself. *)
Module SampleHours.
Import Binary64.

Definition hourOf (date : string) (h kwh : Z) : HourlyTotal b64 :=
  {| hourTimestamp := date; hour := h; hourDate := date;
     hourEnergyKwh := ofZ kwh; count := 1 |}.

Definition fourHours : list (HourlyTotal b64) :=
  [ hourOf "2025-01-01" 23 5; hourOf "2025-01-02" 0 7; hourOf "2025-01-02" 1 9;
    hourOf "2025-01-02" 2 6; hourOf "2025-01-02" 3 2 ]%string.

End SampleHours.

(** Three observed days of January. *)
Module SampleMonth.

Definition januaryThreeDays {N : Type} `{JsNumber N} : list (DailyTotal N) :=
  [ Sample.day 2025 1 1 85; Sample.day 2025 1 2 152; Sample.day 2025 1 3 121 ].

End SampleMonth.

(** ** The data source: the query for a range of readings *)

Section RangeQuery.

(** [new Date(text).getTime()] as the host parses the text; [None] is
    [NaN]. *)
Variable dateParse : string -> option Z.

Local Open Scope string_scope.

(** A string, or no value, as a condition: the empty string is falsy. *)
Definition truthyText (value : option string) : bool :=
  match value with
  | Some text => negb (String.eqb text "")
  | None => false
  end.

(** [extractYearMonth(startDate)]; a component is [None] where the source
    has [undefined] or [NaN]. *)
Definition extractYearMonth (startDate : option string) : option Z * option Z :=
  match startDate with
  | Some text =>
      if negb (truthyText startDate) then (None, None)
      else
        match dateParse (text ++ "T00:00:00Z") with
        | Some d => (Some (JsDate.getUTCFullYear d), Some (JsDate.getUTCMonth d + 1))
        | None => (None, None)
        end
  | None => (None, None)
  end.

(** A value sent along with the query. *)
Inductive QueryParam : Type :=
| NumberParam (n : Z)
| TextParam (text : string).

(** The two expressions of [fetchReadingsInRange]: the timestamp and its
    date. *)
Definition tsExpr : string :=
  String dquote ("date" ++ String dquote (" + " ++ String dquote ("time" ++ String dquote ""))).

Definition dateExpr : string := "DATE(" ++ tsExpr ++ ")".

(** [conditions] and [params] of [fetchReadingsInRange] when all four tests
    are through; [startParam] and [endParam] are the date parameters after
    [normalizeDateParam]. *)
Definition rangeConditions (startParam endParam meterId : option string)
  : list string * list QueryParam :=
  let conditions : list string := [] in
  let params : list QueryParam := [] in
  let '(year, month) := extractYearMonth startParam in
  let '(conditions, params) :=
    match year, month with
    | Some y, Some m =>
        if truthy year && truthy month then
          let params := List.app params [NumberParam y; NumberParam m] in
          let conditions :=
            List.app conditions
              ["EXTRACT(YEAR FROM " ++ dateExpr ++ ") = $"
                 ++ string_of_Z (Z.of_nat (List.length params) - 1)] in
          let conditions :=
            List.app conditions
              ["EXTRACT(MONTH FROM " ++ dateExpr ++ ") = $"
                 ++ string_of_Z (Z.of_nat (List.length params))] in
          (conditions, params)
        else (conditions, params)
    | _, _ => (conditions, params)
    end in
  let '(conditions, params) :=
    match startParam with
    | Some text =>
        if truthyText startParam then
          let params := List.app params [TextParam text] in
          (List.app conditions
             [dateExpr ++ " >= $" ++ string_of_Z (Z.of_nat (List.length params))],
           params)
        else (conditions, params)
    | None => (conditions, params)
    end in
  let '(conditions, params) :=
    match endParam with
    | Some text =>
        if truthyText endParam then
          let params := List.app params [TextParam text] in
          (List.app conditions
             [dateExpr ++ " < $" ++ string_of_Z (Z.of_nat (List.length params))],
           params)
        else (conditions, params)
    | None => (conditions, params)
    end in
  match meterId with
  | Some text =>
      if truthyText meterId then
        let params := List.app params [TextParam text] in
        (List.app conditions
           ["meter_id = $" ++ string_of_Z (Z.of_nat (List.length params))],
         params)
      else (conditions, params)
  | None => (conditions, params)
  end.

(** The text and the values that [fetchReadingsInRange] hands to
    [pool.query]. *)
Definition fetchReadingsInRangeQuery (tableIdent : string)
    (startParam endParam meterId : option string) : string * list QueryParam :=
  let '(conditions, params) := rangeConditions startParam endParam meterId in
  let whereClause :=
    if (Z.of_nat (List.length conditions) =? 0)%Z then ""
    else "WHERE " ++ String.concat " AND " conditions in
  ("SELECT meter_id, " ++ tsExpr ++ " AS ts, energy_consumed_kwh FROM "
     ++ tableIdent ++ " " ++ whereClause ++ " ORDER BY ts ASC",
   params).

End RangeQuery.

(** How often a character occurs in a string. *)
Fixpoint occurrences (c : ascii) (s : string) : nat :=
  match s with
  | EmptyString => 0
  | String c' rest => (if Ascii.eqb c' c then 1 else 0) + occurrences c rest
  end.

(** Whether a string ends with another. *)
Definition endsWith (suffix s : string) : bool :=
  String.eqb (substring (String.length s - String.length suffix)
                        (String.length suffix) s) suffix.

(** ** The order of a number arithmetic

    What the comparisons of the two arithmetics have in common: [<=] is
    transitive, [===] goes with [<=] in both directions, and 25 is below the
    other thresholds of the confidence table.  A comparison with NaN is
    false, so [a <= b] says of either side that it is a number. *)
Class JsOrder (N : Type) `{JsNumber N} : Prop := {
  js_leb_trans :
    forall a b c : N, leb a b = true -> leb b c = true -> leb a c = true;
  js_eqb_leb :
    forall a b : N, eqb a b = true -> leb a b = true /\ leb b a = true;
  js_leb_antisym :
    forall a b : N, leb a b = true -> leb b a = true -> eqb a b = true;
  js_thresholds :
    leb (lit_25 : N) lit_50 = true /\ leb (lit_25 : N) lit_80 = true /\
    leb (lit_25 : N) lit_100 = true
}.

(** Where a binary64 number stands among the numbers: below zero, zero or
    above, then by exponent and mantissa the way [SFcompare] reads them. *)
Definition orderKey (x : Binary64.b64) : Z * Z * Z :=
  match x with
  | S754_nan => (0, 0, 0)
  | S754_zero _ => (0, 0, 0)
  | S754_infinity true => (-2, 0, 0)
  | S754_infinity false => (2, 0, 0)
  | S754_finite true m e => (-1, - e, - Z.pos m)
  | S754_finite false m e => (1, e, Z.pos m)
  end.

Definition keyLe (a b : Z * Z * Z) : Prop :=
  fst (fst a) < fst (fst b) \/
  (fst (fst a) = fst (fst b) /\
   (snd (fst a) < snd (fst b) \/
    (snd (fst a) = snd (fst b) /\ snd a <= snd b))).

(** ** The range of [Date]

    A time value more than 8.64e15 ms from the epoch is not a time value of
    [Date]: [Date.UTC] and [new Date] pass their result through [TimeClip]
    and answer NaN there, which [JsDate] leaves out.  The facts about dates
    below are stated for time values that [TimeClip] leaves as they are. *)
Definition maxTimeValue : Z := 8640000000000000.

(** [TimeClip(time)] for an integral time value; [None] is NaN. *)
Definition TimeClip (time : Z) : option Z :=
  if Z.abs time >? maxTimeValue then None else Some time.

Definition inTimeRange (t : Z) : Prop := TimeClip t = Some t.

(** The years all of whose days lie inside the range. *)
Definition dateRangeYear (year : Z) : Prop := -271821 < year < 275760.

(** A data source whose December 2024 holds -1000 kWh a day. *)
Module SampleNegative.
Section SampleNegative.

Context {N : Type} `{JsNumber N}.

Definition december : list (DailyTotal N) :=
  map (fun d => Sample.day 2024 12 (Z.of_nat d) (-1000)) (seq 1 31).

Definition decemberOnly : PriorLoader N :=
  fun y m _ => if (y =? 2024) && (m =? 12) then FetchReturns december
               else FetchReturns [].

End SampleNegative.
End SampleNegative.

(* ===================================================================== *)
(** * Part II: facts about the date built-ins                              *)
(* ===================================================================== *)

Module DateFacts.
Import JsDate.

Lemma DayFromYear_succ y : DayFromYear (y + 1) = DayFromYear y + DaysInYear y.
Proof.
  unfold DayFromYear, DaysInYear.
  destruct (Z.eqb_spec (y mod 4) 0), (Z.eqb_spec (y mod 100) 0),
    (Z.eqb_spec (y mod 400) 0); cbn [negb];
    Z.div_mod_to_equations; lia.
Qed.

Lemma YearFromDay_spec d :
  DayFromYear (YearFromDay d) <= d < DayFromYear (YearFromDay d + 1).
Proof.
  unfold YearFromDay.
  set (y0 := 1970 + 400 * d / 146097).
  assert (H0 : DayFromYear (y0 - 1) <= d < DayFromYear (y0 + 2)).
  { subst y0. unfold DayFromYear. Z.div_mod_to_equations. lia. }
  destruct (Z.leb_spec (DayFromYear (y0 + 1)) d).
  - replace (y0 + 1 + 1) with (y0 + 2) by lia. lia.
  - destruct (Z.leb_spec (DayFromYear y0) d).
    + lia.
    + replace (y0 - 1 + 1) with y0 by lia. lia.
Qed.

Lemma DayFromYear_lt y y' : y < y' -> DayFromYear y < DayFromYear y'.
Proof. unfold DayFromYear. intros. Z.div_mod_to_equations. lia. Qed.

Lemma DaysInYear_cases y : DaysInYear y = 365 \/ DaysInYear y = 366.
Proof.
  unfold DaysInYear.
  destruct (y mod 4 =? 0), (y mod 100 =? 0), (y mod 400 =? 0); cbn; auto.
Qed.

(** A day that falls inside year [y] has [y] as its year. *)
Lemma YearFromDay_unique y d :
  DayFromYear y <= d < DayFromYear (y + 1) -> YearFromDay d = y.
Proof.
  intros Hy. pose proof (YearFromDay_spec d) as Hs.
  destruct (Z.lt_trichotomy (YearFromDay d) y) as [Hlt | [Heq | Hgt]]; auto.
  - assert (YearFromDay d + 1 <= y) as Hle by lia.
    apply Zle_lt_or_eq in Hle. destruct Hle as [Hle | Hle].
    + apply DayFromYear_lt in Hle. lia.
    + rewrite Hle in Hs. lia.
  - assert (y + 1 <= YearFromDay d) as Hle by lia.
    apply Zle_lt_or_eq in Hle. destruct Hle as [Hle | Hle].
    + apply DayFromYear_lt in Hle. lia.
    + rewrite <- Hle in Hs. lia.
Qed.

Lemma YearFromDay_offset y k :
  0 <= k < DaysInYear y -> YearFromDay (DayFromYear y + k) = y.
Proof.
  intros Hk. apply YearFromDay_unique. rewrite DayFromYear_succ. lia.
Qed.

(** Calendar date of the day [k] days into year [y]. *)
Lemma MonthFromDay_offset y k :
  0 <= k < DaysInYear y ->
  forall mn, 0 <= mn <= 11 ->
  monthStart mn (leap y) <= k < monthStart (mn + 1) (leap y) ->
  MonthFromDay (DayFromYear y + k) = mn /\
  DateFromDay (DayFromYear y + k) = k - monthStart mn (leap y) + 1.
Proof.
  intros Hk mn Hmn Hin.
  unfold DateFromDay, MonthFromDay, DayWithinYear.
  rewrite (YearFromDay_offset y k Hk).
  replace (DayFromYear y + k - DayFromYear y) with k by lia.
  unfold leap in *. destruct (DaysInYear_cases y) as [E | E]; rewrite E in *;
    assert (mn = 0 \/ mn = 1 \/ mn = 2 \/ mn = 3 \/ mn = 4 \/ mn = 5 \/ mn = 6
            \/ mn = 7 \/ mn = 8 \/ mn = 9 \/ mn = 10 \/ mn = 11) as C by lia;
    repeat (destruct C as [C | C]; [subst mn; cbn in Hin |- *;
      repeat match goal with
             | |- context [?a <? ?b] => destruct (Z.ltb_spec a b); try lia
             end; cbn; split; lia|]);
    subst mn; cbn in Hin |- *;
      repeat match goal with
             | |- context [?a <? ?b] => destruct (Z.ltb_spec a b); try lia
             end; cbn; split; lia.
Qed.

Lemma Day_UTC yr m d :
  Day (msPerDay * MakeDay yr m d) = MakeDay yr m d.
Proof. unfold Day, msPerDay. rewrite Z.mul_comm. apply Z.div_mul. lia. Qed.

(** The last day of the month before 0-based month [mn] of year [ym]. *)
Lemma DateFromDay_month_end ym mn :
  0 <= mn <= 11 ->
  DateFromDay (DayFromYear ym + monthStart mn (leap ym) + 0 - 1) =
  if mn =? 0 then 31 else monthLength ym mn.
Proof.
  intros Hmn. destruct (Z.eqb_spec mn 0) as [-> | Hne].
  - cbn [monthStart].
    replace (DayFromYear ym + 0 + 0 - 1)
      with (DayFromYear (ym - 1) + (DaysInYear (ym - 1) - 1)).
    2:{ pose proof (DayFromYear_succ (ym - 1)) as E.
        replace (ym - 1 + 1) with ym in E by lia. lia. }
    pose proof (DaysInYear_cases (ym - 1)) as C.
    destruct (MonthFromDay_offset (ym - 1) (DaysInYear (ym - 1) - 1)) with (mn := 11)
      as [_ ->]; try lia;
      unfold leap; destruct C as [C | C]; rewrite C; cbn; lia.
  - replace (DayFromYear ym + monthStart mn (leap ym) + 0 - 1)
      with (DayFromYear ym + (monthStart mn (leap ym) - 1)) by lia.
    pose proof (DaysInYear_cases ym) as C.
    assert (mn = 1 \/ mn = 2 \/ mn = 3 \/ mn = 4 \/ mn = 5 \/ mn = 6
            \/ mn = 7 \/ mn = 8 \/ mn = 9 \/ mn = 10 \/ mn = 11) as M by lia.
    destruct (MonthFromDay_offset ym (monthStart mn (leap ym) - 1)) with (mn := mn - 1)
      as [_ ->]; try lia;
      unfold monthLength, leap in *; destruct C as [C | C]; rewrite C in *;
      repeat (destruct M as [M | M]; [subst mn; cbn; lia |]); subst mn; cbn; lia.
Qed.

Lemma DayWithinYear_range d :
  0 <= DayWithinYear d < DaysInYear (YearFromDay d).
Proof.
  unfold DayWithinYear. pose proof (YearFromDay_spec d) as Hs.
  rewrite DayFromYear_succ in Hs. lia.
Qed.

(** The month of a day is a month of the calendar, and it has started. *)
Lemma MonthFromDay_range d :
  0 <= MonthFromDay d <= 11 /\
  monthStart (MonthFromDay d) (leap (YearFromDay d)) <= DayWithinYear d.
Proof.
  pose proof (DayWithinYear_range d) as Hw. unfold MonthFromDay.
  generalize dependent (DayWithinYear d). intros w Hw.
  unfold leap. destruct (DaysInYear_cases (YearFromDay d)) as [E | E];
    rewrite E in *;
    [change (365 - 365) with 0 | change (366 - 365) with 1];
    cbn [monthStart];
    repeat match goal with
           | |- context [?a <? ?b] => destruct (Z.ltb_spec a b)
           end; cbn [monthStart]; lia.
Qed.

Lemma DateFromDay_pos d : 1 <= DateFromDay d.
Proof. unfold DateFromDay. pose proof (MonthFromDay_range d). lia. Qed.

(** [Date.UTC] of the calendar date of a day gives the day back. *)
Lemma MakeDay_of_day d :
  MakeDay (YearFromDay d) (MonthFromDay d) (DateFromDay d) = d.
Proof.
  pose proof (MonthFromDay_range d) as [Hm _]. unfold MakeDay.
  rewrite (Z.div_small (MonthFromDay d) 12), (Z.mod_small (MonthFromDay d) 12) by lia.
  rewrite Z.add_0_r. unfold DateFromDay, DayWithinYear. lia.
Qed.

Lemma monthStart_mono a b L :
  0 <= a <= b -> b <= 12 -> 0 <= L -> monthStart a L <= monthStart b L.
Proof.
  intros Ha Hb HL.
  assert (a = 0 \/ a = 1 \/ a = 2 \/ a = 3 \/ a = 4 \/ a = 5 \/ a = 6 \/ a = 7
          \/ a = 8 \/ a = 9 \/ a = 10 \/ a = 11 \/ a = 12) as Ca by lia.
  assert (b = 0 \/ b = 1 \/ b = 2 \/ b = 3 \/ b = 4 \/ b = 5 \/ b = 6 \/ b = 7
          \/ b = 8 \/ b = 9 \/ b = 10 \/ b = 11 \/ b = 12) as Cb by lia.
  repeat (destruct Ca as [Ca | Ca]; [subst a |]); try subst a;
    repeat (destruct Cb as [Cb | Cb]; [subst b |]); try subst b;
    cbn [monthStart]; lia.
Qed.

(** A month ends where the next one starts. *)
Lemma monthStart_next y m :
  1 <= m <= 12 ->
  monthStart (m - 1) (leap y) + monthLength y m = monthStart m (leap y).
Proof.
  intros Hm.
  assert (m = 1 \/ m = 2 \/ m = 3 \/ m = 4 \/ m = 5 \/ m = 6 \/ m = 7
          \/ m = 8 \/ m = 9 \/ m = 10 \/ m = 11 \/ m = 12) as C by lia.
  unfold monthLength, leap.
  destruct (DaysInYear_cases y) as [E | E]; rewrite E;
    repeat (destruct C as [C | C]; [subst m; reflexivity |]);
    subst m; reflexivity.
Qed.

End DateFacts.

(** ** What [getDaysInMonth] computes *)

Lemma getDaysInMonth_eq year month :
  getDaysInMonth year month =
  if month mod 12 =? 0 then 31
  else JsDate.monthLength (JsDate.MakeFullYear year + month / 12) (month mod 12).
Proof.
  unfold getDaysInMonth, JsDate.getUTCDate, JsDate.UTC.
  rewrite DateFacts.Day_UTC. unfold JsDate.MakeDay.
  apply DateFacts.DateFromDay_month_end.
  pose proof (Z.mod_pos_bound month 12). lia.
Qed.

(** For a month of the calendar and a year that is not two-digit, the length
    of that month, leap years by the Gregorian rule. *)
Lemma getDaysInMonth_calendar year month :
  1 <= month <= 12 -> ~ (0 <= year <= 99) ->
  getDaysInMonth year month = JsDate.monthLength year month.
Proof.
  intros Hm Hy. rewrite getDaysInMonth_eq. unfold JsDate.MakeFullYear.
  destruct (Z.leb_spec 0 year), (Z.leb_spec year 99); cbn [andb]; try lia;
    (destruct (Z.eq_dec month 12) as [-> | Hne]; [reflexivity |];
     rewrite (Z.mod_small month 12), (Z.div_small month 12) by lia;
     destruct (Z.eqb_spec month 0); [lia |];
     rewrite Z.add_0_r; reflexivity).
Qed.

Lemma monthLength_bounds y m : 28 <= JsDate.monthLength y m <= 31.
Proof.
  pose proof (DateFacts.DaysInYear_cases y) as C.
  unfold JsDate.monthLength, JsDate.leap.
  destruct m as [| p | p]; try lia.
  do 4 (destruct p as [p | p |]; try lia).
Qed.

Lemma getDaysInMonth_bounds year month : 28 <= getDaysInMonth year month <= 31.
Proof.
  rewrite getDaysInMonth_eq. destruct (month mod 12 =? 0); [lia |].
  apply monthLength_bounds.
Qed.

(* ===================================================================== *)
(** * Part III: the engine                                                *)
(* ===================================================================== *)

Import Binary64.

(** ** Running the engine: general facts *)

Section EngineFacts.

Context {N : Type} `{JsNumber N}.

Lemma len_nonneg (data : list (DailyTotal N)) : 0 <= len data.
Proof. unfold len. lia. Qed.

Lemma len_filter_le (f : DailyTotal N -> bool) data :
  len (filter f data) <= len data.
Proof.
  unfold len. induction data as [| d data IH]; cbn [filter]; [lia |].
  destruct (f d); cbn [List.length]; lia.
Qed.

(** What a successful load of the previous month tells about the fetch. *)
Lemma loadPreviousMonthData_Some fetch y m meterId prev :
  loadPreviousMonthData fetch y m meterId = Some prev ->
  fetch y m meterId = FetchReturns prev /\ 0 < len prev /\
  ltb (dataCompleteness prev y m) lit_50 = false.
Proof.
  unfold loadPreviousMonthData.
  destruct (fetch y m meterId) as [| d]; [discriminate |].
  destruct (Z.eqb_spec (len d) 0); [discriminate |].
  destruct (ltb _ _) eqn:E; [discriminate |].
  intros [= ->]. pose proof (len_nonneg prev). auto with zarith.
Qed.

Lemma loadPreviousMonthData_None fetch y m meterId :
  loadPreviousMonthData fetch y m meterId = None ->
  priorUnavailable (fetch y m meterId) y m.
Proof.
  unfold loadPreviousMonthData, priorUnavailable.
  destruct (fetch y m meterId) as [| d]; [trivial |].
  destruct (Z.eqb_spec (len d) 0) as [E | E].
  - intros _. left. destruct d; [reflexivity | discriminate E].
  - destruct (ltb _ _) eqn:E'; [auto | discriminate].
Qed.

Lemma priorUnavailable_load fetch y m meterId :
  priorUnavailable (fetch y m meterId) y m ->
  loadPreviousMonthData fetch y m meterId = None.
Proof.
  unfold loadPreviousMonthData, priorUnavailable.
  destruct (fetch y m meterId) as [| d]; [trivial |].
  intros [-> | E]; [reflexivity |].
  rewrite E. destruct (len d =? 0); reflexivity.
Qed.

(** The prediction, the daily rate and the metadata of the blending step. *)
Lemma blendWithPrevious_eq y m total n dim prev :
  let avgCurrent := div total (ofZ n) in
  let avgPrevious := div (sumEnergy prev) (ofZ (len prev)) in
  let weightCurrent := calculateCurrentMonthWeight n in
  let weightPrevious := sub lit_1 weightCurrent in
  let avgHybrid :=
    add (mul avgCurrent weightCurrent) (mul avgPrevious weightPrevious) in
  exists meta,
    blendWithPrevious y m total n dim prev =
      (add total (mul avgHybrid (ofZ (Z.max (dim - n) 0))), avgHybrid, meta)
    /\ metadataMode meta = hybrid.
Proof.
  cbv zeta. unfold blendWithPrevious.
  destruct (getPreviousMonth y m) as [py pm].
  eexists. split; reflexivity.
Qed.

(** The three ways a run of [predictMonthHybrid] can succeed. *)
Lemma predictMonthHybrid_Success_inv fetch dailyData ty tm td meterId r :
  predictMonthHybrid fetch dailyData ty tm td meterId = Success r ->
  exists y m,
    resolvePeriod dailyData ty tm = Some (y, m) /\
    let monthData := filter (inPeriod y m td) dailyData in
    let n := len monthData in
    let dim := getDaysInMonth y m in
    let total := sumEnergy monthData in
    let avg := div total (ofZ n) in
    let complete := effectiveDayLimit td n >=? dim in
    let useHybrid := (n <? HYBRID_THRESHOLD) && negb complete in
    let py := fst (getPreviousMonth y m) in
    let pm := snd (getPreviousMonth y m) in
    1 <= n /\
    year r = y /\ month r = m /\
    daysPassedMonth r = n /\ daysInCurrentMonth r = dim /\
    totalEnergyMonth r = toFixed2 total /\
    isComplete r = complete /\
    valueSource r = (if complete then actual else projection) /\
    targetDay r = td /\
    confidence r =
      calculateConfidenceHybrid n dim useHybrid (hasPreviousMonth (hybridDetail r)) /\
    ((useHybrid = false /\
      predictionMode r = standard /\ hybridDetail r = None /\
      predictedMonthKwh r =
        toFixed2 (if complete then total else mul avg (ofZ dim)) /\
      averageDailyRate r = toFixed2 avg)
     \/
     (useHybrid = true /\
      exists prev p a meta,
        loadPreviousMonthData fetch py pm meterId = Some prev /\
        blendWithPrevious y m total n dim prev = (p, a, meta) /\
        predictionMode r = metadataMode meta /\ hybridDetail r = Some meta /\
        predictedMonthKwh r = toFixed2 p /\
        averageDailyRate r = toFixed2 a)
     \/
     (useHybrid = true /\
      loadPreviousMonthData fetch py pm meterId = None /\
      predictionMode r = standard_fallback /\
      hybridDetail r = Some fallbackMetadata /\
      predictedMonthKwh r = toFixed2 (mul avg (ofZ dim)) /\
      averageDailyRate r = toFixed2 avg)).
Proof.
  unfold predictMonthHybrid.
  destruct (len dailyData <? MIN_DAYS_REQUIRED) eqn:E1; [discriminate |].
  destruct (resolvePeriod dailyData ty tm) as [[y m] |] eqn:E2; [| discriminate].
  destruct (Z.ltb_spec (len (filter (inPeriod y m td) dailyData)) MIN_DAYS_REQUIRED)
    as [E3 | E3]; [discriminate |].
  unfold MIN_DAYS_REQUIRED in E3.
  intros Hr. exists y, m. split; [reflexivity |]. cbv zeta.
  destruct ((len (filter (inPeriod y m td) dailyData) <? HYBRID_THRESHOLD)
            && negb (effectiveDayLimit td (len (filter (inPeriod y m td) dailyData))
                     >=? getDaysInMonth y m)) eqn:EU;
    cbn [negb] in Hr.
  - destruct (getPreviousMonth y m) as [py pm] eqn:EP. cbn [fst snd].
    destruct (loadPreviousMonthData fetch py pm meterId) as [prev |] eqn:EL.
    + destruct (loadPreviousMonthData_Some _ _ _ _ _ EL) as (_ & Hpos & _).
      destruct (Z.gtb_spec (len prev) 0) as [_ | Hle]; [| lia].
      destruct (blendWithPrevious y m _ _ _ prev) as [[p a] meta] eqn:EB.
      injection Hr as <-. cbn.
      repeat (split; [first [reflexivity | assumption] |]).
      right; left. split; [reflexivity |].
      exists prev, p, a, meta. repeat split; first [reflexivity | assumption].
    + injection Hr as <-. cbn.
      repeat (split; [first [reflexivity | assumption] |]).
      right; right. repeat split; reflexivity.
  - injection Hr as <-. cbn.
    repeat (split; [first [reflexivity | assumption] |]).
    left. repeat split; reflexivity.
Qed.

End EngineFacts.
Section EngineMoreFacts.

Context {N : Type} `{JsNumber N}.

Lemma priorAvailable_load fetch y m meterId prev :
  priorAvailable (fetch y m meterId) y m prev ->
  loadPreviousMonthData fetch y m meterId = Some prev.
Proof.
  intros (Hf & Hne & Hc). unfold loadPreviousMonthData. rewrite Hf, Hc.
  destruct prev as [| d prev]; [contradiction |]. reflexivity.
Qed.

(** Once the period resolves and holds an entry, the engine answers with a
    prediction. *)
Lemma predictMonthHybrid_succeeds fetch dailyData ty tm td meterId y m :
  resolvePeriod dailyData ty tm = Some (y, m) ->
  1 <= len (filter (inPeriod y m td) dailyData) ->
  exists r, predictMonthHybrid fetch dailyData ty tm td meterId = Success r.
Proof.
  intros Hp Hn. unfold predictMonthHybrid.
  pose proof (len_filter_le (inPeriod y m td) dailyData) as Hle.
  destruct (Z.ltb_spec (len dailyData) MIN_DAYS_REQUIRED) as [Hlt | _];
    [unfold MIN_DAYS_REQUIRED in Hlt; lia |].
  rewrite Hp.
  destruct (Z.ltb_spec (len (filter (inPeriod y m td) dailyData)) MIN_DAYS_REQUIRED)
    as [Hlt | _]; [unfold MIN_DAYS_REQUIRED in Hlt; lia |].
  cbv zeta.
  match goal with
  | |- context [match ?e with (_, _) => _ end] => destruct e as [[p a] h]
  end.
  eexists. reflexivity.
Qed.

Lemma sparsePeriod_useHybrid (dailyData : list (DailyTotal N)) ty tm td y m :
  sparsePeriod dailyData ty tm td y m ->
  let n := len (filter (inPeriod y m td) dailyData) in
  (n <? HYBRID_THRESHOLD) && negb (effectiveDayLimit td n >=? getDaysInMonth y m)
  = true.
Proof.
  intros (_ & Hn & Hc). cbv zeta in *.
  apply andb_true_iff. split; [apply Z.ltb_lt; lia |].
  apply negb_true_iff. rewrite Z.geb_leb. apply Z.leb_gt. lia.
Qed.

End EngineMoreFacts.

(** ** The hybrid path *)

(** C1, as amended.  A request that meets a sparse period, with the previous
    month available and at least 50% complete, is answered in hybrid mode:
    the blended rate is
    [avgCurrent * weightCurrent + avgPrevious * weightPrevious] and the
    prediction is the observed total plus the blended rate over the
    remaining days, [max(daysInPeriod - daysObserved, 0)]; the result
    carries both rounded to two decimals. *)
Theorem hybrid_prediction_formula {N : Type} `{JsNumber N}
    (fetch : PriorLoader N) (dailyData : list (DailyTotal N))
    (targetYear targetMonth targetDay : option Z) (meterId : string)
    (year month : Z) (previousMonthData : list (DailyTotal N)) :
  sparsePeriod dailyData targetYear targetMonth targetDay year month ->
  priorAvailable
    (fetch (fst (getPreviousMonth year month)) (snd (getPreviousMonth year month)) meterId)
    (fst (getPreviousMonth year month)) (snd (getPreviousMonth year month))
    previousMonthData ->
  let monthData := filter (inPeriod year month targetDay) dailyData in
  let totalCurrent := sumEnergy monthData in
  let daysObserved := len monthData in
  let daysInPeriod := getDaysInMonth year month in
  let avgCurrent := div totalCurrent (ofZ daysObserved) in
  let avgPrevious :=
    div (sumEnergy previousMonthData) (ofZ (len previousMonthData)) in
  let weightCurrent := calculateCurrentMonthWeight daysObserved in
  let weightPrevious := sub lit_1 weightCurrent in
  let avgHybrid :=
    add (mul avgCurrent weightCurrent) (mul avgPrevious weightPrevious) in
  exists r,
    predictMonthHybrid fetch dailyData targetYear targetMonth targetDay meterId
      = Success r /\
    predictionMode r = hybrid /\
    predictedMonthKwh r =
      toFixed2 (add totalCurrent
                    (mul avgHybrid (ofZ (Z.max (daysInPeriod - daysObserved) 0)))) /\
    averageDailyRate r = toFixed2 avgHybrid /\
    totalEnergyMonth r = toFixed2 totalCurrent.
Proof.
  intros Hs Ha. cbv zeta.
  pose proof (sparsePeriod_useHybrid _ _ _ _ _ _ Hs) as Hu. cbv zeta in Hu.
  pose proof (priorAvailable_load _ _ _ _ _ Ha) as Hl.
  destruct Hs as (Hp & Hn & _). cbv zeta in Hn.
  destruct (predictMonthHybrid_succeeds fetch dailyData _ _ targetDay meterId _ _ Hp)
    as [r Hr]; [lia |].
  exists r. split; [exact Hr |].
  apply predictMonthHybrid_Success_inv in Hr.
  destruct Hr as (y & m & Hp' & Hr). rewrite Hp in Hp'. injection Hp' as <- <-.
  cbv zeta in Hr.
  destruct Hr as (_ & _ & _ & _ & _ & Ht & _ & _ & _ & _ & Hcase).
  destruct Hcase as [(Hu' & _) | [(_ & prev & p & a & meta & Hl' & Hb & Hm & _ & Hpred & Hrate)
                                 | (_ & Hl' & _)]].
  - congruence.
  - rewrite Hl in Hl'. injection Hl' as <-.
    destruct (blendWithPrevious_eq year month
                (sumEnergy (filter (inPeriod year month targetDay) dailyData))
                (len (filter (inPeriod year month targetDay) dailyData))
                (getDaysInMonth year month) previousMonthData) as (meta' & Hb' & Hm').
    cbv zeta in Hb'. rewrite Hb' in Hb. injection Hb as <- <- <-.
    rewrite Hm, Hm'. auto.
  - congruence.
Qed.

(** ** Adaptive weights *)

(** The binary64 number the literal [0.30] denotes: 0x1.3333333333333p-2. *)
Lemma lit_0_30_binary64 :
  (lit_0_30 : b64) = S754_finite false 5404319552844595 (-54).
Proof. reflexivity. Qed.

(** C6.  For every [daysObserved] the adaptive weight of the current month is
    0.30 for one day, 0.50 for two days and 0.30 for anything else; with
    [weightPrevious = 1 - weightCurrent], both weights lie in [0, 1] and sum
    to exactly 1 in binary64 arithmetic. *)
Theorem weights_sum_to_one (daysObserved : Z) :
  let weightCurrent : b64 := calculateCurrentMonthWeight daysObserved in
  let weightPrevious : b64 := sub lit_1 weightCurrent in
  weightCurrent = (if daysObserved =? 1 then lit_0_30
                   else if daysObserved =? 2 then lit_0_50
                   else lit_0_30)
  /\ leb lit_0 weightCurrent = true /\ leb weightCurrent lit_1 = true
  /\ leb lit_0 weightPrevious = true /\ leb weightPrevious lit_1 = true
  /\ eqb (add weightCurrent weightPrevious) lit_1 = true.
Proof.
  destruct daysObserved as [| [p | [p | p |] |] | p];
    vm_compute; repeat split; reflexivity.
Qed.

(** ** Confidence *)

(** C4.  The confidence scorer is total, and on every input its level and
    score are the ones of the threshold table read top down, first match
    wins: == 100 exact/100, >= 80 very_high/90, >= 50 high/80, >= 25
    medium/65, then medium_hybrid/55 or low_hybrid/45 with hybrid and prior
    data, else low/35 or very_low/25, the first of each pair for exactly two
    observed days.  This holds in every number arithmetic. *)
Theorem calculateConfidenceHybrid_table {N : Type} `{JsNumber N}
    (daysObserved daysInPeriod : Z) (isHybrid hasPriorData : bool) :
  let c := calculateConfidenceHybrid daysObserved daysInPeriod isHybrid hasPriorData in
  (level c, score c) = scoreTable daysObserved daysInPeriod isHybrid hasPriorData.
Proof.
  unfold calculateConfidenceHybrid, scoreTable, firstMatch, thresholdRows,
    lowDataRow, percentOf.
  cbn [find fst snd].
  destruct (eqb _ lit_100); [reflexivity |].
  destruct (leb lit_80 _); [reflexivity |].
  destruct (leb lit_50 _); [reflexivity |].
  destruct (leb lit_25 _); [reflexivity |].
  destruct (isHybrid && hasPriorData), (daysObserved =? 2); reflexivity.
Qed.

(** ** The worked example: one day of 85 kWh, December at 150 kWh a day *)

(** C1, the example: in binary64 the engine answers 4000, the observed 85
    plus 30 remaining days at the blended 130.5, and not 4000.5. *)
Lemma hybrid_example_is_not_4000_5 :
  match predictMonthHybrid (N := b64) Sample.decemberOnly Sample.januaryFirst
          (Some 2025) (Some 1) (Some 1) "M1" with
  | Success r =>
      predictionMode r = hybrid /\
      daysInCurrentMonth r = 31 /\
      averageDailyRate r = div (ofZ 1305) (ofZ 10) /\
      predictedMonthKwh r = ofZ 4000 /\
      eqb (predictedMonthKwh r) (div (ofZ 40005) (ofZ 10)) = false
  | _ => False
  end.
Proof. vm_compute. repeat split; reflexivity. Qed.

Lemma hybrid_prediction_formula_witness :
  exists r,
    predictMonthHybrid (N := b64) Sample.decemberOnly Sample.januaryFirst
      (Some 2025) (Some 1) (Some 1) "M1" = Success r /\
    predictionMode r = hybrid /\
    predictedMonthKwh r = ofZ 4000.
Proof.
  destruct (hybrid_prediction_formula (N := b64) Sample.decemberOnly Sample.januaryFirst
              (Some 2025) (Some 1) (Some 1) "M1" 2025 1 Sample.december)
    as (r & Hr & Hm & Hp & _).
  - split; [reflexivity |]. cbv zeta.
    split; [split; [apply Z.leb_le | apply Z.ltb_lt] | apply Z.ltb_lt];
      vm_compute; reflexivity.
  - split; [reflexivity |]. split; [discriminate |]. vm_compute. reflexivity.
  - exists r. split; [exact Hr |]. split; [exact Hm |].
    rewrite Hp. vm_compute. reflexivity.
Defined.

(** ** The three modes *)

(** C2.  The mode of a successful prediction tells the path taken, in terms
    of the request and the series: with [daysObserved] the number of entries
    of the series in the period of the result, up to the cutoff day, and the
    period complete when the effective day limit reaches its days, the mode
    is hybrid only with fewer than 3 observed days, an incomplete period and
    a previous month that was fetched and is at least 50% complete;
    standard_fallback only with fewer than 3 observed days, an incomplete
    period and a previous month that failed to load, was empty or under 50%
    complete; standard only with at least 3 observed days or a complete
    period.  The result reports that count as [daysPassedMonth] and that
    completeness as [isComplete]. *)
Theorem prediction_mode_discriminates {N : Type} `{JsNumber N}
    (fetch : PriorLoader N) (dailyData : list (DailyTotal N))
    (targetYear targetMonth targetDay : option Z) (meterId : string)
    (r : HybridResult N) :
  predictMonthHybrid fetch dailyData targetYear targetMonth targetDay meterId
    = Success r ->
  let daysObserved :=
    len (filter (inPeriod (year r) (month r) targetDay) dailyData) in
  let complete :=
    getDaysInMonth (year r) (month r) <= effectiveDayLimit targetDay daysObserved in
  let py := fst (getPreviousMonth (year r) (month r)) in
  let pm := snd (getPreviousMonth (year r) (month r)) in
  resolvePeriod dailyData targetYear targetMonth = Some (year r, month r) /\
  daysPassedMonth r = daysObserved /\
  (isComplete r = true <-> complete) /\
  (predictionMode r = hybrid ->
     daysObserved < 3 /\ ~ complete /\
     exists previousMonthData,
       priorAvailable (fetch py pm meterId) py pm previousMonthData)
  /\
  (predictionMode r = standard_fallback ->
     daysObserved < 3 /\ ~ complete /\
     priorUnavailable (fetch py pm meterId) py pm)
  /\
  (predictionMode r = standard ->
     3 <= daysObserved \/ complete).
Proof.
  intros Hr. apply predictMonthHybrid_Success_inv in Hr.
  destruct Hr as (y & m & Hp & Hr). cbv zeta in Hr.
  destruct Hr as (_ & -> & -> & Hn & _ & _ & Hc & _ & _ & _ & Hcase).
  cbv zeta. rewrite Hn, Hc.
  set (n := len (filter (inPeriod y m targetDay) dailyData)) in *.
  assert (Hiff : (effectiveDayLimit targetDay n >=? getDaysInMonth y m) = true
                 <-> getDaysInMonth y m <= effectiveDayLimit targetDay n).
  { rewrite Z.geb_leb. apply Z.leb_le. }
  split; [exact Hp |]. split; [reflexivity |]. split; [exact Hiff |].
  assert (Hsparse :
    (n <? HYBRID_THRESHOLD)
    && negb (effectiveDayLimit targetDay n >=? getDaysInMonth y m) = true ->
    n < 3 /\ ~ getDaysInMonth y m <= effectiveDayLimit targetDay n).
  { intros Hu. apply andb_true_iff in Hu. destruct Hu as [Hlt Hneg].
    apply Z.ltb_lt in Hlt. apply negb_true_iff in Hneg.
    unfold HYBRID_THRESHOLD in Hlt. split; [exact Hlt |].
    intros C. apply Hiff in C. congruence. }
  destruct Hcase as [(Hu & Hm & _)
                    | [(Hu & prev & p & a & meta & Hl & Hb & Hm & _)
                      | (Hu & Hl & Hm & _)]].
  - rewrite Hm. repeat split; try discriminate. intros _.
    apply andb_false_iff in Hu. destruct Hu as [Hu | Hu].
    + left. apply Z.ltb_ge in Hu. unfold HYBRID_THRESHOLD in Hu. exact Hu.
    + right. apply negb_false_iff in Hu. apply Hiff, Hu.
  - destruct (blendWithPrevious_eq y m
                (sumEnergy (filter (inPeriod y m targetDay) dailyData))
                n (getDaysInMonth y m) prev) as (meta' & Hb' & Hm').
    cbv zeta in Hb'. rewrite Hb' in Hb. injection Hb as _ _ <-.
    rewrite Hm, Hm'. destruct (Hsparse Hu) as [Hlt Hcf].
    repeat split; try discriminate; try assumption.
    exists prev. apply loadPreviousMonthData_Some in Hl.
    destruct Hl as (Hf & Hpos & Hpc). repeat split; try assumption.
    intros ->. cbn in Hpos. lia.
  - rewrite Hm. destruct (Hsparse Hu) as [Hlt Hcf].
    repeat split; try discriminate; try assumption.
    apply loadPreviousMonthData_None. exact Hl.
Qed.

Lemma prediction_mode_discriminates_witness :
  exists r : HybridResult b64,
    predictMonthHybrid (N := b64) Sample.decemberOnly Sample.januaryFirst
      (Some 2025) (Some 1) (Some 1) "M1" = Success r /\
    predictionMode r = hybrid /\
    daysPassedMonth r = 1 /\
    len (filter (inPeriod 2025 1 (Some 1)) (Sample.januaryFirst (N := b64))) < 3 /\
    isComplete r = false.
Proof.
  destruct (predictMonthHybrid_succeeds (N := b64) Sample.decemberOnly Sample.januaryFirst
              (Some 2025) (Some 1) (Some 1) "M1" 2025 1) as [r Hr];
    [reflexivity | apply Z.leb_le; vm_compute; reflexivity |].
  exists r. split; [exact Hr |].
  destruct (prediction_mode_discriminates _ _ _ _ _ _ _ Hr)
    as (Hp & Hn & Hc & Ph & _ & _).
  assert (predictionMode r = hybrid /\ year r = 2025 /\ month r = 1)
    as (Hm & Hy & Hmo)
    by (vm_compute in Hr; injection Hr as <-; repeat split; reflexivity).
  rewrite Hy, Hmo in *.
  destruct (Ph Hm) as (Hd & Hnc & _).
  split; [exact Hm |]. split; [rewrite Hn; reflexivity |]. split; [exact Hd |].
  destruct (isComplete r); [exfalso; apply Hnc, Hc; reflexivity | reflexivity].
Defined.

(** C3.  When a request meets a sparse period and the previous month cannot
    be used (the fetch throws, returns nothing, or returns less than 50% of
    the month), the engine still answers with a prediction: mode
    standard_fallback, the current average projected over the whole period
    (rounded to two decimals in the result), and a reason in the hybrid
    detail. *)
Theorem fallback_when_prior_unavailable {N : Type} `{JsNumber N}
    (fetch : PriorLoader N) (dailyData : list (DailyTotal N))
    (targetYear targetMonth targetDay : option Z) (meterId : string)
    (year month : Z) :
  sparsePeriod dailyData targetYear targetMonth targetDay year month ->
  priorUnavailable
    (fetch (fst (getPreviousMonth year month)) (snd (getPreviousMonth year month)) meterId)
    (fst (getPreviousMonth year month)) (snd (getPreviousMonth year month)) ->
  let monthData := filter (inPeriod year month targetDay) dailyData in
  let avgCurrent := div (sumEnergy monthData) (ofZ (len monthData)) in
  exists r,
    predictMonthHybrid fetch dailyData targetYear targetMonth targetDay meterId
      = Success r /\
    predictionMode r = standard_fallback /\
    predictedMonthKwh r =
      toFixed2 (mul avgCurrent (ofZ (getDaysInMonth year month))) /\
    hybridDetail r =
      Some (HybridFallback "Previous month data not available"
              "Prediction based on limited current month data only").
Proof.
  intros Hs Hu. cbv zeta.
  pose proof (sparsePeriod_useHybrid _ _ _ _ _ _ Hs) as Hh. cbv zeta in Hh.
  pose proof (priorUnavailable_load _ _ _ _ Hu) as Hl.
  destruct Hs as (Hp & Hn & _). cbv zeta in Hn.
  destruct (predictMonthHybrid_succeeds fetch dailyData _ _ targetDay meterId _ _ Hp)
    as [r Hr]; [lia |].
  exists r. split; [exact Hr |].
  apply predictMonthHybrid_Success_inv in Hr.
  destruct Hr as (y & m & Hp' & Hr). rewrite Hp in Hp'. injection Hp' as <- <-.
  cbv zeta in Hr.
  destruct Hr as (_ & _ & _ & _ & _ & _ & _ & _ & _ & _ & Hcase).
  destruct Hcase as [(Hh' & _) | [(_ & prev & p & a & meta & Hl' & _)
                                 | (_ & _ & Hm & Hd & Hpred & _)]].
  - congruence.
  - congruence.
  - auto.
Qed.

Lemma fallback_when_prior_unavailable_witness :
  exists r : HybridResult b64,
    predictMonthHybrid (N := b64) Sample.failing Sample.januaryFirst
      (Some 2025) (Some 1) (Some 1) "M1" = Success r /\
    predictionMode r = standard_fallback /\
    predictedMonthKwh r = ofZ 2635.
Proof.
  destruct (fallback_when_prior_unavailable (N := b64) Sample.failing Sample.januaryFirst
              (Some 2025) (Some 1) (Some 1) "M1" 2025 1)
    as (r & Hr & Hm & Hp & _).
  - split; [reflexivity |]. cbv zeta.
    split; [split; [apply Z.leb_le | apply Z.ltb_lt] | apply Z.ltb_lt];
      vm_compute; reflexivity.
  - exact I.
  - exists r. split; [exact Hr |]. split; [exact Hm |].
    rewrite Hp. vm_compute. reflexivity.
Defined.

(** ** Completeness of the period *)

(** C5, the counterexample: two observed days of January and a cutoff day of
    31.  The period counts as complete and the value as actual although 2
    observed days are fewer than the 31 days of the month. *)
Lemma isComplete_with_two_observed_days :
  match predictMonthHybrid (N := b64) Sample.failing Sample.januaryTwoDays
          (Some 2025) (Some 1) (Some 31) "M1" with
  | Success r =>
      isComplete r = true /\ valueSource r = actual /\
      daysPassedMonth r = 2 /\ daysInCurrentMonth r = 31 /\
      ~ (daysPassedMonth r >= daysInCurrentMonth r)
  | _ => False
  end.
Proof. vm_compute. repeat split; try reflexivity. intros C. apply C. reflexivity. Qed.

(** C5, as amended.  In every returned result [isComplete] is true exactly
    when the effective day limit, the cutoff day when one is given and the
    number of observed days otherwise, reaches the number of days in the
    period; [valueSource] is actual when complete and projection
    otherwise. *)
Theorem isComplete_by_effective_day_limit {N : Type} `{JsNumber N}
    (fetch : PriorLoader N) (dailyData : list (DailyTotal N))
    (targetYear targetMonth targetDay : option Z) (meterId : string)
    (r : HybridResult N) :
  predictMonthHybrid fetch dailyData targetYear targetMonth targetDay meterId
    = Success r ->
  daysPassedMonth r =
    len (filter (inPeriod (year r) (month r) targetDay) dailyData) /\
  daysInCurrentMonth r = getDaysInMonth (year r) (month r) /\
  (isComplete r = true <->
     daysInCurrentMonth r <= effectiveDayLimit targetDay (daysPassedMonth r)) /\
  (targetDay = None ->
     (isComplete r = true <-> daysInCurrentMonth r <= daysPassedMonth r)) /\
  valueSource r = (if isComplete r then actual else projection).
Proof.
  intros Hr. apply predictMonthHybrid_Success_inv in Hr.
  destruct Hr as (y & m & _ & Hr). cbv zeta in Hr.
  destruct Hr as (_ & -> & -> & Hn & Hd & _ & Hc & Hv & _).
  rewrite Hn, Hd, Hc, Hv.
  assert (Hiff : forall a b, (a >=? b) = true <-> b <= a).
  { intros a b. rewrite Z.geb_leb. apply Z.leb_le. }
  split; [reflexivity |]. split; [reflexivity |]. split; [apply Hiff |].
  split; [| reflexivity].
  intros ->. cbn [effectiveDayLimit]. apply Hiff.
Qed.

Lemma isComplete_by_effective_day_limit_witness :
  exists r : HybridResult b64,
    predictMonthHybrid (N := b64) Sample.failing Sample.januaryTwoDays
      (Some 2025) (Some 1) (Some 31) "M1" = Success r /\
    (isComplete r = true <->
       daysInCurrentMonth r <= effectiveDayLimit (Some 31) (daysPassedMonth r)) /\
    valueSource r = (if isComplete r then actual else projection).
Proof.
  destruct (predictMonthHybrid_succeeds (N := b64) Sample.failing Sample.januaryTwoDays
              (Some 2025) (Some 1) (Some 31) "M1" 2025 1) as [r Hr];
    [reflexivity | apply Z.leb_le; vm_compute; reflexivity |].
  exists r. split; [exact Hr |].
  destruct (isComplete_by_effective_day_limit _ _ _ _ _ _ _ Hr)
    as (_ & _ & Hi & _ & Hv).
  split; [exact Hi | exact Hv].
Defined.

(** ** Too little data in the period *)

(** When the period resolves and no entry of the series falls into it, the
    engine fails, and the message names the year and month. *)
Lemma predictMonthHybrid_no_entries {N : Type} `{JsNumber N}
    (fetch : PriorLoader N) (dailyData : list (DailyTotal N))
    (targetYear targetMonth targetDay : option Z) (meterId : string)
    (year month : Z) :
  1 <= len dailyData ->
  resolvePeriod dailyData targetYear targetMonth = Some (year, month) ->
  len (filter (inPeriod year month targetDay) dailyData) < 1 ->
  predictMonthHybrid fetch dailyData targetYear targetMonth targetDay meterId
  = Failure ("Need at least 1 days of " ++ yearMonthLabel year month ++ ".").
Proof.
  intros Hl Hp Hn. unfold predictMonthHybrid. rewrite Hp.
  destruct (Z.ltb_spec (len dailyData) MIN_DAYS_REQUIRED) as [Hlt | _];
    [unfold MIN_DAYS_REQUIRED in Hlt; lia |].
  destruct (Z.ltb_spec (len (filter (inPeriod year month targetDay) dailyData))
              MIN_DAYS_REQUIRED) as [_ | Hge];
    [reflexivity | unfold MIN_DAYS_REQUIRED in Hge; lia].
Qed.

(** C8, at the failing input: a series with one day of February, asked for
    January 2025.  [predictMonthHybrid] fails and names the period, but its
    message stops there; [predictMonth] on the same input goes on to report
    the count of entries found. *)
Theorem predictMonthHybrid_message_omits_count :
  predictMonthHybrid (N := b64) Sample.failing Sample.februaryFirst
    (Some 2025) (Some 1) None "M1"
  = Failure "Need at least 1 days of 2025-01."
  /\
  RunRate.predictMonth (N := b64) Sample.februaryFirst (Some 2025) (Some 1) None
  = Failure "Need at least 1 days of 2025-01. Currently have 0 day(s).".
Proof. split; vm_compute; reflexivity. Qed.

(** ** Confidence against completeness *)

(** C7, the counterexample: with both hybrid flags off, 3 of 31 days is more
    complete than 2 of 31 days and scores 25 against 35 (binary64). *)
Lemma score_drops_from_two_to_three_days :
  ltb (percentOf 2 31 : b64) (percentOf 3 31) = true /\
  score (calculateConfidenceHybrid (N := b64) 2 31 false false) = 35 /\
  score (calculateConfidenceHybrid (N := b64) 3 31 false false) = 25.
Proof. vm_compute. repeat split; reflexivity. Qed.

(** *** The order laws in the two arithmetics *)

Lemma Q_order : @JsOrder Q ExactNumber.Q_number.
Proof.
  split; cbn [leb eqb ExactNumber.Q_number].
  - intros a b c Hab Hbc. apply Qle_bool_iff in Hab, Hbc. apply Qle_bool_iff.
    eapply Qle_trans; eassumption.
  - intros a b He. apply Qeq_bool_iff in He.
    split; apply Qle_bool_iff; rewrite He; apply Qle_refl.
  - intros a b Hab Hba. apply Qle_bool_iff in Hab, Hba. apply Qeq_bool_iff.
    apply Qle_antisym; assumption.
  - repeat split; reflexivity.
Qed.

#[global] Existing Instance Q_order.

Lemma SFleb_key (x y : b64) :
  SFleb x y = true <->
  is_nan x = false /\ is_nan y = false /\ keyLe (orderKey x) (orderKey y).
Proof.
  unfold SFleb, SFcompare, keyLe.
  destruct x as [sx | sx | | sx mx ex], y as [sy | sy | | sy my ey];
    try destruct sx; try destruct sy; cbn [is_nan orderKey fst snd];
    try (split; [discriminate | intros (A & B & C); try discriminate; lia]);
    try (split; [intros _; repeat split; lia | reflexivity]).
  - change (Pos.compare_cont Eq mx my) with (Pos.compare mx my).
    destruct (Z.compare_spec ex ey), (Pos.compare_spec mx my); cbn [CompOpp];
      (split; [discriminate | intros (A & B & C); lia])
      || (split; [intros _; repeat split; lia | reflexivity]).
  - change (Pos.compare_cont Eq mx my) with (Pos.compare mx my).
    destruct (Z.compare_spec ex ey), (Pos.compare_spec mx my); cbn [CompOpp];
      (split; [discriminate | intros (A & B & C); lia])
      || (split; [intros _; repeat split; lia | reflexivity]).
Qed.

Lemma SFeqb_key (x y : b64) :
  SFeqb x y = true <->
  is_nan x = false /\ is_nan y = false /\ orderKey x = orderKey y.
Proof.
  unfold SFeqb, SFcompare.
  destruct x as [sx | sx | | sx mx ex], y as [sy | sy | | sy my ey];
    try destruct sx; try destruct sy; cbn [is_nan orderKey];
    try (split; [discriminate | intros (A & B & C); discriminate]);
    try (split; [intros _; repeat split | reflexivity]).
  - change (Pos.compare_cont Eq mx my) with (Pos.compare mx my).
    destruct (Z.compare_spec ex ey), (Pos.compare_spec mx my); cbn [CompOpp];
      (split; [discriminate | intros (A & B & C); injection C; lia])
      || (split; [intros _; repeat split; f_equal; [f_equal |]; lia | reflexivity]).
  - change (Pos.compare_cont Eq mx my) with (Pos.compare mx my).
    destruct (Z.compare_spec ex ey), (Pos.compare_spec mx my); cbn [CompOpp];
      (split; [discriminate | intros (A & B & C); injection C; lia])
      || (split; [intros _; repeat split; f_equal; [f_equal |]; lia | reflexivity]).
Qed.

(** The comparisons of binary64 keep the laws on every value, NaN
    included. *)
Lemma b64_order : @JsOrder b64 b64_number.
Proof.
  split; cbn [leb eqb b64_number].
  - intros a b c Hab Hbc. apply SFleb_key in Hab, Hbc. apply SFleb_key.
    destruct Hab as (Ha & _ & Hab), Hbc as (_ & Hc & Hbc).
    split; [exact Ha |]. split; [exact Hc |]. unfold keyLe in *. lia.
  - intros a b He. apply SFeqb_key in He. destruct He as (Ha & Hb & He).
    split; apply SFleb_key; repeat split; try assumption;
      unfold keyLe; rewrite He; lia.
  - intros a b Hab Hba. apply SFleb_key in Hab, Hba. apply SFeqb_key.
    destruct Hab as (Ha & Hb & Hab), Hba as (_ & _ & Hba).
    split; [exact Ha |]. split; [exact Hb |].
    unfold keyLe in *.
    destruct (orderKey a) as [[a1 a2] a3], (orderKey b) as [[b1 b2] b3].
    cbn [fst snd] in *. f_equal; [f_equal |]; lia.
  - repeat split; reflexivity.
Qed.

#[global] Existing Instance b64_order.

Section ScoreOrder.

Context {N : Type} `{JsOrder N}.

(** The score as the thresholds decide it. *)
Lemma score_by_thresholds (d t : Z) (h p : bool) :
  score (calculateConfidenceHybrid (N := N) d t h p) =
  let pc : N := percentOf d t in
  if eqb pc lit_100 then 100
  else if leb lit_80 pc then 90
  else if leb lit_50 pc then 80
  else if leb lit_25 pc then 65
  else snd (lowDataRow d h p).
Proof.
  cbv zeta. unfold calculateConfidenceHybrid, lowDataRow, percentOf.
  destruct (eqb _ lit_100); [reflexivity |].
  destruct (leb lit_80 _); [reflexivity |].
  destruct (leb lit_50 _); [reflexivity |].
  destruct (leb lit_25 _); [reflexivity |].
  destruct (h && p), (d =? 2); reflexivity.
Qed.

(** A percentage that reaches a threshold above 25 reaches 25. *)
Lemma reaches_25 (pc : N) :
  eqb pc lit_100 = true \/ leb lit_80 pc = true \/ leb lit_50 pc = true ->
  leb lit_25 pc = true.
Proof.
  destruct js_thresholds as (T50 & T80 & T100).
  intros [E | [A | B]].
  - apply js_eqb_leb in E. destruct E as [_ E].
    exact (js_leb_trans _ _ _ T100 E).
  - exact (js_leb_trans _ _ _ T80 A).
  - exact (js_leb_trans _ _ _ T50 B).
Qed.

Lemma lowDataRow_scores (d : Z) (h p : bool) :
  snd (lowDataRow d h p) =
  (if h && p then 45 else 25) + (if d =? 2 then 10 else 0).
Proof. unfold lowDataRow. destruct (h && p), (d =? 2); reflexivity. Qed.

End ScoreOrder.

(** C7, as amended.  Holding the hybrid flags fixed, an input with the
    larger [percentComplete] scores lower in exactly two situations: the
    larger percentage is below 25 and it is the input with the smaller
    percentage, not the other, that has exactly two observed days (below
    25% the score is decided by the days being two or not); or the smaller
    percentage is exactly 100 and the larger one is above 100.  In every
    other case it never scores lower.  This holds in exact arithmetic and
    in binary64, for every input. *)
Theorem score_monotone_outside_low_data {N : Type} `{JsOrder N}
    (d1 t1 d2 t2 : Z) (h p : bool) :
  let pc1 : N := percentOf d1 t1 in
  let pc2 : N := percentOf d2 t2 in
  leb pc1 pc2 = true ->
  (score (calculateConfidenceHybrid (N := N) d1 t1 h p)
   <= score (calculateConfidenceHybrid (N := N) d2 t2 h p)
   <->
   (eqb pc1 lit_100 = false \/ leb pc2 lit_100 = true) /\
   (leb lit_25 pc2 = true \/ d1 <> 2 \/ d2 = 2)).
Proof.
  cbv zeta. intros Hle. rewrite !score_by_thresholds. cbv zeta.
  rewrite !lowDataRow_scores.
  set (pc1 := percentOf d1 t1 : N) in *. set (pc2 := percentOf d2 t2 : N) in *.
  pose proof (reaches_25 pc1) as R1. pose proof (reaches_25 pc2) as R2.
  assert (forall c : N, leb c pc1 = true -> leb c pc2 = true) as Hup
    by (intros c Hc; exact (js_leb_trans _ _ _ Hc Hle)).
  pose proof (Hup lit_80) as U80. pose proof (Hup lit_50) as U50.
  pose proof (Hup lit_25) as U25.
  assert (eqb pc1 lit_100 = true -> leb lit_100 pc2 = true) as U100.
  { intros E. apply js_eqb_leb in E. destruct E as [_ E]. apply Hup, E. }
  assert (eqb pc2 lit_100 = true -> leb pc2 lit_100 = true) as D2
    by (intros E; apply js_eqb_leb in E; tauto).
  pose proof (js_leb_antisym pc2 lit_100) as A2.
  clear Hup Hle.
  destruct (Z.eqb_spec d1 2) as [Hd1 | Hd1], (Z.eqb_spec d2 2) as [Hd2 | Hd2];
    destruct (eqb pc1 lit_100), (leb lit_80 pc1), (leb lit_50 pc1),
      (leb lit_25 pc1);
    try (discriminate (R1 (or_introl eq_refl)));
    try (discriminate (R1 (or_intror (or_introl eq_refl))));
    try (discriminate (R1 (or_intror (or_intror eq_refl))));
    destruct (eqb pc2 lit_100), (leb lit_80 pc2), (leb lit_50 pc2),
      (leb lit_25 pc2);
    try (discriminate (R2 (or_introl eq_refl)));
    try (discriminate (R2 (or_intror (or_introl eq_refl))));
    try (discriminate (R2 (or_intror (or_intror eq_refl))));
    try (discriminate (U80 eq_refl)); try (discriminate (U50 eq_refl));
    try (discriminate (U25 eq_refl));
    destruct (leb lit_100 pc2), (leb pc2 lit_100);
    try (discriminate (U100 eq_refl)); try (discriminate (D2 eq_refl));
    try (discriminate (A2 eq_refl eq_refl));
    destruct (h && p);
    (split; [intros Hs; split; first [left; reflexivity | right; reflexivity
                                      | right; left; assumption
                                      | right; right; assumption | exfalso; lia]
            | intros ([C1 | C1] & [C2 | [C2 | C2]]);
              try discriminate; try contradiction; try lia]).
Qed.

Lemma score_monotone_outside_low_data_witness :
  leb (percentOf 1 31 : b64) (percentOf 2 31) = true /\
  score (calculateConfidenceHybrid (N := b64) 1 31 true true)
  <= score (calculateConfidenceHybrid (N := b64) 2 31 true true).
Proof.
  split; [reflexivity |].
  apply (score_monotone_outside_low_data (N := b64) 1 31 2 31 true true).
  - reflexivity.
  - split; [left; reflexivity | right; right; reflexivity].
Defined.

(** Past 100% the score drops as well: 32 of 31 days scores 90, 31 of 31
    days scores 100 (binary64). *)
Lemma score_drops_above_100 :
  ltb (percentOf 31 31 : b64) (percentOf 32 31) = true /\
  score (calculateConfidenceHybrid (N := b64) 31 31 false false) = 100 /\
  score (calculateConfidenceHybrid (N := b64) 32 31 false false) = 90.
Proof. vm_compute. repeat split; reflexivity. Qed.

(** ** Sign of the prediction, in exact arithmetic *)

Section ExactSign.

Import ExactNumber.
Local Open Scope Q_scope.






(** In exact arithmetic the completeness test of the loader is a count:
    under 50% means fewer than half the days of the month. *)
Lemma dataCompleteness_exact (data : list (DailyTotal Q)) (year month : Z) :
  ltb (dataCompleteness data year month) lit_50 = true <->
  (2 * len data < getDaysInMonth year month)%Z.
Proof.
  pose proof (getDaysInMonth_bounds year month) as Hdim.
  unfold dataCompleteness. cbn [ltb div mul ofZ Q_number].
  change (@lit_100 Q Q_number) with (inject_Z 100).
  change (@lit_50 Q Q_number) with (inject_Z 50).
  rewrite negb_true_iff.
  assert (0 < inject_Z (getDaysInMonth year month)) as Hpos.
  { replace 0 with (inject_Z 0) by reflexivity. rewrite <- Zlt_Qlt. lia. }
  assert (inject_Z (len data) / inject_Z (getDaysInMonth year month) * inject_Z 100
          == inject_Z (100 * len data) / inject_Z (getDaysInMonth year month)) as E.
  { rewrite inject_Z_mult. field. lra. }
  split.
  - intros Hb. apply Z.lt_nge. intros Hge.
    assert (Qle_bool (inject_Z 50)
              (inject_Z (len data) / inject_Z (getDaysInMonth year month) * inject_Z 100)
            = true) as C; [| congruence].
    apply Qle_bool_iff. rewrite E. apply Qle_shift_div_l; [exact Hpos |].
    rewrite <- inject_Z_mult, <- Zle_Qle. lia.
  - intros Hlt. destruct (Qle_bool _ _) eqn:Hb; [| reflexivity].
    apply Qle_bool_iff in Hb. rewrite E in Hb.
    assert (inject_Z (100 * len data) / inject_Z (getDaysInMonth year month)
            < inject_Z 50) as Hunder.
    { apply Qlt_shift_div_r; [exact Hpos |].
      rewrite <- inject_Z_mult, <- Zlt_Qlt. lia. }
    exfalso. exact (Qle_not_lt _ _ Hb Hunder).
Qed.






End ExactSign.



(** ** Future-date validation *)

Lemma getDaysInMonth_month year month :
  1 <= month <= 12 ->
  getDaysInMonth year month = JsDate.monthLength (JsDate.MakeFullYear year) month.
Proof.
  intros Hm. rewrite getDaysInMonth_eq.
  destruct (Z.eq_dec month 12) as [-> | Hne]; [reflexivity |].
  rewrite (Z.mod_small month 12), (Z.div_small month 12) by lia.
  destruct (Z.eqb_spec month 0); [lia |].
  rewrite Z.add_0_r. reflexivity.
Qed.

Lemma utcMidnightMs_month year month day :
  1 <= month <= 12 ->
  utcMidnightMs year month day =
  JsDate.msPerDay *
    (JsDate.DayFromYear (JsDate.MakeFullYear year)
     + JsDate.monthStart (month - 1) (JsDate.leap (JsDate.MakeFullYear year))
     + day - 1).
Proof.
  intros Hm. unfold utcMidnightMs, JsDate.UTC, JsDate.MakeDay.
  rewrite (Z.mod_small (month - 1) 12), (Z.div_small (month - 1) 12) by lia.
  rewrite Z.add_0_r. reflexivity.
Qed.

(** Midnight of today, from the calendar date of [now], is the start of the
    day of [now]. *)
Lemma utcMidnightMs_today now :
  2000 <= JsDate.getUTCFullYear now ->
  utcMidnightMs (JsDate.getUTCFullYear now) (JsDate.getUTCMonth now + 1)
                (JsDate.getUTCDate now)
  = JsDate.msPerDay * JsDate.Day now.
Proof.
  intros Hy. unfold utcMidnightMs, JsDate.UTC, JsDate.MakeFullYear.
  destruct (Z.leb_spec (JsDate.getUTCFullYear now) 99) as [Hle | _]; [lia |].
  rewrite andb_false_r.
  replace (JsDate.getUTCMonth now + 1 - 1) with (JsDate.getUTCMonth now) by lia.
  unfold JsDate.getUTCFullYear, JsDate.getUTCMonth, JsDate.getUTCDate.
  rewrite DateFacts.MakeDay_of_day. reflexivity.
Qed.

(** For a valid day of a month that is not in the future, the comparison of
    the two midnights decides whether the date is after today. *)
Lemma selected_after_today now year month day :
  let todayYear := JsDate.getUTCFullYear now in
  let todayMonth := JsDate.getUTCMonth now + 1 in
  let todayDay := JsDate.getUTCDate now in
  2000 <= todayYear ->
  1 <= month <= 12 ->
  ~ laterMonth year month todayYear todayMonth ->
  1 <= day <= getDaysInMonth year month ->
  ((utcMidnightMs year month day >? utcMidnightMs todayYear todayMonth todayDay) = true
   <-> year = todayYear /\ month = todayMonth /\ todayDay < day).
Proof.
  cbv zeta. intros Hty Hm Hnl Hd.
  rewrite utcMidnightMs_today by exact Hty.
  rewrite utcMidnightMs_month by exact Hm.
  rewrite (getDaysInMonth_month year month Hm) in Hd.
  unfold laterMonth in Hnl.
  unfold JsDate.getUTCFullYear, JsDate.getUTCMonth, JsDate.getUTCDate in *.
  set (D := JsDate.Day now) in *.
  pose proof (DateFacts.YearFromDay_spec D) as Hspec.
  pose proof (DateFacts.MonthFromDay_range D) as [Hmr Hstart].
  pose proof (DateFacts.DaysInYear_cases (JsDate.MakeFullYear year)) as Hleap.
  pose proof (DateFacts.monthStart_next (JsDate.MakeFullYear year) month Hm) as Hnext.
  assert (JsDate.monthStart month (JsDate.leap (JsDate.MakeFullYear year))
          <= JsDate.DaysInYear (JsDate.MakeFullYear year)) as Hend.
  { replace (JsDate.DaysInYear (JsDate.MakeFullYear year))
      with (JsDate.monthStart 12 (JsDate.leap (JsDate.MakeFullYear year)))
      by (unfold JsDate.leap; cbn [JsDate.monthStart]; lia).
    apply DateFacts.monthStart_mono; unfold JsDate.leap; lia. }
  pose proof (DateFacts.DayFromYear_succ (JsDate.MakeFullYear year)) as Hsucc.
  assert (Hms : forall a b, (JsDate.msPerDay * a >? JsDate.msPerDay * b) = true <-> b < a).
  { intros a b. rewrite Z.gtb_ltb, Z.ltb_lt. unfold JsDate.msPerDay. lia. }
  rewrite Hms.
  assert (JsDate.MakeFullYear year = year \/
          (0 <= year <= 99 /\ JsDate.MakeFullYear year = 1900 + year)) as Hfy.
  { unfold JsDate.MakeFullYear.
    destruct (Z.leb_spec 0 year), (Z.leb_spec year 99); cbn [andb]; lia. }
  destruct (Z.lt_trichotomy year (JsDate.YearFromDay D)) as [Hlt | [Heq | Hgt]];
    [| | lia].
  - (* an earlier year: the whole year lies before this year *)
    assert (JsDate.DayFromYear (JsDate.MakeFullYear year + 1)
            <= JsDate.DayFromYear (JsDate.YearFromDay D)) as Hyear.
    { assert (JsDate.MakeFullYear year + 1 <= JsDate.YearFromDay D) as Hle by lia.
      apply Zle_lt_or_eq in Hle. destruct Hle as [Hle | Hle].
      - apply DateFacts.DayFromYear_lt in Hle. lia.
      - rewrite Hle. lia. }
    split; [lia | intros (Hy & _); lia].
  - (* this year *)
    assert (JsDate.MakeFullYear year = year) as Hfull by lia.
    rewrite Hfull in *. rewrite Heq in *.
    destruct (Z.lt_trichotomy month (JsDate.MonthFromDay D + 1)) as [Hml | [Hme | Hmg]];
      [| | lia].
    + (* an earlier month *)
      assert (JsDate.monthStart month (JsDate.leap (JsDate.YearFromDay D))
              <= JsDate.monthStart (JsDate.MonthFromDay D)
                   (JsDate.leap (JsDate.YearFromDay D))) as Hmono.
      { apply DateFacts.monthStart_mono; unfold JsDate.leap; lia. }
      unfold JsDate.DayWithinYear in Hstart.
      split; [lia | intros (_ & Hm' & _); lia].
    + (* this month *)
      subst month.
      replace (JsDate.MonthFromDay D + 1 - 1) with (JsDate.MonthFromDay D) by lia.
      unfold JsDate.DateFromDay, JsDate.DayWithinYear.
      split; [intros Hlt; repeat split; lia | intros (_ & _ & Hlt); lia].
Qed.

(** C9, the counterexample: seen from 3 November 2026, day 32 of January
    2027.  The day is outside 1..31, yet the request is rejected as a future
    date, because the month is checked before the day. *)
Lemma future_month_hides_invalid_day :
  getDaysInMonth 2027 1 = 31 /\
  validateNotFutureSelection Sample.now (Some 2027) (Some 1) (Some 32)
  = ValidationRejected FUTURE_DATE "Future months/years are not allowed".
Proof. split; vm_compute; reflexivity. Qed.

Ltac split_cases :=
  repeat match goal with
         | H : exists _, _ |- _ => destruct H as (? & ? & ?)
         | H : _ /\ _ |- _ => destruct H
         | H : Some _ = Some _ |- _ => injection H as H; try subst
         | H : _ \/ _ |- _ => destruct H
         end.

Ltac settle :=
  repeat split; unfold not; intros; split_cases;
  try discriminate; try lia; try tauto; eauto.

(** C9, as amended.  With year and month supplied, a clock in the year 2000
    or later and a year within the range of [Date] (beyond it [Date.UTC]
    is NaN, which [JsDate] leaves out): the request is rejected
    as invalid when the month is outside 1..12, or when the year and month
    are not in the future and the given day is outside
    1..daysInMonth(year, month); it is rejected as future when the month is
    within 1..12 and either the year and month are strictly after the
    current UTC year and month, whatever the day, or the given day is valid
    and the full date is strictly after today; otherwise it is accepted. *)
Theorem validation_by_precedence (now year month : Z) (day : option Z) :
  let todayYear := JsDate.getUTCFullYear now in
  let todayMonth := JsDate.getUTCMonth now + 1 in
  let todayDay := JsDate.getUTCDate now in
  let code :=
    rejection (validateNotFutureSelection now (Some year) (Some month) day) in
  let monthInvalid := month < 1 \/ 12 < month in
  let future := laterMonth year month todayYear todayMonth in
  let dayInvalid :=
    exists d, day = Some d /\ (d < 1 \/ getDaysInMonth year month < d) in
  let dayFuture :=
    exists d, day = Some d /\ 1 <= d <= getDaysInMonth year month /\
              laterDate year month d todayYear todayMonth todayDay in
  2000 <= todayYear < 275760 ->
  -271821 < year ->
  (code = Some INVALID_DATE <-> monthInvalid \/ (~ future /\ dayInvalid)) /\
  (code = Some FUTURE_DATE <-> ~ monthInvalid /\ (future \/ dayFuture)) /\
  (code = None <->
     ~ monthInvalid /\ ~ future /\ ~ dayInvalid /\ ~ dayFuture).
Proof.
  cbv zeta. intros [Hty _] _.
  unfold validateNotFutureSelection, laterDate.
  destruct (Z.ltb_spec month 1) as [Hm1 | Hm1];
    [| destruct (Z.gtb_spec month 12) as [Hm12 | Hm12]]; cbn [orb rejection].
  1, 2: settle.
  assert (Hfut : forall b, b = ((year >? JsDate.getUTCFullYear now)
                  || ((year =? JsDate.getUTCFullYear now)
                      && (month >? JsDate.getUTCMonth now + 1))) ->
            (b = true <->
             laterMonth year month (JsDate.getUTCFullYear now)
                        (JsDate.getUTCMonth now + 1))).
  { intros b ->. unfold laterMonth.
    destruct (Z.gtb_spec year (JsDate.getUTCFullYear now)),
      (Z.eqb_spec year (JsDate.getUTCFullYear now)),
      (Z.gtb_spec month (JsDate.getUTCMonth now + 1)); cbn; settle. }
  specialize (Hfut _ eq_refl).
  destruct ((year >? JsDate.getUTCFullYear now)
            || ((year =? JsDate.getUTCFullYear now)
                && (month >? JsDate.getUTCMonth now + 1))) eqn:Efut;
    cbn [rejection].
  { assert (laterMonth year month (JsDate.getUTCFullYear now)
                       (JsDate.getUTCMonth now + 1)) as Hf by (apply Hfut; reflexivity).
    settle. }
  assert (~ laterMonth year month (JsDate.getUTCFullYear now)
                       (JsDate.getUTCMonth now + 1)) as Hnf.
  { intros C. apply Hfut in C. discriminate. }
  destruct day as [d |]; cbn [rejection].
  2:{ settle. }
  destruct (Z.ltb_spec d 1) as [Hd1 | Hd1];
    [| destruct (Z.gtb_spec d (getDaysInMonth year month)) as [Hd2 | Hd2]];
    cbn [orb rejection].
  1, 2: settle;
    try (right; split; [exact Hnf | exists d; split; [reflexivity | lia]]);
    try (exfalso;
         match goal with
         | H : (exists _, _ /\ (_ \/ _)) -> False |- _ =>
             apply H; exists d; split; [reflexivity | lia]
         end).
  pose proof (selected_after_today now year month d Hty
                (conj Hm1 Hm12) Hnf (conj Hd1 Hd2)) as Hsel.
  cbv zeta in Hsel.
  destruct (utcMidnightMs year month d >? _) eqn:Esel; cbn [rejection].
  - assert (year = JsDate.getUTCFullYear now /\
            month = JsDate.getUTCMonth now + 1 /\
            JsDate.getUTCDate now < d) as Hlater by (apply Hsel; reflexivity).
    settle;
      try (right; exists d;
           split; [reflexivity | split; [lia | right; repeat split; assumption]]);
      try (exfalso;
           match goal with
           | H : (exists _, _ /\ _ /\ _) -> False |- _ =>
               apply H; exists d;
               split; [reflexivity | split; [lia | right; repeat split; assumption]]
           end).
  - assert (~ (year = JsDate.getUTCFullYear now /\
               month = JsDate.getUTCMonth now + 1 /\
               JsDate.getUTCDate now < d)) as Hnl.
    { intros C. apply Hsel in C. discriminate. }
    settle.
Qed.

Lemma validation_by_precedence_witness :
  2000 <= JsDate.getUTCFullYear Sample.now < 275760 /\
  rejection (validateNotFutureSelection Sample.now (Some 2026) (Some 11) (Some 4))
  = Some FUTURE_DATE /\
  rejection (validateNotFutureSelection Sample.now (Some 2026) (Some 11) (Some 3))
  = None.
Proof.
  assert (2000 <= JsDate.getUTCFullYear Sample.now < 275760) as Hnow.
  { split; [apply Z.leb_le | apply Z.ltb_lt]; vm_compute; reflexivity. }
  assert (-271821 < 2026) as Hyear by reflexivity.
  split; [exact Hnow |]. split.
  - destruct (validation_by_precedence Sample.now 2026 11 (Some 4) Hnow Hyear)
      as (_ & Hfuture & _).
    apply Hfuture. split; [lia |]. right. exists 4.
    split; [reflexivity |]. split.
    + split; [apply Z.leb_le | apply Z.leb_le]; vm_compute; reflexivity.
    + right. repeat split; try (vm_compute; reflexivity).
  - destruct (validation_by_precedence Sample.now 2026 11 (Some 3) Hnow Hyear)
      as (_ & _ & Hok).
    apply Hok. split; [lia |]. split; [| split].
    + intros [C | [_ C]]; vm_compute in C; discriminate.
    + intros (d & [= <-] & [C | C]); vm_compute in C; discriminate.
    + intros (d & [= <-] & _ & [[C | [_ C]] | (_ & _ & C)]);
        vm_compute in C; discriminate.
Defined.

(* ===================================================================== *)
(** * Part IV: more of the server and of the data source                  *)
(* ===================================================================== *)

(** ** Dates and midnights *)

Lemma DayFromYear_le y y' : y <= y' -> JsDate.DayFromYear y <= JsDate.DayFromYear y'.
Proof.
  intros Hle. apply Zle_lt_or_eq in Hle. destruct Hle as [Hlt | ->]; [| lia].
  apply DateFacts.DayFromYear_lt in Hlt. lia.
Qed.

(** The years of [dateRangeYear] keep [Date.UTC] inside the range of [Date]:
    for a month index of 0 to 12 and a day of 0 to 32, which covers the
    midnights of every month, the day before its first and the day after
    its last, the time value is one that [TimeClip] leaves as it is. *)
Lemma UTC_inTimeRange (year month date : Z) :
  dateRangeYear year -> 0 <= month <= 12 -> 0 <= date <= 32 ->
  inTimeRange (JsDate.UTC year month date).
Proof.
  unfold dateRangeYear, inTimeRange, TimeClip. intros Hy Hm Hd.
  match goal with
  | |- (if ?a >? ?b then _ else _) = _ =>
      destruct (Z.gtb_spec a b) as [Hout | _]; [exfalso; revert Hout | reflexivity]
  end.
  unfold maxTimeValue, JsDate.UTC, JsDate.MakeDay, JsDate.msPerDay.
  assert (-271821 < JsDate.MakeFullYear year < 275760) as HY.
  { unfold JsDate.MakeFullYear.
    destruct ((0 <=? year) && (year <=? 99)) eqn:E; [| exact Hy].
    apply andb_true_iff in E. destruct E as [E1 E2].
    apply Z.leb_le in E1, E2. lia. }
  generalize dependent (JsDate.MakeFullYear year). intros Y HY.
  assert (JsDate.DayFromYear (-271820) = -99999744) as Elow by reflexivity.
  assert (JsDate.DayFromYear 275760 = 99999744) as Ehigh by reflexivity.
  destruct (Z.eq_dec month 12) as [-> | Hne].
  - change (12 / 12) with 1. change (12 mod 12) with 0.
    cbn [JsDate.monthStart].
    pose proof (DayFromYear_le (-271820) (Y + 1)).
    pose proof (DayFromYear_le (Y + 1) 275760). lia.
  - rewrite (Z.div_small month 12), (Z.mod_small month 12) by lia.
    rewrite Z.add_0_r.
    pose proof (DayFromYear_le (-271820) Y).
    pose proof (DayFromYear_le (Y + 1) 275760).
    pose proof (DateFacts.DayFromYear_succ Y) as Hs.
    pose proof (DateFacts.DaysInYear_cases Y) as Hc.
    assert (0 <= JsDate.monthStart month (JsDate.leap Y) <= 335) as Hms.
    { unfold JsDate.leap.
      assert (month = 0 \/ month = 1 \/ month = 2 \/ month = 3 \/ month = 4 \/
              month = 5 \/ month = 6 \/ month = 7 \/ month = 8 \/ month = 9 \/
              month = 10 \/ month = 11) as Hcases by lia.
      repeat (destruct Hcases as [-> | Hcases]); try subst month;
        cbn [JsDate.monthStart]; lia. }
    destruct (Z.eq_dec Y 275759) as [-> | HYn].
    + assert (JsDate.DayFromYear 275759 = 99999379) as E by reflexivity.
      lia.
    + pose proof (DayFromYear_le (Y + 1) 275759). 
      assert (JsDate.DayFromYear 275759 = 99999379) as E by reflexivity.
      lia.
Qed.

(** Checks that a time value given in figures lies inside the range. *)
Ltac in_time_range := vm_compute; reflexivity.

(** X1.  For a month of the calendar, in a year outside 0..99, whose last
    day lies inside the range of [Date], [getDaysInMonth] is the Gregorian
    month length: 31, 30, or 28 with a 29th day exactly in years divisible
    by 4 and not by 100, or by 400. *)
Theorem getDaysInMonth_gregorian (year month : Z) :
  1 <= month <= 12 -> ~ (0 <= year <= 99) ->
  inTimeRange (JsDate.UTC year month 0) ->
  getDaysInMonth year month =
  match month with
  | 2 => if (year mod 4 =? 0) && (negb (year mod 100 =? 0) || (year mod 400 =? 0))
         then 29 else 28
  | 4 | 6 | 9 | 11 => 30
  | _ => 31
  end.
Proof.
  intros Hm Hy _. rewrite getDaysInMonth_calendar by assumption.
  unfold JsDate.monthLength, JsDate.leap, JsDate.DaysInYear.
  destruct (year mod 4 =? 0), (year mod 100 =? 0), (year mod 400 =? 0);
    reflexivity.
Qed.

Lemma getDaysInMonth_gregorian_witness :
  getDaysInMonth 2024 2 = 29 /\ getDaysInMonth 1900 2 = 28 /\
  getDaysInMonth 2000 2 = 29 /\ getDaysInMonth 2025 4 = 30.
Proof.
  split; [| split; [| split]].
  - rewrite (getDaysInMonth_gregorian 2024 2);
      [reflexivity | lia | lia | in_time_range].
  - rewrite (getDaysInMonth_gregorian 1900 2);
      [reflexivity | lia | lia | in_time_range].
  - rewrite (getDaysInMonth_gregorian 2000 2);
      [reflexivity | lia | lia | in_time_range].
  - rewrite (getDaysInMonth_gregorian 2025 4);
      [reflexivity | lia | lia | in_time_range].
Defined.

(** X2.  Whenever the day that [getDaysInMonth] asks [Date.UTC] for lies
    inside the range of [Date], also for a month outside 1..12 that
    [Date.UTC] carries into another year, [getDaysInMonth] answers a month
    length: a number from 28 to 31. *)
Theorem getDaysInMonth_is_a_month_length (year month : Z) :
  inTimeRange (JsDate.UTC year month 0) ->
  28 <= getDaysInMonth year month <= 31.
Proof. intros _. apply getDaysInMonth_bounds. Qed.

Lemma getDaysInMonth_is_a_month_length_witness :
  getDaysInMonth 2025 14 = 28 /\ 28 <= getDaysInMonth 2025 14 <= 31.
Proof.
  split; [reflexivity |].
  apply (getDaysInMonth_is_a_month_length 2025 14). in_time_range.
Defined.

(** X3.  A year from 0 to 99 is read as 1900 + year: the month has the
    length it has in that year of the twentieth century. *)
Theorem getDaysInMonth_two_digit_year (year month : Z) :
  0 <= year <= 99 ->
  getDaysInMonth year month = getDaysInMonth (1900 + year) month.
Proof.
  intros Hy. rewrite !getDaysInMonth_eq. unfold JsDate.MakeFullYear.
  destruct (Z.leb_spec 0 year), (Z.leb_spec year 99); try lia.
  destruct (Z.leb_spec 0 (1900 + year)), (Z.leb_spec (1900 + year) 99); try lia;
    reflexivity.
Qed.

Lemma getDaysInMonth_two_digit_year_witness :
  getDaysInMonth 0 2 = 28 /\ getDaysInMonth 4 2 = 29.
Proof.
  split.
  - rewrite (getDaysInMonth_two_digit_year 0 2); [reflexivity | lia].
  - rewrite (getDaysInMonth_two_digit_year 4 2); [reflexivity | lia].
Defined.

Lemma MakeFullYear_id year : ~ (0 <= year <= 99) -> JsDate.MakeFullYear year = year.
Proof.
  intros Hy. unfold JsDate.MakeFullYear.
  destruct (Z.leb_spec 0 year), (Z.leb_spec year 99); cbn [andb]; lia.
Qed.

(** The day number of a date of the calendar, and where it lies in its
    year and month. *)
Lemma utcMidnightMs_day year month day :
  ~ (0 <= year <= 99) -> validDate year month day ->
  let k := JsDate.monthStart (month - 1) (JsDate.leap year) + day - 1 in
  utcMidnightMs year month day = JsDate.msPerDay * (JsDate.DayFromYear year + k) /\
  0 <= k < JsDate.DaysInYear year /\
  JsDate.monthStart (month - 1) (JsDate.leap year) <= k
    < JsDate.monthStart (month - 1 + 1) (JsDate.leap year).
Proof.
  intros Hy [Hm Hd]. cbv zeta.
  rewrite (getDaysInMonth_calendar year month Hm Hy) in Hd.
  pose proof (DateFacts.monthStart_next year month Hm) as Hnext.
  pose proof (DateFacts.DaysInYear_cases year) as Hleap.
  assert (0 <= JsDate.monthStart (month - 1) (JsDate.leap year)) as H0.
  { change 0 with (JsDate.monthStart 0 (JsDate.leap year)) at 1.
    apply DateFacts.monthStart_mono; unfold JsDate.leap; lia. }
  assert (JsDate.monthStart month (JsDate.leap year) <= JsDate.DaysInYear year) as Hend.
  { replace (JsDate.DaysInYear year)
      with (JsDate.monthStart 12 (JsDate.leap year))
      by (unfold JsDate.leap; cbn [JsDate.monthStart]; lia).
    apply DateFacts.monthStart_mono; unfold JsDate.leap; lia. }
  replace (month - 1 + 1) with month by lia.
  split.
  - rewrite utcMidnightMs_month by exact Hm.
    rewrite (MakeFullYear_id year Hy). f_equal. lia.
  - lia.
Qed.

(** X4.  Round trip: for a date of the calendar, in a year outside 0..99,
    whose midnight lies inside the range of [Date], the UTC year, month and
    day of the midnight that [utcMidnightMs] computes are that date, and
    [formatUtcYmd] prints it as year-month-day with two-digit month and
    day. *)
Theorem formatUtcYmd_utcMidnightMs (year month day : Z) :
  ~ (0 <= year <= 99) -> validDate year month day ->
  inTimeRange (utcMidnightMs year month day) ->
  let t := utcMidnightMs year month day in
  JsDate.getUTCFullYear t = year /\
  JsDate.getUTCMonth t + 1 = month /\
  JsDate.getUTCDate t = day /\
  formatUtcYmd t = ymdLabel year month day.
Proof.
  intros Hy Hv _. cbv zeta.
  destruct (utcMidnightMs_day year month day Hy Hv) as (Ht & Hk & Hin).
  cbv zeta in *. destruct Hv as [Hm _].
  set (k := JsDate.monthStart (month - 1) (JsDate.leap year) + day - 1) in *.
  assert (JsDate.Day (utcMidnightMs year month day) = JsDate.DayFromYear year + k) as HD.
  { rewrite Ht. unfold JsDate.Day, JsDate.msPerDay.
    rewrite Z.mul_comm. apply Z.div_mul. lia. }
  destruct (DateFacts.MonthFromDay_offset year k Hk (month - 1)) as [Hmo Hda];
    [lia | exact Hin |].
  assert (JsDate.getUTCFullYear (utcMidnightMs year month day) = year) as E1.
  { unfold JsDate.getUTCFullYear. rewrite HD. apply DateFacts.YearFromDay_offset, Hk. }
  assert (JsDate.getUTCMonth (utcMidnightMs year month day) + 1 = month) as E2.
  { unfold JsDate.getUTCMonth. rewrite HD, Hmo. lia. }
  assert (JsDate.getUTCDate (utcMidnightMs year month day) = day) as E3.
  { unfold JsDate.getUTCDate. rewrite HD, Hda. subst k. lia. }
  repeat split; try assumption.
  unfold formatUtcYmd, ymdLabel. rewrite E1, E2, E3. reflexivity.
Qed.

Lemma formatUtcYmd_utcMidnightMs_witness :
  formatUtcYmd (utcMidnightMs 2025 2 28) = "2025-02-28"%string.
Proof.
  destruct (formatUtcYmd_utcMidnightMs 2025 2 28) as (_ & _ & _ & E).
  - lia.
  - split; [lia |]. split; [lia | apply Z.leb_le; vm_compute; reflexivity].
  - in_time_range.
  - rewrite E. reflexivity.
Defined.

Lemma utcMidnightMs_earlier y m d y' m' d' :
  ~ (0 <= y <= 99) -> ~ (0 <= y' <= 99) ->
  validDate y m d -> validDate y' m' d' ->
  earlierDate y m d y' m' d' ->
  utcMidnightMs y m d < utcMidnightMs y' m' d'.
Proof.
  intros Hy Hy' Hv Hv' He.
  destruct (utcMidnightMs_day y m d Hy Hv) as (-> & Hk & Hin).
  destruct (utcMidnightMs_day y' m' d' Hy' Hv') as (-> & Hk' & Hin').
  cbv zeta in *. destruct Hv as [Hm _], Hv' as [Hm' _].
  replace (m - 1 + 1) with m in Hin by lia.
  replace (m' - 1 + 1) with m' in Hin' by lia.
  unfold JsDate.msPerDay.
  destruct He as [Hlt | [(<- & Hlt) | (<- & <- & Hlt)]].
  - pose proof (DateFacts.DayFromYear_succ y) as Hs.
    pose proof (DayFromYear_le (y + 1) y') as Hle. lia.
  - assert (JsDate.monthStart m (JsDate.leap y)
            <= JsDate.monthStart (m' - 1) (JsDate.leap y)) as Hmono.
    { pose proof (DateFacts.DaysInYear_cases y).
      apply DateFacts.monthStart_mono; unfold JsDate.leap; lia. }
    lia.
  - lia.
Qed.

(** X5.  On dates of the calendar (years outside 0..99) whose midnights lie
    inside the range of [Date], [utcMidnightMs] is an order embedding: one
    midnight is before another exactly when its date is earlier in the
    calendar; equal midnights are equal dates. *)
Theorem utcMidnightMs_calendar_order (y m d y' m' d' : Z) :
  ~ (0 <= y <= 99) -> ~ (0 <= y' <= 99) ->
  validDate y m d -> validDate y' m' d' ->
  inTimeRange (utcMidnightMs y m d) -> inTimeRange (utcMidnightMs y' m' d') ->
  (utcMidnightMs y m d < utcMidnightMs y' m' d' <-> earlierDate y m d y' m' d') /\
  (utcMidnightMs y m d = utcMidnightMs y' m' d' <-> y = y' /\ m = m' /\ d = d').
Proof.
  intros Hy Hy' Hv Hv' _ _.
  assert (earlierDate y m d y' m' d' \/ (y = y' /\ m = m' /\ d = d')
          \/ earlierDate y' m' d' y m d) as Htri by (unfold earlierDate; lia).
  pose proof (utcMidnightMs_earlier y m d y' m' d' Hy Hy' Hv Hv') as Hlt.
  pose proof (utcMidnightMs_earlier y' m' d' y m d Hy' Hy Hv' Hv) as Hgt.
  split; split.
  - intros H. destruct Htri as [He | [(-> & -> & ->) | He]]; [exact He | lia |].
    specialize (Hgt He). lia.
  - exact Hlt.
  - intros H. destruct Htri as [He | [He | He]]; [| exact He |].
    + specialize (Hlt He). lia.
    + specialize (Hgt He). lia.
  - intros (-> & -> & ->). reflexivity.
Qed.

Lemma utcMidnightMs_calendar_order_witness :
  utcMidnightMs 2024 12 31 < utcMidnightMs 2025 1 1.
Proof.
  destruct (utcMidnightMs_calendar_order 2024 12 31 2025 1 1) as [[_ H] _];
    try lia.
  - split; [lia |]. split; [lia | apply Z.leb_le; vm_compute; reflexivity].
  - split; [lia |]. split; [lia | apply Z.leb_le; vm_compute; reflexivity].
  - in_time_range.
  - in_time_range.
  - apply H. left. lia.
Defined.

(** X6.  [getPreviousMonth] gives the month just before: for a month of the
    calendar in a year outside 0..100 and inside the range of [Date], the
    result is a month of the calendar, and the day after its last day is the
    first day of the given month, over the turn of the year as well.  (A
    year from 0 to 99 is read as 19xx by [Date.UTC], so that neither those
    years nor the January of the year 100 have this.) *)
Theorem getPreviousMonth_is_adjacent (year month : Z) :
  1 <= month <= 12 -> ~ (0 <= year <= 100) -> dateRangeYear year ->
  let '(prevYear, prevMonth) := getPreviousMonth year month in
  1 <= prevMonth <= 12 /\
  (prevYear = year /\ prevMonth = month - 1 \/
   prevYear = year - 1 /\ prevMonth = 12 /\ month = 1) /\
  utcMidnightMs prevYear prevMonth (getDaysInMonth prevYear prevMonth)
    + JsDate.msPerDay
  = utcMidnightMs year month 1.
Proof.
  intros Hm Hy _. unfold getPreviousMonth.
  destruct (Z.eqb_spec month 1) as [-> | Hne].
  - split; [lia |]. split; [right; lia |].
    rewrite !utcMidnightMs_month by lia.
    rewrite getDaysInMonth_calendar by lia.
    rewrite !MakeFullYear_id by lia.
    pose proof (DateFacts.DayFromYear_succ (year - 1)) as Hs.
    replace (year - 1 + 1) with year in Hs by lia.
    pose proof (DateFacts.DaysInYear_cases (year - 1)) as Hc.
    unfold JsDate.leap, JsDate.monthLength, JsDate.msPerDay.
    change (12 - 1) with 11. change (1 - 1) with 0.
    cbn [JsDate.monthStart]. lia.
  - split; [lia |]. split; [left; lia |].
    rewrite !utcMidnightMs_month by lia.
    rewrite getDaysInMonth_calendar by lia.
    rewrite !MakeFullYear_id by lia.
    pose proof (DateFacts.monthStart_next year (month - 1)) as Hn.
    unfold JsDate.msPerDay. lia.
Qed.

Lemma getPreviousMonth_is_adjacent_witness :
  getPreviousMonth 2025 1 = (2024, 12) /\
  utcMidnightMs 2024 12 (getDaysInMonth 2024 12) + JsDate.msPerDay
  = utcMidnightMs 2025 1 1.
Proof.
  split; [reflexivity |].
  pose proof (getPreviousMonth_is_adjacent 2025 1) as H.
  change (getPreviousMonth 2025 1) with (2024, 12) in H.
  apply H; unfold dateRangeYear; lia.
Defined.

(** ** Validation over time *)

Lemma MonthFromDay_end d :
  JsDate.DayWithinYear d
  < JsDate.monthStart (JsDate.MonthFromDay d + 1) (JsDate.leap (JsDate.YearFromDay d)).
Proof.
  pose proof (DateFacts.DayWithinYear_range d) as Hw. unfold JsDate.MonthFromDay.
  generalize dependent (JsDate.DayWithinYear d). intros w Hw.
  unfold JsDate.leap.
  destruct (DateFacts.DaysInYear_cases (JsDate.YearFromDay d)) as [E | E];
    rewrite E in *;
    [change (365 - 365) with 0 | change (366 - 365) with 1];
    cbn [JsDate.monthStart];
    repeat match goal with
           | |- context [?a <? ?b] => destruct (Z.ltb_spec a b)
           end; cbn [JsDate.monthStart Z.add Pos.add Pos.succ]; lia.
Qed.

Lemma YearFromDay_mono d d' : d <= d' -> JsDate.YearFromDay d <= JsDate.YearFromDay d'.
Proof.
  intros Hle.
  pose proof (DateFacts.YearFromDay_spec d) as Hs.
  pose proof (DateFacts.YearFromDay_spec d') as Hs'.
  destruct (Z.le_gt_cases (JsDate.YearFromDay d) (JsDate.YearFromDay d'))
    as [H | H]; [exact H |].
  pose proof (DayFromYear_le (JsDate.YearFromDay d' + 1) (JsDate.YearFromDay d)).
  lia.
Qed.

(** The year and month of a later instant are not earlier. *)
Lemma yearMonth_mono d d' :
  d <= d' ->
  JsDate.YearFromDay d < JsDate.YearFromDay d' \/
  (JsDate.YearFromDay d = JsDate.YearFromDay d' /\
   JsDate.MonthFromDay d <= JsDate.MonthFromDay d').
Proof.
  intros Hle. pose proof (YearFromDay_mono d d' Hle) as Hy.
  apply Zle_lt_or_eq in Hy. destruct Hy as [Hy | Hy]; [left; exact Hy |].
  right. split; [exact Hy |].
  destruct (Z.le_gt_cases (JsDate.MonthFromDay d) (JsDate.MonthFromDay d'))
    as [H | H]; [exact H | exfalso].
  pose proof (DateFacts.MonthFromDay_range d) as [Hr Hstart].
  pose proof (DateFacts.MonthFromDay_range d') as [Hr' _].
  pose proof (MonthFromDay_end d') as Hend.
  pose proof (DateFacts.DaysInYear_cases (JsDate.YearFromDay d)) as Hc.
  unfold JsDate.DayWithinYear in *. rewrite <- Hy in *.
  assert (JsDate.monthStart (JsDate.MonthFromDay d' + 1)
            (JsDate.leap (JsDate.YearFromDay d))
          <= JsDate.monthStart (JsDate.MonthFromDay d)
               (JsDate.leap (JsDate.YearFromDay d))) as Hmono.
  { apply DateFacts.monthStart_mono; unfold JsDate.leap; lia. }
  lia.
Qed.

Lemma Day_mono t t' : t <= t' -> JsDate.Day t <= JsDate.Day t'.
Proof. intros H. unfold JsDate.Day, JsDate.msPerDay. apply Z.div_le_mono; lia. Qed.

(** X7.  What the validation accepts it keeps accepting: with a clock in
    the year 2000 or later, a request accepted at one instant is accepted at
    every later instant. *)
Theorem validation_stays_accepted (now now' : Z) (year month day : option Z) :
  2000 <= JsDate.getUTCFullYear now ->
  now <= now' ->
  validateNotFutureSelection now year month day = ValidationOk ->
  validateNotFutureSelection now' year month day = ValidationOk.
Proof.
  intros Hclock Hle.
  pose proof (Day_mono now now' Hle) as HD.
  pose proof (yearMonth_mono _ _ HD) as Hym.
  pose proof (YearFromDay_mono _ _ HD) as Hyy.
  assert (2000 <= JsDate.getUTCFullYear now') as Hclock'.
  { unfold JsDate.getUTCFullYear in *. lia. }
  pose proof (utcMidnightMs_today now Hclock) as Htoday.
  pose proof (utcMidnightMs_today now' Hclock') as Htoday'.
  unfold validateNotFutureSelection.
  destruct year as [y |], month as [m |]; try (intros H; exact H).
  destruct ((m <? 1) || (m >? 12)); [discriminate |].
  destruct (Z.gtb_spec y (JsDate.getUTCFullYear now)) as [Hf1 | Hf1];
    [discriminate |].
  destruct (Z.eqb_spec y (JsDate.getUTCFullYear now)) as [Hf2 | Hf2];
    [destruct (Z.gtb_spec m (JsDate.getUTCMonth now + 1)) as [Hf3 | Hf3];
     [discriminate |] |];
    cbn [orb andb];
    (assert (((y >? JsDate.getUTCFullYear now')
              || ((y =? JsDate.getUTCFullYear now')
                  && (m >? JsDate.getUTCMonth now' + 1))) = false) as ->;
     [unfold JsDate.getUTCFullYear, JsDate.getUTCMonth in *;
      destruct (Z.gtb_spec y (JsDate.YearFromDay (JsDate.Day now'))); [lia |];
      destruct (Z.eqb_spec y (JsDate.YearFromDay (JsDate.Day now'))); [| reflexivity];
      destruct (Z.gtb_spec m (JsDate.MonthFromDay (JsDate.Day now') + 1));
        [lia | reflexivity]
     |]);
    (destruct day as [d |]; [| intros H; exact H]);
    (destruct ((d <? 1) || (d >? getDaysInMonth y m)); [discriminate |]);
    rewrite Htoday, Htoday';
    (destruct (Z.gtb_spec (utcMidnightMs y m d)
                          (JsDate.msPerDay * JsDate.Day now)) as [Hs | Hs];
     [discriminate |]);
    intros _;
    (destruct (Z.gtb_spec (utcMidnightMs y m d)
                          (JsDate.msPerDay * JsDate.Day now')) as [Hs' | Hs'];
     [unfold JsDate.msPerDay in *; lia | reflexivity]).
Qed.

Lemma validation_stays_accepted_witness :
  validateNotFutureSelection (Sample.now + JsDate.msPerDay)
    (Some 2026) (Some 11) (Some 3) = ValidationOk.
Proof.
  apply (validation_stays_accepted Sample.now).
  - apply Z.leb_le. vm_compute. reflexivity.
  - unfold JsDate.msPerDay. lia.
  - vm_compute. reflexivity.
Defined.

(** ** Ranges of dates *)

(** The day after the last day of a month is the first day of the next. *)
Lemma month_end_then_next year month :
  1 <= month <= 12 -> ~ (-1 <= year <= 99) ->
  utcMidnightMs year month (getDaysInMonth year month) + JsDate.msPerDay
  = utcMidnightMs (if month =? 12 then year + 1 else year)
                  (if month =? 12 then 1 else month + 1) 1.
Proof.
  intros Hm Hy.
  rewrite getDaysInMonth_calendar by lia.
  pose proof (DateFacts.monthStart_next year month Hm) as Hn.
  destruct (Z.eqb_spec month 12) as [-> | Hne].
  - rewrite !utcMidnightMs_month by lia.
    rewrite !MakeFullYear_id by lia.
    pose proof (DateFacts.DayFromYear_succ year) as Hs.
    pose proof (DateFacts.DaysInYear_cases year) as Hc.
    change (1 - 1) with 0. cbn [JsDate.monthStart].
    unfold JsDate.leap at 2 in Hn. cbn [JsDate.monthStart] in Hn.
    unfold JsDate.msPerDay. lia.
  - rewrite !utcMidnightMs_month by lia.
    rewrite !MakeFullYear_id by lia.
    replace (month + 1 - 1) with month by lia.
    unfold JsDate.msPerDay. lia.
Qed.

Lemma utcMidnightMs_next_day year month day :
  1 <= month <= 12 ->
  utcMidnightMs year month (day + 1) = utcMidnightMs year month day + JsDate.msPerDay.
Proof.
  intros Hm. rewrite !utcMidnightMs_month by exact Hm.
  unfold JsDate.msPerDay. lia.
Qed.

Lemma validDate_first year month : 1 <= month <= 12 -> validDate year month 1.
Proof.
  intros Hm. split; [exact Hm |].
  pose proof (getDaysInMonth_bounds year month). lia.
Qed.

(** How [formatUtcYmd] prints the first midnight of a month. *)
Lemma formatUtcYmd_first year month :
  1 <= month <= 12 -> ~ (0 <= year <= 99) ->
  (string_of_Z year ++ "-" ++ padStart2 (string_of_Z month) ++ "-01")%string
    = formatUtcYmd (utcMidnightMs year month 1) /\
  JsDate.getUTCFullYear (utcMidnightMs year month 1) = year.
Proof.
  intros Hm Hy.
  destruct (utcMidnightMs_day year month 1 Hy (validDate_first year month Hm))
    as (Ht & Hk & Hin). cbv zeta in *.
  set (k := JsDate.monthStart (month - 1) (JsDate.leap year) + 1 - 1) in *.
  assert (JsDate.Day (utcMidnightMs year month 1) = JsDate.DayFromYear year + k) as HD.
  { rewrite Ht. unfold JsDate.Day, JsDate.msPerDay.
    rewrite Z.mul_comm. apply Z.div_mul. lia. }
  destruct (DateFacts.MonthFromDay_offset year k Hk (month - 1)) as [Hmo Hda];
    [lia | exact Hin |].
  unfold formatUtcYmd, JsDate.getUTCFullYear, JsDate.getUTCMonth, JsDate.getUTCDate.
  rewrite HD, Hmo, Hda, (DateFacts.YearFromDay_offset year k Hk).
  replace (month - 1 + 1) with month by lia.
  replace (k - JsDate.monthStart (month - 1) (JsDate.leap year) + 1) with 1
    by (subst k; lia).
  split; reflexivity.
Qed.

(** X8.  [getMonthRange] is the month, half open: for a month of the
    calendar in a year outside -1..99 and inside the range of [Date],
    [start] is the date of the first midnight of the month and [end] the
    date of the midnight after its last day, printed the way [formatUtcYmd]
    prints them; December runs into January of the next year. *)
Theorem getMonthRange_is_the_month (year month : Z) :
  1 <= month <= 12 -> ~ (-1 <= year <= 99) -> dateRangeYear year ->
  rangeStart (getMonthRange year month)
    = formatUtcYmd (utcMidnightMs year month 1) /\
  rangeEnd (getMonthRange year month)
    = formatUtcYmd (utcMidnightMs year month (getDaysInMonth year month)
                    + JsDate.msPerDay).
Proof.
  intros Hm Hy _. split.
  - destruct (formatUtcYmd_first year month) as [E _]; [exact Hm | lia |].
    unfold getMonthRange. cbn [rangeStart]. exact E.
  - rewrite month_end_then_next by assumption.
    unfold getMonthRange. cbn [rangeEnd].
    destruct (Z.eqb_spec month 12) as [-> | Hne].
    + destruct (formatUtcYmd_first (year + 1) 1) as [E _]; [lia | lia |].
      exact E.
    + destruct (formatUtcYmd_first year (month + 1)) as [E _]; [lia | lia |].
      exact E.
Qed.

Lemma getMonthRange_is_the_month_witness :
  getMonthRange 2024 12 = {| rangeStart := "2024-12-01"; rangeEnd := "2025-01-01" |} /\
  rangeEnd (getMonthRange 2024 12)
    = formatUtcYmd (utcMidnightMs 2024 12 31 + JsDate.msPerDay).
Proof.
  split; [reflexivity |].
  destruct (getMonthRange_is_the_month 2024 12) as [_ E];
    [lia | lia | unfold dateRangeYear; lia |].
  exact E.
Defined.

(** X9.  The data source and the server agree on the previous month:
    [getPreviousMonthRange] of an instant is [getMonthRange] of the month
    [getPreviousMonth] gives for the UTC year and month of that instant. *)
Theorem getPreviousMonthRange_getPreviousMonth (referenceDate : Z) :
  getPreviousMonthRange referenceDate =
  let '(prevYear, prevMonth) :=
    getPreviousMonth (JsDate.getUTCFullYear referenceDate)
                     (JsDate.getUTCMonth referenceDate + 1) in
  getMonthRange prevYear prevMonth.
Proof.
  unfold getPreviousMonthRange, getPreviousMonth.
  destruct (Z.eqb_spec (JsDate.getUTCMonth referenceDate) 0) as [E | E].
  - rewrite E. reflexivity.
  - destruct (Z.eqb_spec (JsDate.getUTCMonth referenceDate + 1) 1); [lia |].
    f_equal. lia.
Qed.

(** How [formatUtcYmd] prints the midnight of a date of the calendar. *)
Lemma formatUtcYmd_label year month day :
  ~ (0 <= year <= 99) -> validDate year month day ->
  formatUtcYmd (utcMidnightMs year month day) = ymdLabel year month day.
Proof.
  intros Hy Hv.
  destruct (utcMidnightMs_day year month day Hy Hv) as (Ht & Hk & Hin).
  cbv zeta in *. destruct Hv as [Hm _].
  set (k := JsDate.monthStart (month - 1) (JsDate.leap year) + day - 1) in *.
  assert (JsDate.Day (utcMidnightMs year month day) = JsDate.DayFromYear year + k) as HD.
  { rewrite Ht. unfold JsDate.Day, JsDate.msPerDay.
    rewrite Z.mul_comm. apply Z.div_mul. lia. }
  destruct (DateFacts.MonthFromDay_offset year k Hk (month - 1)) as [Hmo Hda];
    [lia | exact Hin |].
  unfold formatUtcYmd, ymdLabel, JsDate.getUTCFullYear, JsDate.getUTCMonth,
    JsDate.getUTCDate.
  rewrite HD, Hmo, Hda, (DateFacts.YearFromDay_offset year k Hk).
  replace (month - 1 + 1) with month by lia.
  replace (k - JsDate.monthStart (month - 1) (JsDate.leap year) + 1) with day
    by (subst k; lia).
  reflexivity.
Qed.

(** X10.  For a month of the calendar in a year outside -1..99 and inside
    the range of [Date], and a cutoff day of 1 or more: [loadMonthReadings]
    asks for the readings from the first of the month up to, and not
    including, the midnight after the cutoff day; a cutoff on or past the
    last day of the month asks for the whole month, as no cutoff does. *)
Theorem loadMonthReadings_cutoff (year month day : Z) :
  1 <= month <= 12 -> ~ (-1 <= year <= 99) -> dateRangeYear year -> 1 <= day ->
  (day <= getDaysInMonth year month ->
   loadMonthReadings (Some year) (Some month) (Some day)
   = QueryRange (formatUtcYmd (utcMidnightMs year month 1))
                (formatUtcYmd (utcMidnightMs year month day + JsDate.msPerDay)))
  /\
  (getDaysInMonth year month <= day ->
   loadMonthReadings (Some year) (Some month) (Some day)
   = loadMonthReadings (Some year) (Some month) None).
Proof.
  intros Hm Hy _ Hd.
  pose proof (getDaysInMonth_bounds year month) as Hdim.
  assert (truthy (Some year) && truthy (Some month) = true) as Ht.
  { cbn [truthy]. destruct (Z.eqb_spec year 0), (Z.eqb_spec month 0);
      try lia; reflexivity. }
  destruct (formatUtcYmd_first year month Hm) as [Efirst _]; [lia |].
  split; intros Hday; unfold loadMonthReadings; rewrite Ht; cbv zeta.
  - destruct (Z.gtb_spec (Z.min (day + 1) (getDaysInMonth year month + 1))
                         (getDaysInMonth year month)) as [Hlast | Hin].
    + assert (day = getDaysInMonth year month) as -> by lia.
      rewrite month_end_then_next by assumption.
      unfold getMonthRange. cbn [rangeStart]. rewrite Efirst. f_equal.
      destruct (Z.eqb_spec month 12) as [-> | Hne].
      * destruct (formatUtcYmd_first (year + 1) 1) as [E _]; [lia | lia |].
        exact E.
      * destruct (formatUtcYmd_first year (month + 1)) as [E _]; [lia | lia |].
        exact E.
    + rewrite Z.min_l by lia.
      rewrite <- utcMidnightMs_next_day by exact Hm.
      rewrite (formatUtcYmd_label year month (day + 1)); [| lia | split; lia].
      unfold getMonthRange. cbn [rangeStart]. rewrite Efirst. reflexivity.
  - destruct (Z.gtb_spec (Z.min (day + 1) (getDaysInMonth year month + 1))
                         (getDaysInMonth year month)) as [_ | Hin]; [| lia].
    reflexivity.
Qed.

Lemma loadMonthReadings_cutoff_witness :
  loadMonthReadings (Some 2025) (Some 1) (Some 2)
  = QueryRange "2025-01-01" "2025-01-03" /\
  loadMonthReadings (Some 2025) (Some 1) (Some 31)
  = QueryRange "2025-01-01" "2025-02-01".
Proof.
  destruct (loadMonthReadings_cutoff 2025 1 2) as [H2 _];
    [lia | lia | unfold dateRangeYear; lia | lia |].
  destruct (loadMonthReadings_cutoff 2025 1 31) as [_ H31];
    [lia | lia | unfold dateRangeYear; lia | lia |].
  split.
  - rewrite H2; [reflexivity | apply Z.leb_le; vm_compute; reflexivity].
  - rewrite H31; [reflexivity | apply Z.leb_le; vm_compute; reflexivity].
Defined.

(** X11.  The range [fetchLatestMonthRange] builds around the latest date on
    record, in a year from 100 on and before 275760, the last year of
    [Date], holds that date and is its whole month: it starts at the first
    midnight of the month, spans the days of the month and no more, also
    from December into January. *)
Theorem fetchLatestMonthRange_is_the_month (latest : Z) :
  100 <= JsDate.getUTCFullYear latest < 275760 ->
  let r := fetchLatestMonthRange latest in
  latestStart r <= latest < latestEnd r /\
  latestStart r = utcMidnightMs (latestYear r) (latestMonth r) 1 /\
  latestEnd r - latestStart r
    = getDaysInMonth (latestYear r) (latestMonth r) * JsDate.msPerDay /\
  1 <= latestMonth r <= 12.
Proof.
  intros [Hy _]. cbv zeta. unfold fetchLatestMonthRange.
  cbn [latestStart latestEnd latestYear latestMonth].
  unfold JsDate.getUTCFullYear, JsDate.getUTCMonth in *.
  set (D := JsDate.Day latest) in *.
  set (y := JsDate.YearFromDay D) in *.
  set (mo := JsDate.MonthFromDay D) in *.
  pose proof (DateFacts.MonthFromDay_range D) as [Hmo Hstart].
  pose proof (MonthFromDay_end D) as Hend.
  pose proof (DateFacts.DaysInYear_cases y) as Hc.
  fold y mo in Hmo, Hstart, Hend. unfold JsDate.DayWithinYear in *. fold y in Hstart, Hend.
  assert (JsDate.msPerDay * D <= latest < JsDate.msPerDay * (D + 1)) as Hlat.
  { unfold D, JsDate.Day, JsDate.msPerDay.
    pose proof (Z.div_mod latest 86400000).
    pose proof (Z.mod_pos_bound latest 86400000). lia. }
  assert (JsDate.UTC y mo 1
          = JsDate.msPerDay * (JsDate.DayFromYear y + JsDate.monthStart mo (JsDate.leap y)))
    as Es.
  { unfold JsDate.UTC, JsDate.MakeDay. rewrite MakeFullYear_id by lia.
    rewrite (Z.mod_small mo 12), (Z.div_small mo 12) by lia.
    rewrite Z.add_0_r. f_equal. lia. }
  assert (JsDate.UTC y (mo + 1) 1
          = JsDate.msPerDay
            * (JsDate.DayFromYear y + JsDate.monthStart (mo + 1) (JsDate.leap y)))
    as Ee.
  { unfold JsDate.UTC, JsDate.MakeDay. rewrite MakeFullYear_id by lia.
    destruct (Z.eq_dec mo 11) as [E11 | N11].
    - rewrite E11. change ((11 + 1) / 12) with 1. change ((11 + 1) mod 12) with 0.
      change (11 + 1) with 12. cbn [JsDate.monthStart].
      rewrite DateFacts.DayFromYear_succ. unfold JsDate.leap. f_equal. lia.
    - rewrite (Z.mod_small (mo + 1) 12), (Z.div_small (mo + 1) 12) by lia.
      rewrite Z.add_0_r. f_equal. lia. }
  pose proof (DateFacts.monthStart_next y (mo + 1)) as Hn.
  replace (mo + 1 - 1) with mo in Hn by lia.
  rewrite Es, Ee.
  rewrite (getDaysInMonth_calendar y (mo + 1)) by lia.
  rewrite utcMidnightMs_month by lia. rewrite MakeFullYear_id by lia.
  replace (mo + 1 - 1) with mo by lia.
  unfold JsDate.msPerDay in *.
  repeat split; try lia.
Qed.

Lemma fetchLatestMonthRange_is_the_month_witness :
  latestStart (fetchLatestMonthRange Sample.now) <= Sample.now
    < latestEnd (fetchLatestMonthRange Sample.now) /\
  latestMonth (fetchLatestMonthRange Sample.now) = 11.
Proof.
  destruct (fetchLatestMonthRange_is_the_month Sample.now) as (H & _).
  - split; [apply Z.leb_le | apply Z.ltb_lt]; vm_compute; reflexivity.
  - split; [exact H | reflexivity].
Defined.

(** ** Quoting an identifier *)

Lemma dropLast_append (s : string) (c : ascii) :
  dropLast (s ++ String c EmptyString) = s.
Proof.
  induction s as [| a s IH]; [reflexivity |].
  cbn [String.append dropLast]. rewrite IH.
  destruct s; reflexivity.
Qed.

Lemma halveQuotes_doubleQuotes (s : string) : halveQuotes (doubleQuotes s) = s.
Proof.
  induction s as [| c s IH]; [reflexivity |].
  cbn [doubleQuotes]. destruct (Ascii.eqb_spec c dquote) as [-> | Hne].
  - cbn [halveQuotes]. rewrite Ascii.eqb_refl. cbn [andb]. rewrite IH. reflexivity.
  - cbn [halveQuotes]. destruct (doubleQuotes s) as [| c' r] eqn:E.
    + destruct s as [| c2 s2]; [reflexivity |].
      cbn [doubleQuotes] in E. destruct (Ascii.eqb c2 dquote); discriminate.
    + destruct (Ascii.eqb_spec c dquote) as [-> | _]; [contradiction |].
      cbn [andb]. rewrite IH. reflexivity.
Qed.

(** X12.  [quoteIdent] loses nothing: the name can be read back from the
    quoted identifier, so different names give different identifiers; the
    identifier starts with a double quote. *)
Theorem quoteIdent_lossless (name other : string) :
  unquoteIdent (quoteIdent name) = Some name /\
  (quoteIdent name = quoteIdent other -> name = other) /\
  String.get 0 (quoteIdent name) = Some dquote.
Proof.
  assert (forall s, unquoteIdent (quoteIdent s) = Some s) as Hback.
  { intros s. unfold quoteIdent, unquoteIdent.
    rewrite dropLast_append, halveQuotes_doubleQuotes. reflexivity. }
  split; [apply Hback |]. split; [| reflexivity].
  intros E. pose proof (Hback name) as Hn. rewrite E, Hback in Hn.
  injection Hn as ->. reflexivity.
Qed.

(** ** Objects as maps *)

Module ObjectFacts.
Import JsObject.

Section ObjectFacts.

Context {V : Type}.
Implicit Types (obj : JsObject.t V) (key : string) (v : V).

Lemma getOwn_None key obj :
  getOwn key obj = None <-> ~ In key (map fst obj).
Proof.
  induction obj as [| [k v] obj IH]; cbn [getOwn map fst In].
  - tauto.
  - destruct (String.eqb_spec k key) as [-> | Hne].
    + split; [discriminate | intros C; exfalso; apply C; left; reflexivity].
    + rewrite IH. tauto.
Qed.

Lemma getOwn_In key v obj : getOwn key obj = Some v -> In (key, v) obj.
Proof.
  induction obj as [| [k v'] obj IH]; cbn [getOwn]; [discriminate |].
  destruct (String.eqb_spec k key) as [-> | Hne].
  - intros [= ->]. left. reflexivity.
  - intros Hg. right. apply IH, Hg.
Qed.

Lemma In_getOwn key v obj :
  NoDup (map fst obj) -> In (key, v) obj -> getOwn key obj = Some v.
Proof.
  induction obj as [| [k v'] obj IH]; cbn [getOwn map fst In]; [tauto |].
  intros Hnd [Hin | Hin].
  - injection Hin as -> ->. rewrite String.eqb_refl. reflexivity.
  - apply NoDup_cons_iff in Hnd. destruct Hnd as [Hk Hnd].
    destruct (String.eqb_spec k key) as [-> | Hne].
    + exfalso. apply Hk. apply (in_map fst) in Hin. exact Hin.
    + apply IH; assumption.
Qed.

Lemma getOwn_setOwn_same key v obj : getOwn key (setOwn key v obj) = Some v.
Proof.
  induction obj as [| [k v'] obj IH]; cbn [setOwn getOwn].
  - rewrite String.eqb_refl. reflexivity.
  - destruct (String.eqb_spec k key) as [-> | Hne]; cbn [getOwn].
    + rewrite String.eqb_refl. reflexivity.
    + destruct (String.eqb_spec k key); [contradiction | exact IH].
Qed.

Lemma getOwn_setOwn_other key key' v obj :
  key <> key' -> getOwn key' (setOwn key v obj) = getOwn key' obj.
Proof.
  intros Hne. induction obj as [| [k v'] obj IH]; cbn [setOwn getOwn].
  - destruct (String.eqb_spec key key'); [contradiction | reflexivity].
  - destruct (String.eqb_spec k key) as [-> | Hk]; cbn [getOwn].
    + destruct (String.eqb_spec key key'); [contradiction | reflexivity].
    + rewrite IH. reflexivity.
Qed.

(** Writing a property keeps the keys, or adds the new one last. *)
Lemma keys_setOwn key v obj :
  map fst (setOwn key v obj) =
  match getOwn key obj with
  | Some _ => map fst obj
  | None => map fst obj ++ [key]
  end.
Proof.
  induction obj as [| [k v'] obj IH]; cbn [setOwn getOwn map fst app];
    [reflexivity |].
  destruct (String.eqb_spec k key) as [-> | Hne]; cbn [map fst]; [reflexivity |].
  rewrite IH. destruct (getOwn key obj); reflexivity.
Qed.

Lemma NoDup_setOwn key v obj :
  NoDup (map fst obj) -> NoDup (map fst (setOwn key v obj)).
Proof.
  intros Hnd. rewrite keys_setOwn. destruct (getOwn key obj) eqn:E; [exact Hnd |].
  apply getOwn_None in E.
  apply NoDup_rev in Hnd. rewrite <- (rev_involutive (map fst obj ++ [key])).
  apply NoDup_rev. rewrite rev_app_distr. cbn [rev app].
  apply NoDup_cons; [| exact Hnd]. intros C. apply in_rev in C. exact (E C).
Qed.

Lemma insertIndexed_perm i (p : string * V) l :
  Permutation (insertIndexed i p l) ((i, p) :: l).
Proof.
  induction l as [| [j q] l IH]; cbn [insertIndexed]; [reflexivity |].
  destruct (i <=? j); [reflexivity |].
  rewrite IH. apply perm_swap.
Qed.

(** Enumeration lists every own property exactly once. *)
Lemma entries_perm obj : Permutation (entries obj) obj.
Proof.
  unfold entries, namedEntries.
  induction obj as [| p obj IH]; cbn [indexedEntries filter map app]; [reflexivity |].
  destruct (arrayIndex (fst p)) as [i |].
  - rewrite insertIndexed_perm. cbn [map snd app]. apply perm_skip, IH.
  - rewrite <- Permutation_middle. apply perm_skip, IH.
Qed.

Lemma keys_perm obj : Permutation (keys obj) (map fst obj).
Proof. unfold keys. apply Permutation_map, entries_perm. Qed.

Lemma values_perm obj : Permutation (values obj) (map snd obj).
Proof. unfold values. apply Permutation_map, entries_perm. Qed.

End ObjectFacts.
End ObjectFacts.

Lemma sortInsert_perm {A : Type} (compare : A -> A -> Z) (x : A) (l : list A) :
  Permutation (sortInsert compare x l) (x :: l).
Proof.
  induction l as [| y l IH]; cbn [sortInsert]; [reflexivity |].
  destruct (compare x y <=? 0); [reflexivity |].
  rewrite IH. apply perm_swap.
Qed.

Lemma arraySort_perm {A : Type} (compare : A -> A -> Z) (l : list A) :
  Permutation (arraySort compare l) l.
Proof.
  induction l as [| x l IH]; cbn [arraySort]; [reflexivity |].
  rewrite sortInsert_perm. apply perm_skip, IH.
Qed.

(** ** Grouping readings by meter *)

Lemma concat_perm {A : Type} (l l' : list (list A)) :
  Permutation l l' -> Permutation (List.concat l) (List.concat l').
Proof.
  induction 1 as [| x l l' _ IH | x y l | l l' l'' _ IH1 _ IH2]; cbn [List.concat].
  - reflexivity.
  - apply Permutation_app_head, IH.
  - rewrite !app_assoc. apply Permutation_app_tail, Permutation_app_comm.
  - etransitivity; eassumption.
Qed.

Section GroupFacts.

Context {N : Type} `{JsNumber N}.
Import JsObject ObjectFacts.

Lemma groupStep_TypeError (data : list (Reading N)) :
  fold_left groupStep data TypeError = TypeError.
Proof. induction data as [| r data IH]; [reflexivity | exact IH]. Qed.

Lemma readingsOf_app id (a b : list (Reading N)) :
  readingsOf id (a ++ b) = readingsOf id a ++ readingsOf id b.
Proof. unfold readingsOf. apply filter_app. Qed.

Lemma readingsOf_one id (r : Reading N) :
  readingsOf id [r] = if String.eqb (meter_id r) id then [r] else [].
Proof. reflexivity. Qed.

(** Appending a reading to its group appends it to the whole. *)
Lemma concat_setOwn (id : string) (rows : list (Reading N)) (r : Reading N) g :
  getOwn id g = someIfAny rows ->
  Permutation (List.concat (map snd (setOwn id (rows ++ [r]) g)))
              (r :: List.concat (map snd g)).
Proof.
  induction g as [| [k v] g IH]; cbn [getOwn setOwn map snd List.concat].
  - destruct rows; [| discriminate]. intros _. cbn. reflexivity.
  - destruct (String.eqb_spec k id) as [-> | Hne]; cbn [map snd List.concat].
    + destruct rows as [| r0 rows]; [discriminate |]. intros [= ->].
      rewrite <- app_assoc. symmetry. apply Permutation_middle.
    + intros Hg. rewrite (IH Hg). symmetry. apply Permutation_middle.
Qed.

(** What the loop of [groupByMeter] keeps true, reading by reading. *)
Lemma groupByMeter_fold (data done : list (Reading N)) g :
  NoDup (map fst g) ->
  (forall id, getOwn id g = someIfAny (readingsOf id done)) ->
  Permutation (List.concat (map snd g)) done ->
  Forall (fun r => inheritedName (meter_id r) = false) done ->
  (Exists (fun r => inheritedName (meter_id r) = true) data /\
   fold_left groupStep data (Returned g) = TypeError)
  \/
  (Forall (fun r => inheritedName (meter_id r) = false) data /\
   exists g',
     fold_left groupStep data (Returned g) = Returned g' /\
     NoDup (map fst g') /\
     (forall id, getOwn id g' = someIfAny (readingsOf id (done ++ data))) /\
     Permutation (List.concat (map snd g')) (done ++ data)).
Proof.
  revert done g. induction data as [| r data IH]; intros done g Hnd Hget Hperm Hdone.
  - right. split; [constructor |]. exists g. rewrite app_nil_r. auto.
  - cbn [fold_left].
    destruct (inheritedName (meter_id r)) eqn:Einh.
    + left. split; [left; exact Einh |].
      assert (readingsOf (meter_id r) done = []) as Enone.
      { unfold readingsOf.
        destruct (filter _ done) as [| r0 l] eqn:Ef; [reflexivity | exfalso].
        assert (In r0 (filter (fun r1 => String.eqb (meter_id r1) (meter_id r)) done))
          as Hin by (rewrite Ef; left; reflexivity).
        apply filter_In in Hin. destruct Hin as [Hin Heq].
        apply String.eqb_eq in Heq.
        rewrite Forall_forall in Hdone. specialize (Hdone r0 Hin). congruence. }
      assert (groupStep (Returned g) r = TypeError) as ->.
      { unfold groupStep. rewrite Hget, Enone, Einh. reflexivity. }
      apply groupStep_TypeError.
    + assert (exists g1,
                 match getOwn (meter_id r) g with
                 | Some rows => Returned (setOwn (meter_id r) (rows ++ [r]) g)
                 | None => Returned (setOwn (meter_id r) [r] g)
                 end = Returned g1 /\
                 NoDup (map fst g1) /\
                 (forall id, getOwn id g1 = someIfAny (readingsOf id (done ++ [r]))) /\
                 Permutation (List.concat (map snd g1)) (done ++ [r])) as (g1 & E1 & Hnd1 & Hget1 & Hperm1).
      { pose proof (Hget (meter_id r)) as Hown.
        exists (setOwn (meter_id r) (readingsOf (meter_id r) done ++ [r]) g).
        split; [| split; [| split]].
        - destruct (readingsOf (meter_id r) done) as [| r0 l] eqn:E;
            rewrite Hown; reflexivity.
        - apply NoDup_setOwn, Hnd.
        - intros id. rewrite readingsOf_app, readingsOf_one.
          destruct (String.eqb_spec (meter_id r) id) as [<- | Hne].
          + rewrite getOwn_setOwn_same.
            destruct (readingsOf (meter_id r) done); reflexivity.
          + rewrite getOwn_setOwn_other by exact Hne. rewrite Hget.
            rewrite app_nil_r. reflexivity.
        - rewrite (concat_setOwn _ _ _ _ Hown). rewrite Hperm.
          apply Permutation_cons_append. }
      assert (Forall (fun r0 => inheritedName (meter_id r0) = false) (done ++ [r]))
        as Hdone1.
      { apply Forall_app. split; [exact Hdone | constructor; [exact Einh | constructor]]. }
      assert (groupStep (Returned g) r = Returned g1) as ->.
      { unfold groupStep. rewrite Einh, <- E1.
        destruct (getOwn (meter_id r) g); reflexivity. }
      destruct (IH (done ++ [r]) g1 Hnd1 Hget1 Hperm1 Hdone1)
        as [(Hex & Hthrow) | (Hall & g' & Hret & Hnd' & Hget' & Hperm')].
      * left. split; [right; exact Hex | exact Hthrow].
      * right. split; [constructor; assumption |].
        exists g'. rewrite <- app_assoc in Hget', Hperm'. cbn [app] in Hget', Hperm'.
        auto.
Qed.

Lemma groupByMeter_cases (data : list (Reading N)) :
  (Exists (fun r => inheritedName (meter_id r) = true) data /\
   groupByMeter data = TypeError)
  \/
  (Forall (fun r => inheritedName (meter_id r) = false) data /\
   exists g,
     groupByMeter data = Returned g /\
     NoDup (map fst g) /\
     (forall id, getOwn id g = someIfAny (readingsOf id data)) /\
     Permutation (List.concat (map snd g)) data).
Proof.
  unfold groupByMeter.
  apply (groupByMeter_fold data [] empty);
    [constructor | intros id; reflexivity | constructor | constructor].
Qed.

End GroupFacts.

(** X13.  [groupByMeter] ends in a [TypeError] exactly when some reading has
    a meter id that names a property every plain object inherits
    ([constructor], [toString], [__proto__] and the like); for all other
    data it returns. *)
Theorem groupByMeter_throws_exactly {N : Type} `{JsNumber N}
    (data : list (Reading N)) :
  groupByMeter data = TypeError <->
  Exists (fun r => JsObject.inheritedName (meter_id r) = true) data.
Proof.
  destruct (groupByMeter_cases data) as [(Hex & Ht) | (Hall & g & Hr & _)].
  - split; auto.
  - split; [rewrite Hr; discriminate |].
    intros Hex. apply Exists_exists in Hex. destruct Hex as (r & Hin & Hinh).
    rewrite Forall_forall in Hall. specialize (Hall r Hin). congruence.
Qed.

(** X14.  When [groupByMeter] returns, the group of each meter is the
    readings of that meter in the order of the data and no meter without a
    reading has a group; [Object.keys] lists each meter once; and the groups
    together are the data, every reading in exactly one group. *)
Theorem groupByMeter_groups {N : Type} `{JsNumber N}
    (data : list (Reading N)) (grouped : JsObject.t (list (Reading N))) :
  groupByMeter data = Returned grouped ->
  (forall id, JsObject.getOwn id grouped = someIfAny (readingsOf id data)) /\
  NoDup (JsObject.keys grouped) /\
  (forall id, In id (JsObject.keys grouped) <->
              exists r, In r data /\ meter_id r = id) /\
  Permutation (List.concat (JsObject.values grouped)) data.
Proof.
  intros Hr.
  destruct (groupByMeter_cases data) as [(_ & Ht) | (_ & g & Hg & Hnd & Hget & Hperm)];
    [congruence |].
  rewrite Hr in Hg. injection Hg as <-.
  split; [exact Hget |]. split; [| split].
  - apply (Permutation_NoDup (l := map fst grouped)); [| exact Hnd].
    symmetry. apply ObjectFacts.keys_perm.
  - intros id.
    assert (In id (JsObject.keys grouped) <-> In id (map fst grouped)) as ->.
    { split; apply Permutation_in;
        [apply ObjectFacts.keys_perm | symmetry; apply ObjectFacts.keys_perm]. }
    split.
    + intros Hin.
      destruct (JsObject.getOwn id grouped) as [rows |] eqn:E.
      * rewrite Hget in E. unfold someIfAny in E.
        destruct (readingsOf id data) as [| r l] eqn:Er; [discriminate |].
        exists r. assert (In r (readingsOf id data)) as Hr' by (rewrite Er; left; reflexivity).
        unfold readingsOf in Hr'. apply filter_In in Hr'.
        destruct Hr' as [Hin' Heq]. apply String.eqb_eq in Heq. auto.
      * apply ObjectFacts.getOwn_None in E. contradiction.
    + intros (r & Hin & <-).
      destruct (JsObject.getOwn (meter_id r) grouped) as [rows |] eqn:E.
      * apply ObjectFacts.getOwn_In in E. apply (in_map fst) in E. exact E.
      * rewrite Hget in E. unfold someIfAny in E.
        assert (In r (readingsOf (meter_id r) data)) as Hr'.
        { unfold readingsOf. apply filter_In. split; [exact Hin |].
          apply String.eqb_refl. }
        destruct (readingsOf (meter_id r) data); [contradiction | discriminate].
  - rewrite <- Hperm. apply concat_perm, ObjectFacts.values_perm.
Qed.

Lemma groupByMeter_groups_witness :
  exists grouped,
    groupByMeter SampleReadings.twoMeters = Returned grouped /\
    JsObject.keys grouped = ["10"; "M2"]%string /\
    NoDup (JsObject.keys grouped) /\
    Permutation (List.concat (JsObject.values grouped)) SampleReadings.twoMeters.
Proof.
  eexists. split; [vm_compute; reflexivity |]. split; [reflexivity |].
  match goal with
  | |- NoDup (JsObject.keys ?g) /\ _ =>
      destruct (groupByMeter_groups SampleReadings.twoMeters g)
        as (_ & Hnd & _ & Hperm); [vm_compute; reflexivity |]
  end.
  split; [exact Hnd | exact Hperm].
Defined.

(* ===================================================================== *)
(** ** Rolling hours up into days *)

Lemma sortInsert_sorted {A : Type} (compare : A -> A -> Z) (x : A) (l : list A) :
  (forall a b, compare a b <= 0 \/ compare b a <= 0) ->
  (forall a b c, compare a b <= 0 -> compare b c <= 0 -> compare a c <= 0) ->
  StronglySorted (fun a b => compare a b <= 0) l ->
  StronglySorted (fun a b => compare a b <= 0) (sortInsert compare x l).
Proof.
  intros Htotal Htrans. induction l as [| y l IH]; intros Hs; cbn [sortInsert].
  - repeat constructor.
  - apply StronglySorted_inv in Hs. destruct Hs as [Hs Hall].
    destruct (Z.leb_spec (compare x y) 0) as [Hle | Hgt].
    + constructor; [constructor; assumption |].
      constructor; [exact Hle |].
      eapply Forall_impl; [| exact Hall].
      intros z Hz. cbv beta in Hz. apply (Htrans x y z); assumption.
    + constructor; [apply IH, Hs |].
      apply (Permutation_Forall (Permutation_sym (sortInsert_perm compare x l))).
      constructor; [destruct (Htotal x y); lia | exact Hall].
Qed.

Lemma arraySort_sorted {A : Type} (compare : A -> A -> Z) (l : list A) :
  (forall a b, compare a b <= 0 \/ compare b a <= 0) ->
  (forall a b c, compare a b <= 0 -> compare b c <= 0 -> compare a c <= 0) ->
  StronglySorted (fun a b => compare a b <= 0) (arraySort compare l).
Proof.
  intros Htotal Htrans. induction l as [| x l IH]; cbn [arraySort].
  - constructor.
  - apply sortInsert_sorted; assumption.
Qed.

Section DailyFacts.

Context {N : Type} `{JsNumber N}.
Import JsObject.

Lemma hoursOf_app date (l l' : list (HourlyTotal N)) :
  hoursOf date (l ++ l') = hoursOf date l ++ hoursOf date l'.
Proof. unfold hoursOf. apply filter_app. Qed.

Lemma hoursOf_one date (h : HourlyTotal N) :
  hoursOf date [h] = if String.eqb (hourDate h) date then [h] else [].
Proof. reflexivity. Qed.

Lemma dailyEntryOf_snoc date (hours : list (HourlyTotal N)) h :
  dailyEntryOf date (hours ++ [h]) =
  {| dayDate := date;
     dayEnergyKwh := add (dayEnergyKwh (dailyEntryOf date hours)) (hourEnergyKwh h);
     hoursCount := hoursCount (dailyEntryOf date hours) + 1 |}.
Proof.
  unfold dailyEntryOf, sumHours. cbn [dayEnergyKwh hoursCount].
  rewrite fold_left_app, length_app. cbn [fold_left List.length].
  f_equal. lia.
Qed.

(** One hour more: the own properties of [dailyData] follow [dailyOwn]. *)
Lemma dailyStep_own (done : list (HourlyTotal N)) g h :
  (forall date, getOwn date g = dailyOwn date done) ->
  forall date, getOwn date (dailyStep g h) = dailyOwn date (done ++ [h]).
Proof.
  intros Hget date. unfold dailyStep.
  pose proof (Hget (hourDate h)) as Hown.
  assert (forall id, hourDate h <> id -> dailyOwn id (done ++ [h]) = dailyOwn id done)
    as Hother.
  { intros id Hne. unfold dailyOwn. rewrite hoursOf_app, hoursOf_one.
    destruct (String.eqb_spec (hourDate h) id); [contradiction |].
    rewrite app_nil_r. reflexivity. }
  assert (inheritedName (hourDate h) = false ->
          dailyOwn (hourDate h) (done ++ [h]) =
          Some (dailyEntryOf (hourDate h) (hoursOf (hourDate h) done ++ [h])))
    as Hsame.
  { intros Einh. unfold dailyOwn. rewrite Einh, hoursOf_app, hoursOf_one.
    rewrite String.eqb_refl.
    destruct (hoursOf (hourDate h) done); reflexivity. }
  destruct (getOwn (hourDate h) g) as [entry |] eqn:E.
  - unfold dailyOwn in Hown.
    destruct (inheritedName (hourDate h)) eqn:Einh; [discriminate |].
    destruct (hoursOf (hourDate h) done) as [| h0 hs] eqn:Eh; [discriminate |].
    injection Hown as ->.
    destruct (String.eqb_spec (hourDate h) date) as [<- | Hne].
    + rewrite ObjectFacts.getOwn_setOwn_same, (Hsame eq_refl), ?Eh, dailyEntryOf_snoc.
      reflexivity.
    + rewrite ObjectFacts.getOwn_setOwn_other by exact Hne.
      rewrite (Hother date Hne). apply Hget.
  - destruct (inheritedName (hourDate h)) eqn:Einh.
    + destruct (String.eqb_spec (hourDate h) date) as [<- | Hne].
      * rewrite E. unfold dailyOwn. rewrite Einh. reflexivity.
      * rewrite (Hother date Hne). apply Hget.
    + unfold dailyOwn in Hown. rewrite Einh in Hown.
      destruct (hoursOf (hourDate h) done) as [| h0 hs] eqn:Eh; [| discriminate].
      destruct (String.eqb_spec (hourDate h) date) as [<- | Hne].
      * rewrite ObjectFacts.getOwn_setOwn_same, (Hsame eq_refl), ?Eh. reflexivity.
      * rewrite ObjectFacts.getOwn_setOwn_other by exact Hne.
        rewrite (Hother date Hne). apply Hget.
Qed.

Lemma dailyStep_NoDup g (h : HourlyTotal N) :
  NoDup (map fst g) -> NoDup (map fst (dailyStep g h)).
Proof.
  intros Hnd. unfold dailyStep.
  destruct (getOwn (hourDate h) g);
    [| destruct (inheritedName (hourDate h))];
    [apply ObjectFacts.NoDup_setOwn, Hnd | exact Hnd
     | apply ObjectFacts.NoDup_setOwn, Hnd].
Qed.

(** What the loop of [calculateDailyTotals] keeps true, hour by hour. *)
Lemma dailyStep_fold (hourlyData done : list (HourlyTotal N)) g :
  NoDup (map fst g) ->
  (forall date, getOwn date g = dailyOwn date done) ->
  NoDup (map fst (fold_left dailyStep hourlyData g)) /\
  (forall date, getOwn date (fold_left dailyStep hourlyData g) =
                dailyOwn date (done ++ hourlyData)).
Proof.
  revert done g. induction hourlyData as [| h hourlyData IH]; intros done g Hnd Hget.
  - cbn [fold_left]. rewrite app_nil_r. auto.
  - cbn [fold_left].
    destruct (IH (done ++ [h]) (dailyStep g h)
                 (dailyStep_NoDup g h Hnd) (dailyStep_own done g h Hget))
      as [Hnd' Hget'].
    rewrite <- app_assoc in Hget'. auto.
Qed.

Lemma dailyData_spec (hourlyData : list (HourlyTotal N)) :
  let dailyData := fold_left dailyStep hourlyData empty in
  NoDup (map fst dailyData) /\
  (forall date, getOwn date dailyData = dailyOwn date hourlyData).
Proof.
  apply (dailyStep_fold hourlyData [] empty); [constructor |].
  intros date. unfold dailyOwn.
  destruct (inheritedName date); reflexivity.
Qed.

Lemma dailyData_entry (hourlyData : list (HourlyTotal N)) date d :
  In (date, d) (fold_left dailyStep hourlyData empty) <->
  dailyOwn date hourlyData = Some d.
Proof.
  destruct (dailyData_spec hourlyData) as [Hnd Hget]. cbv zeta in Hnd, Hget.
  rewrite <- Hget. split.
  - apply ObjectFacts.In_getOwn, Hnd.
  - apply ObjectFacts.getOwn_In.
Qed.

Lemma dailyOwn_Some (hourlyData : list (HourlyTotal N)) date d :
  dailyOwn date hourlyData = Some d <->
  inheritedName date = false /\
  hoursOf date hourlyData <> [] /\
  d = dailyEntryOf date (hoursOf date hourlyData).
Proof.
  unfold dailyOwn. destruct (inheritedName date).
  - split; [discriminate | intros (C & _); discriminate].
  - destruct (hoursOf date hourlyData) as [| h hs].
    + split; [discriminate | intros (_ & C & _); contradiction].
    + split.
      * intros [= <-]. repeat split. discriminate.
      * intros (_ & _ & ->). reflexivity.
Qed.

Lemma dailyData_dates (hourlyData : list (HourlyTotal N)) :
  map dayDate (map snd (fold_left dailyStep hourlyData empty)) =
  map fst (fold_left dailyStep hourlyData empty).
Proof.
  rewrite map_map. apply map_ext_in. intros [date d] Hin.
  apply dailyData_entry, dailyOwn_Some in Hin. destruct Hin as (_ & _ & ->).
  reflexivity.
Qed.

Lemma calculateDailyTotals_perm localeCompare (hourlyData : list (HourlyTotal N)) :
  Permutation (calculateDailyTotals localeCompare hourlyData)
              (map snd (fold_left dailyStep hourlyData empty)).
Proof.
  unfold calculateDailyTotals. rewrite arraySort_perm.
  apply ObjectFacts.values_perm.
Qed.

Lemma hoursOf_nonempty (hourlyData : list (HourlyTotal N)) date :
  hoursOf date hourlyData <> [] <->
  exists h, In h hourlyData /\ hourDate h = date.
Proof.
  unfold hoursOf. split.
  - destruct (filter _ hourlyData) as [| h hs] eqn:E; [contradiction |].
    intros _. exists h.
    assert (In h (filter (fun h0 => String.eqb (hourDate h0) date) hourlyData))
      as Hin by (rewrite E; left; reflexivity).
    apply filter_In in Hin. destruct Hin as [Hin Heq].
    apply String.eqb_eq in Heq. auto.
  - intros (h & Hin & Hd) E.
    assert (In h (filter (fun h0 => String.eqb (hourDate h0) date) hourlyData))
      as Hf by (apply filter_In; split; [exact Hin | apply String.eqb_eq, Hd]).
    rewrite E in Hf. contradiction.
Qed.

(** An hour under an inherited name leaves [dailyData] as it is. *)
Lemma dailyStep_inherited g (h : HourlyTotal N) :
  (forall date, inheritedName date = true -> getOwn date g = None) ->
  inheritedName (hourDate h) = true ->
  dailyStep g h = g.
Proof.
  intros Hnone Einh. unfold dailyStep.
  rewrite (Hnone _ Einh), Einh. reflexivity.
Qed.

Lemma dailyStep_keeps_inherited g (h : HourlyTotal N) :
  (forall date, inheritedName date = true -> getOwn date g = None) ->
  forall date, inheritedName date = true -> getOwn date (dailyStep g h) = None.
Proof.
  intros Hnone date Einh. unfold dailyStep.
  destruct (getOwn (hourDate h) g) as [entry |] eqn:E.
  - destruct (String.eqb_spec (hourDate h) date) as [<- | Hne].
    + rewrite (Hnone _ Einh) in E. discriminate.
    + rewrite ObjectFacts.getOwn_setOwn_other by exact Hne. apply Hnone, Einh.
  - destruct (inheritedName (hourDate h)) eqn:Eh; [apply Hnone, Einh |].
    destruct (String.eqb_spec (hourDate h) date) as [<- | Hne]; [congruence |].
    rewrite ObjectFacts.getOwn_setOwn_other by exact Hne. apply Hnone, Einh.
Qed.

Lemma dailyStep_fold_filter (hourlyData : list (HourlyTotal N)) g :
  (forall date, inheritedName date = true -> getOwn date g = None) ->
  fold_left dailyStep hourlyData g =
  fold_left dailyStep
    (filter (fun h => negb (inheritedName (hourDate h))) hourlyData) g.
Proof.
  revert g. induction hourlyData as [| h hourlyData IH]; intros g Hnone;
    [reflexivity |].
  cbn [fold_left filter].
  destruct (inheritedName (hourDate h)) eqn:Einh; cbn [negb fold_left].
  - rewrite (dailyStep_inherited g h Hnone Einh). apply IH, Hnone.
  - apply IH, dailyStep_keeps_inherited, Hnone.
Qed.

End DailyFacts.

(** The order of strings by code units is a total preorder. *)
Lemma codeUnitCompare_total (a b : string) :
  codeUnitCompare a b <= 0 \/ codeUnitCompare b a <= 0.
Proof.
  unfold codeUnitCompare. rewrite (String.compare_antisym a b).
  destruct (String.compare b a); cbn [CompOpp]; lia.
Qed.

Lemma codeUnitCompare_trans (a b c : string) :
  codeUnitCompare a b <= 0 -> codeUnitCompare b c <= 0 -> codeUnitCompare a c <= 0.
Proof.
  unfold codeUnitCompare. change String.compare with String_as_OT.compare.
  pose proof (@StrictOrder_Irreflexive _ _ String_as_OT.lt_strorder) as Hirr.
  pose proof (@StrictOrder_Transitive _ _ String_as_OT.lt_strorder) as Htr.
  destruct (String_as_OT.compare_spec a b) as [Hab | Hab | Hab];
    destruct (String_as_OT.compare_spec b c) as [Hbc | Hbc | Hbc];
    destruct (String_as_OT.compare_spec a c) as [Hac | Hac | Hac];
    try lia; intros _ _; exfalso;
    unfold String_as_OT.eq in *; subst.
  - exact (Hirr _ Hac).
  - exact (Hirr _ (Htr _ _ _ Hac Hbc)).
  - exact (Hirr _ (Htr _ _ _ Hab Hac)).
  - exact (Hirr _ (Htr _ _ _ Hab (Htr _ _ _ Hbc Hac))).
Qed.

(** X15.  [calculateDailyTotals] returns one entry for each date that some
    hour carries, unless the date names a property every plain object
    inherits; the entry holds the energy of the hours of that date, added in
    the order of the series starting from 0, and the number of those hours.
    It returns nothing else. *)
Theorem calculateDailyTotals_entries {N : Type} `{JsNumber N}
    (localeCompare : string -> string -> Z)
    (hourlyData : list (HourlyTotal N)) (d : DailySum N) :
  In d (calculateDailyTotals localeCompare hourlyData) <->
  exists h,
    In h hourlyData /\
    JsObject.inheritedName (hourDate h) = false /\
    d = dailyEntryOf (hourDate h) (hoursOf (hourDate h) hourlyData).
Proof.
  split.
  - intros Hin.
    apply (Permutation_in _ (calculateDailyTotals_perm localeCompare hourlyData)) in Hin.
    apply in_map_iff in Hin. destruct Hin as ([date d'] & Hd & Hin).
    cbn [snd] in Hd. subst d'.
    apply dailyData_entry, dailyOwn_Some in Hin.
    destruct Hin as (Einh & Hne & ->).
    apply hoursOf_nonempty in Hne. destruct Hne as (h & Hin & <-).
    exists h. auto.
  - intros (h & Hin & Einh & ->).
    apply (Permutation_in _
             (Permutation_sym (calculateDailyTotals_perm localeCompare hourlyData))).
    apply in_map_iff. exists (hourDate h, dailyEntryOf (hourDate h) (hoursOf (hourDate h) hourlyData)).
    split; [reflexivity |].
    apply dailyData_entry, dailyOwn_Some.
    repeat split; [exact Einh |].
    apply hoursOf_nonempty. exists h. auto.
Qed.

(** X16.  No two entries that [calculateDailyTotals] returns carry the same
    date. *)
Theorem calculateDailyTotals_one_entry_per_date {N : Type} `{JsNumber N}
    (localeCompare : string -> string -> Z) (hourlyData : list (HourlyTotal N)) :
  NoDup (map dayDate (calculateDailyTotals localeCompare hourlyData)).
Proof.
  apply (Permutation_NoDup
           (l := map dayDate (map snd (fold_left dailyStep hourlyData JsObject.empty)))).
  - symmetry. apply Permutation_map, calculateDailyTotals_perm.
  - rewrite dailyData_dates. apply (dailyData_spec hourlyData).
Qed.

(** X17.  When [localeCompare] is a total preorder on strings, the days that
    [calculateDailyTotals] returns are in that order: each one is before or
    level with every later one. *)
Theorem calculateDailyTotals_sorted {N : Type} `{JsNumber N}
    (localeCompare : string -> string -> Z) (hourlyData : list (HourlyTotal N)) :
  (forall a b, localeCompare a b <= 0 \/ localeCompare b a <= 0) ->
  (forall a b c, localeCompare a b <= 0 -> localeCompare b c <= 0 ->
                 localeCompare a c <= 0) ->
  StronglySorted (fun a b => localeCompare (dayDate a) (dayDate b) <= 0)
                 (calculateDailyTotals localeCompare hourlyData).
Proof.
  intros Htotal Htrans. unfold calculateDailyTotals.
  apply (arraySort_sorted (fun a b => localeCompare (dayDate a) (dayDate b))).
  - intros a b. apply Htotal.
  - intros a b c. apply Htrans.
Qed.

Lemma calculateDailyTotals_sorted_witness :
  StronglySorted (fun a b => codeUnitCompare (dayDate a) (dayDate b) <= 0)
                 (calculateDailyTotals codeUnitCompare SampleReadings.threeHours) /\
  map dayDate (calculateDailyTotals codeUnitCompare SampleReadings.threeHours) =
  ["2025-01-01"; "2025-01-02"]%string.
Proof.
  split; [| reflexivity].
  apply (calculateDailyTotals_sorted codeUnitCompare SampleReadings.threeHours).
  - exact codeUnitCompare_total.
  - exact codeUnitCompare_trans.
Defined.

(** X18.  Hours whose date names an inherited property never reach the
    result: [calculateDailyTotals] returns what it returns for the series
    without them, so the hours counted over all days can be fewer than the
    hours given. *)
Theorem calculateDailyTotals_drops_inherited {N : Type} `{JsNumber N}
    (localeCompare : string -> string -> Z) (hourlyData : list (HourlyTotal N)) :
  calculateDailyTotals localeCompare hourlyData =
  calculateDailyTotals localeCompare
    (filter (fun h => negb (JsObject.inheritedName (hourDate h))) hourlyData).
Proof.
  unfold calculateDailyTotals. rewrite <- dailyStep_fold_filter; [reflexivity |].
  intros date _. reflexivity.
Qed.

(* ===================================================================== *)
(** ** The prediction for the day *)

Lemma sliceFrom_last {A : Type} (k : Z) (l : list A) :
  0 < k <= Z.of_nat (List.length l) ->
  exists earlier,
    l = earlier ++ sliceFrom (- k) l /\
    Z.of_nat (List.length (sliceFrom (- k) l)) = k.
Proof.
  intros Hk. unfold sliceFrom.
  destruct (Z.ltb_spec (- k) 0) as [_ | C]; [| lia].
  exists (firstn (Z.to_nat (Z.max (Z.of_nat (List.length l) + - k) 0)) l).
  split; [symmetry; apply firstn_skipn |].
  rewrite length_skipn. lia.
Qed.

Lemma sliceFrom_all {A : Type} (l : list A) :
  l <> [] -> sliceFrom (- Z.of_nat (List.length l)) l = l.
Proof.
  intros Hne. unfold sliceFrom.
  destruct l as [| x l]; [contradiction |].
  destruct (Z.ltb_spec (- Z.of_nat (List.length (x :: l))) 0) as [_ | C];
    [| cbn [List.length] in C; lia].
  replace (Z.to_nat _) with 0%nat by lia. reflexivity.
Qed.

Section TodayFacts.

Context {N : Type} `{JsNumber N}.

(** What a successful [predictToday] has gone through. *)
Lemma predictToday_Success_inv (hourlyData : list (HourlyTotal N)) r :
  predictToday hourlyData = Success r ->
  exists latest,
    nth_error hourlyData (List.length hourlyData - 1) = Some latest /\
    let todayHours := hoursOf (hourDate latest) hourlyData in
    let n := Z.of_nat (List.length todayHours) in
    let recentHours := sliceFrom (- Z.min ROLLING_WINDOW_HOURS n) todayHours in
    MIN_HOURS_REQUIRED <= n /\
    r = {| todayDate := hourDate latest;
           hoursPassedToday := n;
           totalEnergyToday := sumHours todayHours;
           basicPrediction := mul (div (sumHours todayHours) (ofZ n)) (ofZ 24);
           rollingPrediction :=
             mul (div (sumHours recentHours)
                      (ofZ (Z.of_nat (List.length recentHours)))) (ofZ 24);
           rollingWindowUsed := Z.min ROLLING_WINDOW_HOURS n;
           averageHourlyRate := div (sumHours todayHours) (ofZ n);
           recentHourlyRate :=
             div (sumHours recentHours) (ofZ (Z.of_nat (List.length recentHours))) |}.
Proof.
  unfold predictToday, hoursOf.
  destruct (Z.of_nat (List.length hourlyData) <? MIN_HOURS_REQUIRED); [discriminate |].
  destruct (nth_error hourlyData (List.length hourlyData - 1)) as [latest |];
    [| discriminate].
  destruct (Z.ltb_spec
              (Z.of_nat (List.length
                 (filter (fun h => String.eqb (hourDate h) (hourDate latest)) hourlyData)))
              MIN_HOURS_REQUIRED) as [| Hn]; [discriminate |].
  intros [= <-]. exists latest. split; [reflexivity |]. split; [exact Hn | reflexivity].
Qed.

Lemma hoursOf_length_le date (hourlyData : list (HourlyTotal N)) :
  (List.length (hoursOf date hourlyData) <= List.length hourlyData)%nat.
Proof. unfold hoursOf. apply filter_length_le. Qed.

Lemma nth_error_last_Some {A : Type} (l : list A) :
  l <> [] -> exists x, nth_error l (List.length l - 1) = Some x.
Proof.
  intros Hne.
  destruct (nth_error l (List.length l - 1)) as [x |] eqn:E; [exists x; reflexivity |].
  apply nth_error_None in E. destruct l; [contradiction | cbn [List.length] in E; lia].
Qed.

End TodayFacts.

(** X19.  [predictToday] never reads past the series, and it succeeds
    exactly when the date of the last hour has at least three hours in the
    series; the test on the length of the whole series refuses nothing that
    the test on the hours of that date would let through. *)
Theorem predictToday_succeeds_exactly {N : Type} `{JsNumber N}
    (hourlyData : list (HourlyTotal N)) :
  predictToday hourlyData <> Throws /\
  ((exists r, predictToday hourlyData = Success r) <->
   exists latest,
     nth_error hourlyData (List.length hourlyData - 1) = Some latest /\
     3 <= Z.of_nat (List.length (hoursOf (hourDate latest) hourlyData))).
Proof.
  split; [| split].
  - unfold predictToday.
    destruct (Z.ltb_spec (Z.of_nat (List.length hourlyData)) MIN_HOURS_REQUIRED)
      as [| Hlen]; [discriminate |].
    destruct (nth_error_last_Some hourlyData) as (latest & ->).
    + intros ->. unfold MIN_HOURS_REQUIRED in Hlen. cbn [List.length] in Hlen. lia.
    + destruct (_ <? _); discriminate.
  - intros (r & Hr). apply predictToday_Success_inv in Hr.
    destruct Hr as (latest & Hlast & Hn & _). exists latest. auto.
  - intros (latest & Hlast & Hn).
    unfold predictToday. rewrite Hlast.
    pose proof (hoursOf_length_le (hourDate latest) hourlyData) as Hle.
    destruct (Z.ltb_spec (Z.of_nat (List.length hourlyData)) MIN_HOURS_REQUIRED)
      as [Hlen | _]; [unfold MIN_HOURS_REQUIRED in Hlen; lia |].
    fold (hoursOf (hourDate latest) hourlyData).
    destruct (Z.ltb_spec (Z.of_nat (List.length (hoursOf (hourDate latest) hourlyData)))
                         MIN_HOURS_REQUIRED)
      as [Hlen | _]; [unfold MIN_HOURS_REQUIRED in Hlen; lia |].
    eexists. reflexivity.
Qed.

(** X20.  With six hours or fewer of the day, the rolling window of
    [predictToday] is the whole day: the recent rate is the average rate and
    the rolling prediction is the basic one. *)
Theorem predictToday_short_day {N : Type} `{JsNumber N}
    (hourlyData : list (HourlyTotal N)) (r : TodayResult N) :
  predictToday hourlyData = Success r ->
  hoursPassedToday r <= 6 ->
  rollingWindowUsed r = hoursPassedToday r /\
  recentHourlyRate r = averageHourlyRate r /\
  rollingPrediction r = basicPrediction r.
Proof.
  intros Hr Hsix. apply predictToday_Success_inv in Hr.
  destruct Hr as (latest & _ & Hn & ->). cbv zeta in *.
  cbn [hoursPassedToday rollingWindowUsed recentHourlyRate averageHourlyRate
       rollingPrediction basicPrediction] in *.
  unfold ROLLING_WINDOW_HOURS, MIN_HOURS_REQUIRED in *.
  rewrite Z.min_r by exact Hsix.
  rewrite sliceFrom_all.
  - repeat split.
  - intros E. rewrite E in Hn. cbn [List.length] in Hn. lia.
Qed.

Lemma predictToday_short_day_witness :
  exists r,
    predictToday SampleHours.fourHours = Success r /\
    hoursPassedToday r = 4 /\
    rollingWindowUsed r = hoursPassedToday r /\
    recentHourlyRate r = averageHourlyRate r /\
    rollingPrediction r = basicPrediction r.
Proof.
  destruct (predictToday SampleHours.fourHours) as [m | r |] eqn:Hr;
    [vm_compute in Hr; discriminate | | vm_compute in Hr; discriminate].
  exists r. split; [reflexivity |].
  assert (hoursPassedToday r = 4) as Hfour
    by (vm_compute in Hr; injection Hr as <-; reflexivity).
  split; [exact Hfour |].
  apply (predictToday_short_day SampleHours.fourHours r Hr). lia.
Defined.

(** X21.  A successful [predictToday] reports the date of the last hour and
    the number of hours of that date; its window holds between three and six
    hours, they are the last hours of that date, and the recent rate is
    their energy divided by the size of the window it reports. *)
Theorem predictToday_window {N : Type} `{JsNumber N}
    (hourlyData : list (HourlyTotal N)) (r : TodayResult N) :
  predictToday hourlyData = Success r ->
  nth_error hourlyData (List.length hourlyData - 1) <> None /\
  option_map hourDate (nth_error hourlyData (List.length hourlyData - 1)) =
    Some (todayDate r) /\
  hoursPassedToday r = Z.of_nat (List.length (hoursOf (todayDate r) hourlyData)) /\
  3 <= rollingWindowUsed r <= 6 /\
  rollingWindowUsed r <= hoursPassedToday r /\
  exists earlier recent,
    hoursOf (todayDate r) hourlyData = earlier ++ recent /\
    Z.of_nat (List.length recent) = rollingWindowUsed r /\
    recentHourlyRate r = div (sumHours recent) (ofZ (rollingWindowUsed r)) /\
    rollingPrediction r = mul (recentHourlyRate r) (ofZ 24).
Proof.
  intros Hr. apply predictToday_Success_inv in Hr.
  destruct Hr as (latest & Hlast & Hn & ->). cbv zeta in *.
  cbn [todayDate hoursPassedToday rollingWindowUsed recentHourlyRate rollingPrediction].
  unfold ROLLING_WINDOW_HOURS, MIN_HOURS_REQUIRED in *.
  rewrite Hlast. cbn [option_map].
  split; [discriminate |]. split; [reflexivity |]. split; [reflexivity |].
  split; [lia |]. split; [lia |].
  destruct (sliceFrom_last
              (Z.min 6 (Z.of_nat (List.length (hoursOf (hourDate latest) hourlyData))))
              (hoursOf (hourDate latest) hourlyData)) as (earlier & Hsplit & Hlen);
    [lia |].
  exists earlier, (sliceFrom
              (- Z.min 6 (Z.of_nat (List.length (hoursOf (hourDate latest) hourlyData))))
              (hoursOf (hourDate latest) hourlyData)).
  split; [exact Hsplit |]. split; [exact Hlen |].
  rewrite Hlen. split; reflexivity.
Qed.

Lemma predictToday_window_witness :
  exists r,
    predictToday SampleHours.fourHours = Success r /\
    todayDate r = "2025-01-02"%string /\
    3 <= rollingWindowUsed r <= 6 /\
    rollingWindowUsed r <= hoursPassedToday r.
Proof.
  destruct (predictToday SampleHours.fourHours) as [m | r |] eqn:Hr;
    [vm_compute in Hr; discriminate | | vm_compute in Hr; discriminate].
  exists r. split; [reflexivity |].
  destruct (predictToday_window SampleHours.fourHours r Hr)
    as (_ & Hdate & _ & Hwin & Hle & _).
  split; [| split; [exact Hwin | exact Hle]].
  vm_compute in Hdate. injection Hdate as Hdate. symmetry. exact Hdate.
Defined.

(* ===================================================================== *)
(** ** The two predictions for the month side by side *)

Section MonthFacts.

Context {N : Type} `{JsNumber N}.

Lemma latestPeriod_Some (dailyData : list (DailyTotal N)) :
  1 <= len dailyData -> exists y m, latestPeriod dailyData = Some (y, m).
Proof.
  intros Hlen. unfold latestPeriod.
  destruct (nth_error_last_Some dailyData) as (d & ->).
  - intros ->. unfold len in Hlen. cbn [List.length] in Hlen. lia.
  - cbn [option_map]. eauto.
Qed.

Lemma resolvePeriod_Some (dailyData : list (DailyTotal N)) ty tm :
  1 <= len dailyData -> exists y m, resolvePeriod dailyData ty tm = Some (y, m).
Proof.
  intros Hlen. unfold resolvePeriod.
  destruct (truthy ty && truthy tm); [destruct ty as [y |], tm as [m |] |];
    eauto using latestPeriod_Some.
Qed.

(** The share of the month and the completeness flag of a result. *)
Lemma predictMonthHybrid_percent fetch (dailyData : list (DailyTotal N))
    ty tm td meterId r :
  predictMonthHybrid fetch dailyData ty tm td meterId = Success r ->
  percentMonthComplete r =
    fmin (mul (div (ofZ (effectiveDayLimit td (daysPassedMonth r)))
                   (ofZ (daysInCurrentMonth r))) lit_100) lit_100 /\
  isComplete r = (effectiveDayLimit td (daysPassedMonth r) >=? daysInCurrentMonth r) /\
  28 <= daysInCurrentMonth r <= 31.
Proof.
  unfold predictMonthHybrid.
  destruct (len dailyData <? MIN_DAYS_REQUIRED); [discriminate |].
  destruct (resolvePeriod dailyData ty tm) as [[y m] |]; [| discriminate].
  destruct (len (filter (inPeriod y m td) dailyData) <? MIN_DAYS_REQUIRED);
    [discriminate |].
  cbv zeta.
  match goal with
  | |- context [match ?e with (_, _) => _ end] => destruct e as [[p a] h]
  end.
  intros [= <-]. cbn.
  split; [reflexivity |]. split; [reflexivity |]. apply getDaysInMonth_bounds.
Qed.

End MonthFacts.

(** X23.  Neither prediction for the month reads the date of a missing
    entry: for every series and every request, [predictMonthHybrid] and
    [predictMonth] end in a result or in a message. *)
Theorem month_predictions_never_throw {N : Type} `{JsNumber N}
    (fetch : PriorLoader N) (dailyData : list (DailyTotal N))
    (targetYear targetMonth targetDay : option Z) (meterId : string) :
  predictMonthHybrid fetch dailyData targetYear targetMonth targetDay meterId
    <> Throws /\
  RunRate.predictMonth dailyData targetYear targetMonth targetDay <> Throws.
Proof.
  unfold predictMonthHybrid, RunRate.predictMonth.
  destruct (Z.ltb_spec (len dailyData) MIN_DAYS_REQUIRED) as [| Hlen];
    [split; discriminate |].
  destruct (resolvePeriod_Some dailyData targetYear targetMonth) as (y & m & ->);
    [unfold MIN_DAYS_REQUIRED in Hlen; lia |].
  destruct (len (filter (inPeriod y m targetDay) dailyData) <? MIN_DAYS_REQUIRED);
    [split; discriminate |].
  cbv zeta. split; [| discriminate].
  match goal with
  | |- context [match ?e with (_, _) => _ end] => destruct e as [[p a] h]
  end.
  discriminate.
Qed.

(** X24.  [predictMonthHybrid] answers where [predictMonth] answers and
    refuses where it refuses.  The two agree on the period, the days, the
    share of the month, the completeness and the source of the value; the
    hybrid total is the rounded plain total; and unless the mode is hybrid,
    the hybrid prediction and daily rate are the plain ones, rounded. *)
Theorem predictMonthHybrid_extends_predictMonth {N : Type} `{JsNumber N}
    (fetch : PriorLoader N) (dailyData : list (DailyTotal N))
    (targetYear targetMonth day : option Z) (meterId : string) :
  match RunRate.predictMonth dailyData targetYear targetMonth day with
  | Failure _ =>
      exists message,
        predictMonthHybrid fetch dailyData targetYear targetMonth day meterId
        = Failure message
  | Throws =>
      predictMonthHybrid fetch dailyData targetYear targetMonth day meterId
      = Throws
  | Success plain =>
      exists r,
        predictMonthHybrid fetch dailyData targetYear targetMonth day meterId
        = Success r /\
        year r = RunRate.year plain /\
        month r = RunRate.month plain /\
        daysPassedMonth r = RunRate.daysPassedMonth plain /\
        daysInCurrentMonth r = RunRate.daysInCurrentMonth plain /\
        totalEnergyMonth r = toFixed2 (RunRate.totalEnergyMonth plain) /\
        percentMonthComplete r = RunRate.percentMonthComplete plain /\
        isComplete r = RunRate.isComplete plain /\
        valueSource r = RunRate.valueSource plain /\
        targetDay r = RunRate.targetDay plain /\
        (predictionMode r <> hybrid ->
         predictedMonthKwh r = toFixed2 (RunRate.predictedMonthKwh plain) /\
         averageDailyRate r = toFixed2 (RunRate.averageDailyRate plain))
  end.
Proof.
  unfold predictMonthHybrid, RunRate.predictMonth.
  destruct (len dailyData <? MIN_DAYS_REQUIRED); [eexists; reflexivity |].
  destruct (resolvePeriod dailyData targetYear targetMonth) as [[y m] |];
    [| reflexivity].
  destruct (len (filter (inPeriod y m day) dailyData) <? MIN_DAYS_REQUIRED);
    [eexists; reflexivity |].
  cbv zeta.
  destruct (effectiveDayLimit day (len (filter (inPeriod y m day) dailyData))
            >=? getDaysInMonth y m) eqn:EC;
    destruct (len (filter (inPeriod y m day) dailyData) <? HYBRID_THRESHOLD);
    cbn [andb negb];
    try (eexists; split; [reflexivity |]; cbn;
         repeat split; reflexivity).
  destruct (getPreviousMonth y m) as [py pm] eqn:EP.
  destruct (loadPreviousMonthData fetch py pm meterId) as [prev |];
    [destruct (len prev >? 0) |];
    try (eexists; split; [reflexivity |]; cbn;
         repeat split; reflexivity).
  destruct (blendWithPrevious_eq y m
              (sumEnergy (filter (inPeriod y m day) dailyData))
              (len (filter (inPeriod y m day) dailyData))
              (getDaysInMonth y m) prev) as (meta & Hb & Hmode).
  cbv zeta in Hb. rewrite Hb.
  eexists. split; [reflexivity |]. cbn.
  repeat (split; [reflexivity |]).
  intros C. rewrite Hmode in C. contradiction.
Qed.

(** X25.  A prediction in standard mode owes nothing to the data source of
    the previous month: with any other source, and for any other meter id,
    the same series and request give the same result. *)
Theorem standard_mode_ignores_previous_month {N : Type} `{JsNumber N}
    (fetch fetch' : PriorLoader N) (dailyData : list (DailyTotal N))
    (targetYear targetMonth targetDay : option Z) (meterId meterId' : string)
    (r : HybridResult N) :
  predictMonthHybrid fetch dailyData targetYear targetMonth targetDay meterId
    = Success r ->
  predictionMode r = standard ->
  predictMonthHybrid fetch' dailyData targetYear targetMonth targetDay meterId'
    = Success r.
Proof.
  unfold predictMonthHybrid.
  destruct (len dailyData <? MIN_DAYS_REQUIRED); [discriminate |].
  destruct (resolvePeriod dailyData targetYear targetMonth) as [[y m] |];
    [| discriminate].
  destruct (len (filter (inPeriod y m targetDay) dailyData) <? MIN_DAYS_REQUIRED);
    [discriminate |].
  cbv zeta.
  destruct ((len (filter (inPeriod y m targetDay) dailyData) <? HYBRID_THRESHOLD)
            && negb (effectiveDayLimit targetDay
                       (len (filter (inPeriod y m targetDay) dailyData))
                     >=? getDaysInMonth y m));
    cbn [negb]; [| intros Hr _; exact Hr].
  intros Hr Hm. exfalso.
  destruct (getPreviousMonth y m) as [py pm] eqn:EP.
  destruct (loadPreviousMonthData fetch py pm meterId) as [prev |];
    [destruct (len prev >? 0) |];
    try (injection Hr as <-; discriminate Hm).
  destruct (blendWithPrevious_eq y m
              (sumEnergy (filter (inPeriod y m targetDay) dailyData))
              (len (filter (inPeriod y m targetDay) dailyData))
              (getDaysInMonth y m) prev) as (meta & Hb & Hmode).
  cbv zeta in Hb. rewrite Hb in Hr. injection Hr as <-.
  cbn [predictionMode] in Hm. congruence.
Qed.

Lemma standard_mode_ignores_previous_month_witness :
  exists r,
    predictMonthHybrid (N := b64) Sample.decemberOnly SampleMonth.januaryThreeDays
      (Some 2025) (Some 1) (Some 3) "M1" = Success r /\
    predictionMode r = standard /\
    predictMonthHybrid (N := b64) Sample.failing SampleMonth.januaryThreeDays
      (Some 2025) (Some 1) (Some 3) "M2" = Success r.
Proof.
  destruct (predictMonthHybrid_succeeds (N := b64) Sample.decemberOnly
              SampleMonth.januaryThreeDays (Some 2025) (Some 1) (Some 3) "M1"
              2025 1) as [r Hr];
    [reflexivity | apply Z.leb_le; vm_compute; reflexivity |].
  exists r. split; [exact Hr |].
  assert (predictionMode r = standard) as Hm
    by (vm_compute in Hr; injection Hr as <-; reflexivity).
  split; [exact Hm |].
  exact (standard_mode_ignores_previous_month Sample.decemberOnly Sample.failing
           SampleMonth.januaryThreeDays (Some 2025) (Some 1) (Some 3) "M1" "M2"
           r Hr Hm).
Defined.

(** X27.  The detail of a hybrid result agrees with the result and with the
    request: it names the month before the period of the result, counts the
    days of the series that was loaded for that month and the days of that
    month, repeats the observed days and the rounded total of the result,
    carries the weight of the current month for that many days and its
    complement, and its blended daily rate is the daily rate the result
    reports.  A result with such a detail is in hybrid mode.  This holds in
    every number arithmetic. *)
Theorem hybrid_detail_agrees_with_result {N : Type} `{JsNumber N}
    (fetch : PriorLoader N) (dailyData : list (DailyTotal N))
    (targetYear targetMonth day : option Z) (meterId : string)
    (r : HybridResult N)
    (previousMonth : PreviousMonthInfo N) (currentMonth : CurrentMonthInfo N)
    (weightCurrent weightPrevious hybridAvgDaily : N) (improvement : string) :
  predictMonthHybrid fetch dailyData targetYear targetMonth day meterId
    = Success r ->
  hybridDetail r =
    Some (HybridBlend previousMonth currentMonth weightCurrent weightPrevious
                      hybridAvgDaily improvement) ->
  predictionMode r = hybrid /\
  (prevYear previousMonth, prevMonth previousMonth)
    = getPreviousMonth (year r) (month r) /\
  prevTotalDays previousMonth
    = getDaysInMonth (prevYear previousMonth) (prevMonth previousMonth) /\
  (exists previousMonthData,
     fetch (prevYear previousMonth) (prevMonth previousMonth) meterId
       = FetchReturns previousMonthData /\
     prevDaysUsed previousMonth = len previousMonthData /\
     prevTotalEnergy previousMonth = toFixed2 (sumEnergy previousMonthData)) /\
  curDaysUsed currentMonth = daysPassedMonth r /\
  curTotalEnergy currentMonth = totalEnergyMonth r /\
  weightCurrent = calculateCurrentMonthWeight (daysPassedMonth r) /\
  weightPrevious = sub lit_1 weightCurrent /\
  hybridAvgDaily = averageDailyRate r.
Proof.
  intros Hr Hdetail. apply predictMonthHybrid_Success_inv in Hr.
  destruct Hr as (y & m & _ & Hr). cbv zeta in Hr.
  destruct Hr as (_ & -> & -> & -> & _ & -> & _ & _ & _ & _ & Hcase).
  destruct Hcase as [(_ & _ & Hnone & _)
                    | [(_ & prev & p & a & meta & Hl & Hb & Hm & Hmeta & _ & Ha)
                      | (_ & _ & _ & Hfb & _)]];
    [congruence | | rewrite Hfb in Hdetail; discriminate].
  rewrite Hmeta in Hdetail. injection Hdetail as ->.
  unfold blendWithPrevious in Hb.
  destruct (getPreviousMonth y m) as [py pm] eqn:EP. cbn [fst snd] in Hl.
  injection Hb as _ <- <- <- <- <- <- _.
  cbn [prevYear prevMonth prevTotalDays prevDaysUsed prevTotalEnergy
       curDaysUsed curTotalEnergy].
  apply loadPreviousMonthData_Some in Hl. destruct Hl as (Hf & _ & _).
  rewrite Hm, Ha. cbn [metadataMode].
  repeat split; try reflexivity.
  exists prev. split; [exact Hf |]. split; reflexivity.
Qed.

Lemma hybrid_detail_agrees_with_result_witness :
  exists (r : HybridResult b64) previousMonth currentMonth wc wp h imp,
    predictMonthHybrid Sample.decemberOnly Sample.januaryFirst
      (Some 2025) (Some 1) (Some 1) "M1" = Success r /\
    hybridDetail r = Some (HybridBlend previousMonth currentMonth wc wp h imp) /\
    (prevYear previousMonth, prevMonth previousMonth) = (2024, 12) /\
    h = averageDailyRate r /\
    curTotalEnergy currentMonth = totalEnergyMonth r.
Proof.
  destruct (predictMonthHybrid_succeeds (N := b64) Sample.decemberOnly
              Sample.januaryFirst (Some 2025) (Some 1) (Some 1) "M1"
              2025 1) as [r Hr];
    [reflexivity | apply Z.leb_le; vm_compute; reflexivity |].
  destruct (hybridDetail r) as [[previousMonth currentMonth wc wp h imp | ? ?] |]
    eqn:Hdetail;
    [| exfalso; vm_compute in Hr; injection Hr as <-; discriminate Hdetail
     | exfalso; vm_compute in Hr; injection Hr as <-; discriminate Hdetail].
  exists r, previousMonth, currentMonth, wc, wp, h, imp.
  split; [exact Hr |]. split; [exact Hdetail |].
  destruct (hybrid_detail_agrees_with_result Sample.decemberOnly
              Sample.januaryFirst (Some 2025) (Some 1) (Some 1) "M1" r
              previousMonth currentMonth wc wp h imp Hr Hdetail)
    as (_ & Hprev & _ & _ & _ & Htotal & _ & _ & Hrate).
  assert (year r = 2025 /\ month r = 1) as (Hy & Hmo)
    by (vm_compute in Hr; injection Hr as <-; split; reflexivity).
  rewrite Hy, Hmo in Hprev.
  split; [exact Hprev |]. split; [exact Hrate | exact Htotal].
Defined.

(* ===================================================================== *)
(** ** The month in exact arithmetic *)

Section MonthExact.

Import ExactNumber.
Local Open Scope Q_scope.

(** The share of the month against 100 is the day limit against the length
    of the month. *)
Lemma percent_le_100 (e d : Z) :
  (0 < d)%Z ->
  (inject_Z e / inject_Z d * 100 <= 100 <-> (e <= d)%Z) /\
  (inject_Z e / inject_Z d * 100 == 100 <-> e = d).
Proof.
  intros Hd.
  assert (0 < inject_Z d) as Hpos
    by (replace 0 with (inject_Z 0) by reflexivity; rewrite <- Zlt_Qlt; exact Hd).
  assert (inject_Z e == inject_Z e / inject_Z d * inject_Z d) as He
    by (field; lra).
  rewrite (Zle_Qle e d).
  assert (e = d <-> inject_Z e == inject_Z d) as ->.
  { symmetry. apply inject_Z_injective. }
  generalize dependent (inject_Z e / inject_Z d). intros q He.
  generalize dependent (inject_Z e). generalize dependent (inject_Z d).
  intros qd Hpos qe He.
  split; split; intros Hq; nra.
Qed.

(** In binary64 the completeness test is the same count, for the days a
    month can hold. *)
Lemma dataCompleteness_binary64 (data : list (DailyTotal b64)) (year month : Z) :
  (len data <= 31)%Z ->
  ltb (dataCompleteness data year month) lit_50 = true <->
  (2 * len data < getDaysInMonth year month)%Z.
Proof.
  intros Hlen. pose proof (getDaysInMonth_bounds year month) as Hdim.
  pose proof (len_nonneg data) as Hn.
  unfold dataCompleteness.
  generalize dependent (getDaysInMonth year month). intros d Hd.
  generalize dependent (len data). intros n Hlen Hn.
  assert (forallb
            (fun n' =>
               forallb
                 (fun d' =>
                    Bool.eqb (ltb (mul (div (ofZ n') (ofZ d')) lit_100 : b64) lit_50)
                             (2 * n' <? d')%Z)
                 [28; 29; 30; 31]%Z)
            (map Z.of_nat (seq 0 32)) = true) as Htable
    by (vm_compute; reflexivity).
  rewrite forallb_forall in Htable.
  assert (In n (map Z.of_nat (seq 0 32))) as Hin.
  { apply in_map_iff. exists (Z.to_nat n). split; [lia |].
    apply in_seq. lia. }
  specialize (Htable n Hin). rewrite forallb_forall in Htable.
  assert (In d [28; 29; 30; 31]%Z) as Hind by (cbn [In]; lia).
  specialize (Htable d Hind). apply Bool.eqb_prop in Htable.
  rewrite Htable. apply Z.ltb_lt.
Qed.

(** Once the completeness test is a count, so is the loader. *)
Lemma loadPreviousMonthData_by_count {N : Type} `{JsNumber N}
    (fetch : PriorLoader N) (year month : Z) (meterId : string)
    (previousMonthData : list (DailyTotal N)) :
  (ltb (dataCompleteness previousMonthData year month) lit_50 = true <->
   (2 * len previousMonthData < getDaysInMonth year month)%Z) ->
  (loadPreviousMonthData fetch year month meterId = Some previousMonthData <->
   fetch year month meterId = FetchReturns previousMonthData /\
   (getDaysInMonth year month <= 2 * len previousMonthData)%Z).
Proof.
  intros Hc. pose proof (getDaysInMonth_bounds year month) as Hdim.
  split.
  - intros Hl. apply loadPreviousMonthData_Some in Hl.
    destruct Hl as (Hf & _ & Hlt). split; [exact Hf |].
    destruct (Z.le_gt_cases (getDaysInMonth year month) (2 * len previousMonthData))
      as [Hle | Hgt]; [exact Hle | exfalso].
    assert (ltb (dataCompleteness previousMonthData year month) lit_50 = true) as C
      by (apply Hc; lia).
    congruence.
  - intros (Hf & Hle). unfold loadPreviousMonthData. rewrite Hf.
    destruct (Z.eqb_spec (len previousMonthData) 0) as [E | _]; [lia |].
    destruct (ltb (dataCompleteness previousMonthData year month) lit_50) eqn:E;
      [destruct Hc as [Hc _]; specialize (Hc eq_refl); lia | reflexivity].
Qed.

(** X26.  For a month whose last day lies inside the range of [Date],
    [loadPreviousMonthData] hands on exactly the series that the data source
    returns with at least half as many days as the month has; the test for
    an empty series refuses nothing that the test for 50% would let through.
    This holds in exact arithmetic for every series, and in binary64 for
    every series of at most 31 daily totals, which is what a month can
    hold. *)
Theorem loadPreviousMonthData_half_month (year month : Z) (meterId : string) :
  inTimeRange (JsDate.UTC year month 0) ->
  (forall (fetch : PriorLoader Q) (previousMonthData : list (DailyTotal Q)),
     loadPreviousMonthData fetch year month meterId = Some previousMonthData <->
     fetch year month meterId = FetchReturns previousMonthData /\
     (getDaysInMonth year month <= 2 * len previousMonthData)%Z)
  /\
  (forall (fetch : PriorLoader b64) (previousMonthData : list (DailyTotal b64)),
     (len previousMonthData <= 31)%Z ->
     (loadPreviousMonthData fetch year month meterId = Some previousMonthData <->
      fetch year month meterId = FetchReturns previousMonthData /\
      (getDaysInMonth year month <= 2 * len previousMonthData)%Z)).
Proof.
  intros _. split.
  - intros fetch previousMonthData.
    apply loadPreviousMonthData_by_count, dataCompleteness_exact.
  - intros fetch previousMonthData Hlen.
    apply loadPreviousMonthData_by_count, dataCompleteness_binary64, Hlen.
Qed.

Lemma loadPreviousMonthData_half_month_witness :
  loadPreviousMonthData (N := b64) Sample.decemberOnly 2024 12 "M1"
    = Some Sample.december /\
  (getDaysInMonth 2024 12 <= 2 * len (Sample.december (N := b64)))%Z.
Proof.
  destruct (loadPreviousMonthData_half_month 2024 12 "M1") as [_ Hb];
    [in_time_range |].
  destruct (Hb Sample.decemberOnly Sample.december) as [H _];
    [apply Z.leb_le; vm_compute; reflexivity |].
  split; [reflexivity |]. apply H. reflexivity.
Defined.

(** X28.  In exact arithmetic the share of the month that a result reports
    never exceeds 100, and it is 100 exactly for a result that is marked
    complete. *)
Theorem percentMonthComplete_capped
    (fetch : PriorLoader Q) (dailyData : list (DailyTotal Q))
    (targetYear targetMonth day : option Z) (meterId : string)
    (r : HybridResult Q) :
  predictMonthHybrid fetch dailyData targetYear targetMonth day meterId
    = Success r ->
  percentMonthComplete r <= 100 /\
  (percentMonthComplete r == 100 <-> isComplete r = true).
Proof.
  intros Hr. apply predictMonthHybrid_percent in Hr.
  destruct Hr as (-> & -> & Hdim).
  destruct (percent_le_100 (effectiveDayLimit day (daysPassedMonth r))
                           (daysInCurrentMonth r)) as [Hle Heq]; [lia |].
  cbn [fmin mul div ofZ Q_number]. change (@lit_100 Q Q_number) with 100.
  unfold minQ.
  rewrite Z.geb_leb.
  destruct (Qle_bool _ 100) eqn:Hb.
  - apply Qle_bool_iff in Hb. split; [exact Hb |].
    rewrite Heq. apply Hle in Hb. rewrite Z.leb_le. lia.
  - split; [apply Qle_refl |]. split; [intros _ | reflexivity].
    apply Z.leb_le. apply Z.lt_le_incl, Z.lt_nge. intros C. apply Hle in C.
    apply Qle_bool_iff in C. congruence.
Qed.

Lemma percentMonthComplete_capped_witness :
  exists r : HybridResult Q,
    predictMonthHybrid Sample.decemberOnly Sample.januaryFirst
      (Some 2025%Z) (Some 1%Z) (Some 1%Z) "M1" = Success r /\
    isComplete r = false /\
    percentMonthComplete r <= 100 /\
    ~ percentMonthComplete r == 100.
Proof.
  destruct (predictMonthHybrid_succeeds (N := Q) Sample.decemberOnly
              Sample.januaryFirst (Some 2025%Z) (Some 1%Z) (Some 1%Z) "M1"
              2025%Z 1%Z) as [r Hr];
    [reflexivity | apply Z.leb_le; vm_compute; reflexivity |].
  exists r. split; [exact Hr |].
  assert (isComplete r = false) as Hc
    by (vm_compute in Hr; injection Hr as <-; reflexivity).
  split; [exact Hc |].
  destruct (percentMonthComplete_capped Sample.decemberOnly Sample.januaryFirst
              (Some 2025%Z) (Some 1%Z) (Some 1%Z) "M1" r Hr) as [Hle Hiff].
  split; [exact Hle |].
  intros C. apply Hiff in C. congruence.
Defined.

End MonthExact.

(* ===================================================================== *)
(** ** The query for a range of readings *)

(** X29.  In the query of [fetchReadingsInRange] the placeholders and the
    values line up on every path through the four tests: there are as many
    conditions as values, and the condition in position [i] holds one
    placeholder, the one numbered [i + 1], at its end. *)
Theorem fetchReadingsInRange_placeholders
    (dateParse : string -> option Z) (startParam endParam meterId : option string)
    (conditions : list string) (params : list QueryParam) :
  rangeConditions dateParse startParam endParam meterId = (conditions, params) ->
  List.length conditions = List.length params /\
  forall i condition,
    nth_error conditions i = Some condition ->
    occurrences "$"%char condition = 1%nat /\
    endsWith ("$" ++ string_of_Z (Z.of_nat i + 1)) condition = true.
Proof.
  unfold rangeConditions, extractYearMonth.
  destruct startParam as [startText |]; cbn [truthyText];
    [destruct (String.eqb startText ""); cbn [negb];
     [| destruct (dateParse (startText ++ "T00:00:00Z")%string) as [d |];
        [cbn [truthy]; destruct (JsDate.getUTCFullYear d =? 0);
         destruct (JsDate.getUTCMonth d + 1 =? 0); cbn [negb andb] |]] |];
    (destruct endParam as [endText |]; cbn [truthyText];
     [destruct (String.eqb endText ""); cbn [negb] |]);
    (destruct meterId as [meterText |]; cbn [truthyText];
     [destruct (String.eqb meterText ""); cbn [negb] |]);
    intros [= <- <-]; (split; [reflexivity |]);
    intros i condition Hc;
    repeat (destruct i as [| i]; cbn [nth_error] in Hc;
            [injection Hc as <-; split; vm_compute; reflexivity |]);
    destruct i; discriminate Hc.
Qed.

Lemma fetchReadingsInRange_placeholders_witness :
  exists conditions params,
    rangeConditions (fun _ => Some (utcMidnightMs 2025 1 1))
                    (Some "2025-01-01"%string) (Some "2025-02-01"%string) (Some "M1"%string)
    = (conditions, params) /\
    params = [NumberParam 2025; NumberParam 1; TextParam "2025-01-01"%string;
              TextParam "2025-02-01"%string; TextParam "M1"%string] /\
    List.length conditions = 5%nat /\
    option_map (endsWith "$5"%string) (nth_error conditions 4) = Some true.
Proof.
  eexists. eexists. split; [vm_compute; reflexivity |].
  split; [reflexivity |].
  match goal with
  | |- List.length ?c = _ /\ _ =>
      destruct (fetchReadingsInRange_placeholders
                  (fun _ => Some (utcMidnightMs 2025 1 1))
                  (Some "2025-01-01"%string) (Some "2025-02-01"%string) (Some "M1"%string)
                  c [NumberParam 2025; NumberParam 1; TextParam "2025-01-01"%string;
                     TextParam "2025-02-01"%string; TextParam "M1"%string])
        as [Hlen Hall]; [vm_compute; reflexivity |]
  end.
  split; [exact Hlen |].
  destruct (Hall 4%nat _ eq_refl) as [_ Hend].
  cbn [nth_error option_map]. exact (f_equal Some Hend).
Defined.

(** X30.  [fetchReadingsInRange] sends no values exactly when the start, the
    end and the meter are each missing or empty, which is how
    [fetchAllReadings] calls it; the query is then the selection of the
    whole table, without a [WHERE] clause. *)
Theorem fetchReadingsInRange_unfiltered
    (dateParse : string -> option Z) (tableIdent : string)
    (startParam endParam meterId : option string)
    (text : string) (params : list QueryParam) :
  fetchReadingsInRangeQuery dateParse tableIdent startParam endParam meterId
    = (text, params) ->
  (params = [] <->
   truthyText startParam = false /\ truthyText endParam = false /\
   truthyText meterId = false) /\
  (params = [] ->
   text = ("SELECT meter_id, " ++ tsExpr ++ " AS ts, energy_consumed_kwh FROM "
             ++ tableIdent ++ "  ORDER BY ts ASC")%string).
Proof.
  unfold fetchReadingsInRangeQuery, rangeConditions, extractYearMonth.
  destruct startParam as [startText |]; cbn [truthyText];
    [destruct (String.eqb startText ""); cbn [negb];
     [| destruct (dateParse (startText ++ "T00:00:00Z")%string) as [d |];
        [cbn [truthy]; destruct (JsDate.getUTCFullYear d =? 0);
         destruct (JsDate.getUTCMonth d + 1 =? 0); cbn [negb andb] |]] |];
    (destruct endParam as [endText |]; cbn [truthyText];
     [destruct (String.eqb endText ""); cbn [negb] |]);
    (destruct meterId as [meterText |]; cbn [truthyText];
     [destruct (String.eqb meterText ""); cbn [negb] |]);
    cbn [List.app List.length Z.of_nat Z.eqb];
    intros [= <- <-];
    (split; [split; [intros E; try discriminate E; auto
                    | intros (E1 & E2 & E3); try discriminate; reflexivity]
            | intros E; try discriminate E; reflexivity]).
Qed.

Lemma fetchReadingsInRange_unfiltered_witness :
  exists text,
    fetchReadingsInRangeQuery (fun _ => None) (quoteIdent "ksr-energy_meter")
                              None (Some ""%string) None = (text, []) /\
    text = ("SELECT meter_id, " ++ tsExpr ++ " AS ts, energy_consumed_kwh FROM "
              ++ quoteIdent "ksr-energy_meter" ++ "  ORDER BY ts ASC")%string /\
    occurrences "$"%char text = 0%nat.
Proof.
  eexists. split; [vm_compute; reflexivity |].
  match goal with
  | |- ?t = _ /\ _ =>
      destruct (fetchReadingsInRange_unfiltered (fun _ => None)
                  (quoteIdent "ksr-energy_meter") None (Some ""%string) None t [])
        as [_ Htext]; [vm_compute; reflexivity |]
  end.
  split; [exact (Htext eq_refl) | vm_compute; reflexivity].
Defined.
